(** * Scrapers of the MonadBFT research corpus: a shallow embedding

    The three scrapers under [monad-bft-research/scrapers] are embedded
    function by function:
    - [arxiv_scraper.py]: paper metadata from an Atom feed, search and
      removal of duplicates;
    - [blog_scraper.py]: blog posts from article containers, the keyword
      filter and [save_post];
    - [docs_scraper.py]: the documentation crawl with its queue of URLs,
      the set of visited URLs, link discovery and [save_page].

    Python values are represented as follows.  [str] is [string] (the
    methods below act on ASCII, which is what the examples use); [None] and
    [Optional] are [option]; a [set] of strings is a [gset string]; a
    directory of files is a [gmap] from path to file content; an exception
    is a constructor of [exn] carried by [result]. *)

From Stdlib Require Import String Ascii List Bool Arith Lia.
From stdpp Require Import base option list gmap sets strings.
Import ListNotations.
Local Open Scope string_scope.
Local Open Scope list_scope.
Set Warnings "-register-all".

(** ** Python [str] methods used by the scrapers *)

Module PyStr.

(** [c.isspace()] on ASCII: TAB..CR, FS..US and the blank. *)
Definition is_space (c : ascii) : bool :=
  let n := nat_of_ascii c in
  (((9 <=? n) && (n <=? 13)) || ((28 <=? n) && (n <=? 32)))%nat.

Definition lower_char (c : ascii) : ascii :=
  let n := nat_of_ascii c in
  if ((65 <=? n) && (n <=? 90))%nat then ascii_of_nat (n + 32) else c.

(** [s.lower()] *)
Fixpoint lower (s : string) : string :=
  match s with
  | EmptyString => EmptyString
  | String c s' => String (lower_char c) (lower s')
  end.

Fixpoint lstrip_by (p : ascii -> bool) (s : string) : string :=
  match s with
  | EmptyString => EmptyString
  | String c s' => if p c then lstrip_by p s' else s
  end.

Fixpoint rstrip_by (p : ascii -> bool) (s : string) : string :=
  match s with
  | EmptyString => EmptyString
  | String c s' =>
      match rstrip_by p s' with
      | EmptyString => if p c then EmptyString else String c EmptyString
      | r => String c r
      end
  end.

(** [s.strip()] and [s.strip(c)] for a one-character argument *)
Definition strip (s : string) : string := rstrip_by is_space (lstrip_by is_space s).
Definition strip_char (c : ascii) (s : string) : string :=
  rstrip_by (Ascii.eqb c) (lstrip_by (Ascii.eqb c) s).

(** [sub in s] *)
Fixpoint contains (sub s : string) : bool :=
  String.prefix sub s ||
  match s with
  | EmptyString => false
  | String _ s' => contains sub s'
  end.

(** [s.replace(old, new)] for a non-empty [old]: occurrences are taken
    from the left and do not overlap; [skip] counts the characters of an
    occurrence still to be dropped. *)
Fixpoint replace_go (old new : string) (skip : nat) (s : string) : string :=
  match s with
  | EmptyString => EmptyString
  | String c s' =>
      match skip with
      | S k => replace_go old new k s'
      | O =>
          if String.prefix old s
          then new +:+ replace_go old new (String.length old - 1) s'
          else String c (replace_go old new 0 s')
      end
  end.
Definition replace (old new s : string) : string := replace_go old new 0 s.

(** [s.split(sep)] for a non-empty [sep], same scanning as [replace];
    [cur] is the piece being read. *)
Fixpoint split_go (sep : string) (skip : nat) (cur : string) (s : string) : list string :=
  match s with
  | EmptyString => [cur]
  | String c s' =>
      match skip with
      | S k => split_go sep k cur s'
      | O =>
          if String.prefix sep s
          then cur :: split_go sep (String.length sep - 1) EmptyString s'
          else split_go sep 0 (cur +:+ String c EmptyString) s'
      end
  end.
Definition split (sep s : string) : list string := split_go sep 0 EmptyString s.

(** [l[-1]] of a list that [split] returned (never empty) *)
Definition last_piece (l : list string) : string := List.last l EmptyString.

(** [s[:n]] *)
Definition slice_to (n : nat) (s : string) : string := String.substring 0 n s.

(** [sep.join(l)] *)
Definition join (sep : string) (l : list string) : string := String.concat sep l.

(** The occurrence relation that [contains] decides. *)
Definition occurs_in (sub s : string) : Prop :=
  exists pre post : string, s = pre +:+ sub +:+ post.

End PyStr.

(** ** Exceptions *)

Inductive exn : Type :=
| AttributeError   (* a method or attribute of [None] *)
| ParseError       (* [xml.etree.ElementTree.ParseError] *)
| ValueError       (* raised by [urllib.parse] on a URL it rejects *)
| KeyError         (* [tag[key]] for an attribute the tag does not have *)
| OSError          (* [open] on a path that cannot be opened for writing *)
| RequestException (* [requests]: network failure or HTTP error status *).

Inductive result (A : Type) : Type :=
| Ok (a : A)
| Raise (e : exn).
Arguments Ok {A} a.
Arguments Raise {A} e.

#[global] Instance result_ret : MRet result := fun A a => Ok a.
#[global] Instance result_fmap : FMap result := fun A B f m =>
  match m with
  | Ok a => Ok (f a)
  | Raise e => Raise e
  end.
#[global] Instance result_bind : MBind result := fun A B f m =>
  match m with
  | Ok a => f a
  | Raise e => Raise e
  end.

(** [try: body except E: return handler] for the exceptions [handles] selects *)
Definition try_except {A} (body : result A) (handles : exn -> bool) (handler : A) : result A :=
  match body with
  | Ok a => Ok a
  | Raise e => if handles e then Ok handler else Raise e
  end.

Definition is_ParseError (e : exn) : bool :=
  match e with ParseError => true | _ => false end.

(** The value of a [try] whose handler is [except Exception: return handler] *)
Definition caught {A} (body : result A) (handler : A) : A :=
  match body with
  | Ok a => a
  | Raise _ => handler
  end.

(** An attribute or method of a value that may be [None] *)
Definition attr_of {A B} (f : A -> B) (o : option A) : result B :=
  match o with
  | Some a => Ok (f a)
  | None => Raise AttributeError
  end.

(** [a or b] on values that are [None] or an object that is true *)
Definition py_or {A} (a b : option A) : option A :=
  match a with
  | Some _ => a
  | None => b
  end.
Infix "|||" := py_or (at level 50, left associativity).

(** The outcome of [session.get] followed by [raise_for_status]: a body, or
    a [RequestException] (connection error, timeout, HTTP error status). *)
Inductive http (A : Type) : Type :=
| Response (body : A)
| Failed.
Arguments Response {A} body.
Arguments Failed {A}.

(** [Path(dir) / name], for a relative [name] *)
Definition path_join (dir name : string) : string := dir +:+ "/" +:+ name.

(** ** The output directory

    [Path(output_dir) / name] and [open] belong to pathlib and to the file
    system; the scrapers whose file names are not always plain are embedded
    over any file system.  [opens dir name] is the file that
    [open(Path(dir) / name, 'w')] opens, or [None] when [open] raises
    [OSError], as it does when the name lies in a directory that is not
    there.  A file is what is written to: two names that reach the same
    file, as [alpha.json] and [./alpha.json] do, have the same value, and
    the path that a save returns is represented by this file.  The file
    names of the documentation scraper never hold a [/]; its files are
    told apart by the path itself. *)

Class FileSys := {
  opens : string -> string -> option string
}.

(** An [open] that raises [OSError] *)
Definition or_OSError {A} (o : option A) : result A :=
  match o with
  | Some a => Ok a
  | None => Raise OSError
  end.

(** A name without [/]: the name of a file in the directory itself. *)
Definition plain (name : string) : Prop := PyStr.contains "/" name = false.

(** The file system keeps the plain names of a directory apart. *)
Definition separates (F : FileSys) : Prop :=
  ∀ dir name1 name2 file,
    plain name1 → plain name2 →
    opens dir name1 = Some file → opens dir name2 = Some file → name1 = name2.

(** A model of an output directory that has just been made, holds no
    directory, and is the only place where the process may write.  As
    pathlib does, it splits the name at [/] and drops the empty pieces and
    the pieces [.]; an absolute name replaces the directory.  A single
    piece other than [..] is the file of that name in the directory; no
    piece, or [..] alone, is a directory; any other name lies in a
    directory that is not there or outside of the output directory.  It is
    used to run the scrapers on sample records. *)
Module SimpleFiles.

Definition components (name : string) : list string :=
  List.filter (fun piece => negb (String.eqb piece "" || String.eqb piece "."))
              (PyStr.split "/" name).

Definition opens_ (dir name : string) : option string :=
  if String.prefix "/" name then None
  else match components name with
       | [piece] => if String.eqb piece ".." then None else Some (path_join dir piece)
       | _ => None
       end.

Definition fs : FileSys := {| opens := opens_ |}.

End SimpleFiles.

(** ** [urllib.parse]

    [urljoin] and [urlparse] belong to the Python library; the scrapers are
    embedded over any implementation of them.  [None] stands for the
    [ValueError] they raise on a URL they reject. *)

Class UrlLib := {
  urljoin : string -> string -> option string;
  url_netloc : string -> option string;   (* [urlparse(u).netloc] *)
  url_path : string -> option string      (* [urlparse(u).path] *)
}.

(** A library call that raises [ValueError] *)
Definition or_ValueError {A} (o : option A) : result A :=
  match o with
  | Some a => Ok a
  | None => Raise ValueError
  end.

(** A model of [urllib.parse] for URLs [scheme://host/path#fragment]
    without query, parameters or dot segments, and for references that are
    such a URL, a path (absolute or relative), or a fragment [#...].  It
    is used to run the scrapers on concrete pages. *)
Module SimpleUrl.

Fixpoint take_until (stop : ascii -> bool) (s : string) : string :=
  match s with
  | EmptyString => EmptyString
  | String c s' => if stop c then EmptyString else String c (take_until stop s')
  end.

Fixpoint drop_until (stop : ascii -> bool) (s : string) : string :=
  match s with
  | EmptyString => EmptyString
  | String c s' => if stop c then s else drop_until stop s'
  end.

(** the text after the first ["://"], when there is one *)
Fixpoint after_scheme (s : string) : option string :=
  match s with
  | EmptyString => None
  | String _ s' =>
      if String.prefix "://" s then Some (String.substring 3 (String.length s) s)
      else after_scheme s'
  end.

Fixpoint scheme_part (s : string) : string :=
  match s with
  | EmptyString => EmptyString
  | String c s' => if String.prefix "://" s then "://" else String c (scheme_part s')
  end.

Definition ends_netloc (c : ascii) : bool :=
  Ascii.eqb c "/" || Ascii.eqb c "?" || Ascii.eqb c "#".
Definition ends_path (c : ascii) : bool :=
  Ascii.eqb c "?" || Ascii.eqb c "#".
Definition is_hash (c : ascii) : bool := Ascii.eqb c "#".

Definition raw_netloc (u : string) : string :=
  match after_scheme u with
  | Some rest => take_until ends_netloc rest
  | None => EmptyString
  end.

(** [urlsplit] raises on a netloc with one bracket only *)
Definition rejected (u : string) : bool :=
  xorb (PyStr.contains "[" (raw_netloc u)) (PyStr.contains "]" (raw_netloc u)).

Definition netloc (u : string) : option string :=
  if rejected u then None else Some (raw_netloc u).

Definition path (u : string) : option string :=
  if rejected u then None else
  match after_scheme u with
  | Some rest => Some (take_until ends_path (drop_until ends_netloc rest))
  | None => Some (take_until ends_path u)
  end.

Definition origin (u : string) : string := scheme_part u +:+ raw_netloc u.

(** a path up to its last [/] *)
Fixpoint dir_of (s : string) : string :=
  match s with
  | EmptyString => EmptyString
  | String c s' => if PyStr.contains "/" s then String c (dir_of s') else EmptyString
  end.

Definition base_dir (u : string) : string :=
  match after_scheme u with
  | Some rest =>
      match dir_of (take_until ends_path (drop_until ends_netloc rest)) with
      | EmptyString => "/"
      | d => d
      end
  | None => "/"
  end.

Definition join (base ref : string) : option string :=
  if rejected base || rejected ref then None else
  match ref with
  | EmptyString => Some base
  | String c _ =>
      if PyStr.contains "://" ref then Some ref
      else if Ascii.eqb c "/" then Some (origin base +:+ ref)
      else if Ascii.eqb c "#" then Some (take_until is_hash base +:+ ref)
      else Some (origin base +:+ base_dir base +:+ ref)
  end.

Definition lib : UrlLib :=
  {| urljoin := join; url_netloc := netloc; url_path := path |}.

End SimpleUrl.

(** ** BeautifulSoup documents

    A parsed document is a tree of tags and strings (comments and other
    special strings, which [get_text] leaves out, are not represented).
    The value of an attribute is a string, or a list of tokens for the
    attributes that BeautifulSoup splits on whitespace ([class], [rel],
    ...).  The soup itself is the tag named ["[document]"]. *)

Module Bs4.

Inductive attr_value : Type :=
| AVal (s : string)
| AList (l : list string).

Inductive node : Type :=
| Tag (name : string) (attrs : list (string * attr_value)) (children : list node)
| NavigableString (s : string).

Definition soup (children : list node) : node := Tag "[document]" [] children.

Definition children_of (n : node) : list node :=
  match n with
  | Tag _ _ ch => ch
  | NavigableString _ => []
  end.

Definition name_of (n : node) : option string :=
  match n with
  | Tag nm _ _ => Some nm
  | NavigableString _ => None
  end.

Fixpoint lookup_attr (key : string) (l : list (string * attr_value)) : option attr_value :=
  match l with
  | [] => None
  | (k, v) :: l' => if String.eqb k key then Some v else lookup_attr key l'
  end.

(** [tag.get(key)] *)
Definition get (key : string) (n : node) : option attr_value :=
  match n with
  | Tag _ at_ _ => lookup_attr key at_
  | NavigableString _ => None
  end.

(** The text of an attribute value ([href], [datetime] are plain strings). *)
Definition attr_text (v : attr_value) : string :=
  match v with
  | AVal s => s
  | AList l => PyStr.join " " l
  end.

(** [tag[key]] *)
Definition item (key : string) (n : node) : result string :=
  match get key n with
  | Some v => Ok (attr_text v)
  | None => Raise KeyError
  end.

(** Document order: a node, then its descendants child by child. *)
Fixpoint self_and_descendants (n : node) : list node :=
  n :: match n with
       | Tag _ _ ch => List.flat_map self_and_descendants ch
       | NavigableString _ => []
       end.

Definition descendants (n : node) : list node :=
  List.flat_map self_and_descendants (children_of n).

(** *** Filters of [find] and [find_all] *)

Definition named (nm : string) (n : node) : bool :=
  match name_of n with
  | Some x => String.eqb x nm
  | None => false
  end.

Definition named_in (nms : list string) (n : node) : bool :=
  List.existsb (fun nm => named nm n) nms.

(** [key=value] for a token [value]: a string attribute must equal it, a
    token list must contain it. *)
Definition attr_is (key value : string) (n : node) : bool :=
  match get key n with
  | Some (AVal s) => String.eqb s value
  | Some (AList l) => List.existsb (String.eqb value) l
  | None => false
  end.

Definition has_class (c : string) (n : node) : bool := attr_is "class" c n.

(** [key=True] *)
Definition has_attr (key : string) (n : node) : bool :=
  match get key n with
  | Some _ => true
  | None => false
  end.

Definition both (p q : node -> bool) (n : node) : bool := p n && q n.

Definition find_all (p : node -> bool) (n : node) : list node :=
  List.filter p (descendants n).

Definition find (p : node -> bool) (n : node) : option node :=
  List.head (find_all p n).

(** *** Text *)

Definition string_of (n : node) : option string :=
  match n with
  | NavigableString s => Some s
  | Tag _ _ _ => None
  end.

Definition non_empty (s : string) : bool :=
  match s with
  | EmptyString => false
  | String _ _ => true
  end.

(** [n.get_text(separator=sep, strip=True)] *)
Definition get_text (sep : string) (n : node) : string :=
  PyStr.join sep
    (List.filter non_empty
       (List.map PyStr.strip (omap string_of (descendants n)))).

(** *** Mutation *)

(** [for e in n(names): e.decompose()]: every descendant tag with one of
    the names leaves the tree. *)
Fixpoint without (names : list string) (n : node) : node :=
  match n with
  | Tag nm at_ ch =>
      let fix go (l : list node) : list node :=
        match l with
        | [] => []
        | c :: l' => if named_in names c then go l' else without names c :: go l'
        end in
      Tag nm at_ (go ch)
  | NavigableString s => NavigableString s
  end.

(** The tree after [f] has been applied in place to the first node, in
    document order, that satisfies [p]; [None] when there is none. *)
Fixpoint update_first (p : node -> bool) (f : node -> node) (n : node) : option node :=
  if p n then Some (f n) else
  match n with
  | Tag nm at_ ch =>
      let fix go (l : list node) : option (list node) :=
        match l with
        | [] => None
        | c :: l' =>
            match update_first p f c with
            | Some c' => Some (c' :: l')
            | None =>
                match go l' with
                | Some l'' => Some (c :: l'')
                | None => None
                end
            end
        end in
      match go ch with
      | Some ch' => Some (Tag nm at_ ch')
      | None => None
      end
  | NavigableString _ => None
  end.

(** The same for the nodes of a list and what is below them. *)
Definition update_first_in (p : node -> bool) (f : node -> node)
  : list node -> option (list node) :=
  fix go (l : list node) : option (list node) :=
    match l with
    | [] => None
    | c :: l' =>
        match update_first p f c with
        | Some c' => Some (c' :: l')
        | None =>
            match go l' with
            | Some l'' => Some (c :: l'')
            | None => None
            end
        end
    end.

(** The tree after [f] has been applied in place to the node that [find]
    returns, which is below the root. *)
Definition update_first_below (p : node -> bool) (f : node -> node) (n : node) : node :=
  match n with
  | Tag nm at_ ch =>
      match update_first_in p f ch with
      | Some ch' => Tag nm at_ ch'
      | None => n
      end
  | NavigableString _ => n
  end.

(** A filter that looks at the name and the attributes of a node only. *)
Definition shallow (p : node -> bool) : Prop :=
  ∀ nm at_ ch ch', p (Tag nm at_ ch) = p (Tag nm at_ ch').

(** What [update_first] does to the nodes that [find_all] lists: there is
    none, or the first one has become its image by [f] and is still the
    first one in the tree that results. *)
Definition updated (p : node -> bool) (f : node -> node)
           (before : list node) (after : option (list node)) : Prop :=
  match after with
  | None => List.filter p before = []
  | Some l =>
      ∃ (e : node) (rest : list node),
        List.filter p before = e :: rest ∧ List.head (List.filter p l) = Some (f e)
  end.

End Bs4.

(** ** ElementTree documents *)

Module ET.

(** An element: its qualified tag [{namespace}local], attributes, the
    text before its first child ([None] when there is none) and its
    children. *)
Inductive xml : Type :=
| Element (tag : string) (attrib : list (string * string))
          (text : option string) (children : list xml).

Definition tag_of (e : xml) : string := match e with Element t _ _ _ => t end.
Definition attrib_of (e : xml) : list (string * string) := match e with Element _ a _ _ => a end.
Definition text_of (e : xml) : option string := match e with Element _ _ t _ => t end.
Definition children_of (e : xml) : list xml := match e with Element _ _ _ c => c end.

(** [e.findall(tag)] and [e.find(tag)] look at the children of [e]. *)
Definition findall (tag : string) (e : xml) : list xml :=
  List.filter (fun c => String.eqb (tag_of c) tag) (children_of e).

Definition find (tag : string) (e : xml) : option xml :=
  List.head (findall tag e).

(** [e.get(key)] *)
Fixpoint get (key : string) (l : list (string * string)) : option string :=
  match l with
  | [] => None
  | (k, v) :: l' => if String.eqb k key then Some v else get key l'
  end.

(** What [ET.fromstring] makes of a response body. *)
Inductive document : Type :=
| NotWellFormed
| WellFormed (root : xml).

Definition fromstring (d : document) : result xml :=
  match d with
  | NotWellFormed => Raise ParseError
  | WellFormed root => Ok root
  end.

(** All elements of a tree, the root first. *)
Fixpoint elements (e : xml) : list xml :=
  e :: match e with
       | Element _ _ _ ch => List.flat_map elements ch
       end.

End ET.

(** ** arxiv_scraper.py *)

Module Arxiv.

Record ArxivPaper : Type := {
  paper_id : string;
  title : string;
  authors : list (option string);
  abstract : string;
  published : option string;
  updated : option string;
  pdf_url : string;
  arxiv_url : string;
  categories : list (option string);
  doi : option string;
  journal_ref : option string
}.

Definition BASE_URL : string := "http://export.arxiv.org/api/query".
Definition MONADBFT_PAPER_ID : string := "2502.20692".

(** The [ns] dictionary of both parsers, applied to a prefixed name. *)
Definition atom (local : string) : string := "{http://www.w3.org/2005/Atom}" +:+ local.
Definition arxiv (local : string) : string := "{http://arxiv.org/schemas/atom}" +:+ local.

(** [e.find(tag, ns).text], raising when [find] gave [None] *)
Definition find_text (tag : string) (e : ET.xml) : result (option string) :=
  attr_of ET.text_of (ET.find tag e).

(** The statements that [_parse_response] and [search_papers] share, in
    the order both execute them. *)
Record entry_fields : Type := {
  f_paper_id : string;
  f_title : string;
  f_abstract : string;
  f_published : option string;
  f_updated : option string;
  f_authors : list (option string);
  f_categories : list (option string)
}.

Definition read_entry (entry : ET.xml) : result entry_fields :=
  paper_url ← find_text (atom "id") entry;
  paper_id ← attr_of (fun s => PyStr.last_piece (PyStr.split "/abs/" s)) paper_url;
  title_text ← find_text (atom "title") entry;
  title ← attr_of (fun s => PyStr.replace "
" " " (PyStr.strip s)) title_text;
  summary_text ← find_text (atom "summary") entry;
  abstract ← attr_of PyStr.strip summary_text;
  published ← find_text (atom "published") entry;
  updated ← find_text (atom "updated") entry;
  authors ← mapM (find_text (atom "name")) (ET.findall (atom "author") entry);
  let categories :=
    List.map (fun c => ET.get "term" (ET.attrib_of c)) (ET.findall (atom "category") entry) in
  mret {| f_paper_id := paper_id; f_title := title; f_abstract := abstract;
          f_published := published; f_updated := updated;
          f_authors := authors; f_categories := categories |}.

Definition pdf_url_of (paper_id : string) : string :=
  "https://arxiv.org/pdf/" +:+ paper_id +:+ ".pdf".
Definition arxiv_url_of (paper_id : string) : string :=
  "https://arxiv.org/abs/" +:+ paper_id.

(** The optional child [tag]: its text when present. *)
Definition optional_text (tag : string) (entry : ET.xml) : option string :=
  match ET.find tag entry with
  | Some e => ET.text_of e
  | None => None
  end.

Definition _parse_response (xml_response : ET.document) : result (option ArxivPaper) :=
  try_except
    (root ← ET.fromstring xml_response;
     match ET.find (atom "entry") root with
     | None => mret None
     | Some entry =>
         f ← read_entry entry;
         mret (Some {|
           paper_id := f_paper_id f;
           title := f_title f;
           authors := f_authors f;
           abstract := f_abstract f;
           published := f_published f;
           updated := f_updated f;
           pdf_url := pdf_url_of (f_paper_id f);
           arxiv_url := arxiv_url_of (f_paper_id f);
           categories := f_categories f;
           doi := optional_text (arxiv "doi") entry;
           journal_ref := optional_text (arxiv "journal_ref") entry |})
     end)
    is_ParseError None.

(** The requests the scraper sends to [BASE_URL]. *)
Inductive params : Type :=
| ById (id_list : string) (max_results : nat)
| BySearch (search_query : string) (max_results : nat).

Section WithApi.

(** The arXiv API as seen through [session.get]. *)
Variable api : params -> http ET.document.

Definition fetch_paper (paper_id : string) : result (option ArxivPaper) :=
  let paper_id := PyStr.replace "arXiv:" "" (PyStr.replace "arxiv:" "" paper_id) in
  match api (ById paper_id 1) with
  | Failed => Ok None
  | Response body => _parse_response body
  end.

Definition search_entry (entry : ET.xml) : result ArxivPaper :=
  f ← read_entry entry;
  mret {|
    paper_id := f_paper_id f;
    title := f_title f;
    authors := f_authors f;
    abstract := f_abstract f;
    published := f_published f;
    updated := f_updated f;
    pdf_url := pdf_url_of (f_paper_id f);
    arxiv_url := arxiv_url_of (f_paper_id f);
    categories := f_categories f;
    doi := None;
    journal_ref := None |}.

(** The body of the [try] of [search_papers], after the request. *)
Definition parse_search (body : ET.document) : result (list ArxivPaper) :=
  root ← ET.fromstring body;
  mapM search_entry (ET.findall (atom "entry") root).

Definition search_papers (query : string) (max_results : nat) : list ArxivPaper :=
  caught
    (match api (BySearch query max_results) with
     | Failed => Raise RequestException
     | Response body => parse_search body
     end)
    [].

Definition fetch_monadbft_paper : result (option ArxivPaper) :=
  fetch_paper MONADBFT_PAPER_ID.

Definition related_queries : list string :=
  [ "HotStuff BFT consensus"; "Fast-HotStuff";
    "Byzantine fault tolerance blockchain"; "streamlined consensus" ].

(** One turn of the loop that removes duplicates: the state is
    [(seen, unique_papers)]. *)
Definition keep_if_new (st : gset string * list ArxivPaper) (paper : ArxivPaper)
  : gset string * list ArxivPaper :=
  let '(seen, unique_papers) := st in
  if decide (paper_id paper ∉ seen)
  then ({[ paper_id paper ]} ∪ seen, unique_papers ++ [paper])
  else (seen, unique_papers).

Definition remove_duplicates (all_papers : list ArxivPaper) : list ArxivPaper :=
  snd (List.fold_left keep_if_new all_papers (∅, [])).

Definition fetch_related_papers : list ArxivPaper :=
  let all_papers :=
    List.fold_left (fun all_papers query => all_papers ++ search_papers query 5)
                   related_queries [] in
  remove_duplicates all_papers.

End WithApi.

(** The name of the metadata file in the output directory. *)
Definition metadata_name (paper : ArxivPaper) : string := paper_id paper +:+ ".json".

(** The file that [open(json_path, 'w')] opens, if it opens one. *)
Definition metadata_path `{F : FileSys} (output_dir : string) (paper : ArxivPaper)
  : option string :=
  opens output_dir (metadata_name paper).

(** [save_metadata]: the directory maps a file to the record written
    there by [json.dump]. *)
Definition save_metadata `{F : FileSys} (output_dir : string) (files : gmap string ArxivPaper)
           (paper : ArxivPaper) : result (string * gmap string ArxivPaper) :=
  json_path ← or_OSError (metadata_path output_dir paper);
  mret (json_path, <[ json_path := paper ]> files).

End Arxiv.

(** ** File names

    [path.strip('/').replace('/', '_')], by which [save_post] and
    [save_page] turn the path of a URL into a file name, and
    [title.lower().replace(' ', '_')[:50]], the name [save_post] falls back
    to. *)

Definition flatten_path (path : string) : string :=
  PyStr.replace "/" "_" (PyStr.strip_char "/" path).

Definition title_slug (title : string) : string :=
  PyStr.slice_to 50 (PyStr.replace " " "_" (PyStr.lower title)).

(** ** blog_scraper.py *)

Module Blog.

Record BlogPost : Type := {
  url : string;
  title : string;
  author : option string;
  published : option string;
  content : string;
  excerpt : string;
  tags : list string;
  source : string
}.

(** [SOURCES[key]], for the two keys of the dictionary *)
Definition SOURCES (key : string) : string :=
  if String.eqb key "category_labs" then "https://blog.categorylabs.xyz"
  else if String.eqb key "monad" then "https://www.monad.xyz/blog"
  else "".

Definition _extract_author (element : Bs4.node) : option string :=
  let author_elem :=
    Bs4.find (Bs4.has_class "author") element |||
    Bs4.find (Bs4.both (Bs4.named "span") (Bs4.has_class "by")) element |||
    Bs4.find (Bs4.both (Bs4.named "a") (Bs4.attr_is "rel" "author")) element in
  match author_elem with
  | Some e => Some (Bs4.get_text "" e)
  | None => None
  end.

Definition _extract_date (element : Bs4.node) : option string :=
  let date_elem :=
    Bs4.find (Bs4.named "time") element |||
    Bs4.find (Bs4.has_class "date") element |||
    Bs4.find (Bs4.has_class "published") element in
  match date_elem with
  | Some e =>
      match Bs4.get "datetime" e with
      | Some v => Some (Bs4.attr_text v)
      | None => Some (Bs4.get_text "" e)
      end
  | None => None
  end.

Definition _extract_tags (element : Bs4.node) : list string :=
  let tag_container :=
    Bs4.find (Bs4.has_class "tags") element |||
    Bs4.find (Bs4.has_class "categories") element in
  match tag_container with
  | Some c => List.map (Bs4.get_text "") (Bs4.find_all (Bs4.named "a") c)
  | None => []
  end.

(** [_fetch_post_content] on the outcome of its request *)
Definition _fetch_post_content (response : http Bs4.node) : string :=
  match response with
  | Failed => ""
  | Response soup =>
      let content_elem :=
        Bs4.find (Bs4.named "article") soup |||
        Bs4.find (Bs4.both (Bs4.named "div") (Bs4.has_class "content")) soup |||
        Bs4.find (Bs4.both (Bs4.named "div") (Bs4.has_class "post-content")) soup in
      match content_elem with
      | Some e => Bs4.get_text "
" (Bs4.without ["script"; "style"] e)
      | None => ""
      end
  end.

Section WithWeb.

Context {U : UrlLib} {F : FileSys}.

(** [net n u]: the outcome of the request for [u] when [n] requests
    have been sent before it. *)
Variable net : nat -> string -> http Bs4.node.

(** The body of the inner [try] for one [article]: [None] when the
    article is left by [continue], with the requests sent so far. *)
Definition scrape_article (base_url : string) (n : nat) (article : Bs4.node)
  : option BlogPost * nat :=
  match Bs4.find (Bs4.named "h2") article ||| Bs4.find (Bs4.named "h1") article with
  | None => (None, n)
  | Some title_elem =>
      let title := Bs4.get_text "" title_elem in
      let link_elem := Bs4.find (Bs4.both (Bs4.named "a") (Bs4.has_attr "href")) article in
      let post_url :=
        match link_elem with
        | Some l => href ← Bs4.item "href" l; or_ValueError (urljoin base_url href)
        | None => Ok base_url
        end in
      match post_url with
      | Raise _ => (None, n)
      | Ok post_url =>
          let excerpt :=
            match Bs4.find (Bs4.named "p") article with
            | Some e => Bs4.get_text "" e
            | None => ""
            end in
          let author := _extract_author article in
          let published := _extract_date article in
          let tags := _extract_tags article in
          let content := _fetch_post_content (net n post_url) in
          (Some {| url := post_url; title := title; author := author;
                   published := published; content := content;
                   excerpt := PyStr.slice_to 500 excerpt; tags := tags;
                   source := "category_labs" |},
           S n)
      end
  end.

Fixpoint scrape_articles (base_url : string) (n : nat) (articles : list Bs4.node)
         (posts : list BlogPost) : list BlogPost :=
  match articles with
  | [] => posts
  | article :: rest =>
      match scrape_article base_url n article with
      | (Some post, n') => scrape_articles base_url n' rest (posts ++ [post])
      | (None, n') => scrape_articles base_url n' rest posts
      end
  end.

Definition scrape_category_labs : list BlogPost :=
  let base_url := SOURCES "category_labs" in
  match net 0 base_url with
  | Failed => []
  | Response soup =>
      let articles := Bs4.find_all (Bs4.both (Bs4.named "article") (Bs4.has_class "post")) soup in
      scrape_articles base_url 1 articles []
  end.

Definition scrape_all_sources : list BlogPost := [] ++ scrape_category_labs.

(** The file name [save_post] builds, before [".json"] is added. *)
Definition post_filename (post : BlogPost) : result string :=
  path ← or_ValueError (url_path (url post));
  let filename := flatten_path path in
  mret (if Bs4.non_empty filename then filename else title_slug (title post)).

Definition save_post (output_dir : string) (files : gmap string BlogPost)
           (post : BlogPost) : result (string * gmap string BlogPost) :=
  filename ← post_filename post;
  filepath ← or_OSError (opens output_dir (filename +:+ ".json"));
  mret (filepath, <[ filepath := post ]> files).

(** The loop of [main] that saves the posts one after the other. *)
Fixpoint save_each (output_dir : string) (files : gmap string BlogPost)
         (posts : list BlogPost) : result (gmap string BlogPost) :=
  match posts with
  | [] => Ok files
  | post :: rest =>
      saved ← save_post output_dir files post;
      save_each output_dir (snd saved) rest
  end.

End WithWeb.

Definition keywords : list string :=
  [ "monadbft"; "hotstuff"; "bft"; "consensus";
    "byzantine"; "finality"; "fork"; "blockchain" ].

(** The [text] of one turn of the filter loop *)
Definition post_text (post : BlogPost) : string :=
  PyStr.lower (title post +:+ " " +:+ content post +:+ " " +:+ PyStr.join " " (tags post)).

Definition filter_monadbft_posts (posts : list BlogPost) : list BlogPost :=
  List.fold_left
    (fun filtered post =>
       if List.existsb (fun keyword => PyStr.contains keyword (post_text post)) keywords
       then filtered ++ [post] else filtered)
    posts [].

End Blog.

(** ** docs_scraper.py *)

Module Docs.

Record DocPage : Type := {
  url : string;
  title : string;
  content : string;
  section : string;
  subsection : option string;
  breadcrumbs : list string
}.

Definition BASE_URL : string := "https://docs.monad.xyz".

Definition _extract_breadcrumbs (soup : Bs4.node) : list string :=
  let breadcrumb_elem :=
    Bs4.find (Bs4.both (Bs4.named "nav") (Bs4.has_class "breadcrumbs")) soup |||
    Bs4.find (Bs4.both (Bs4.named "ol") (Bs4.has_class "breadcrumb")) soup |||
    Bs4.find (Bs4.has_class "breadcrumb") soup in
  match breadcrumb_elem with
  | Some e => List.map (Bs4.get_text "") (Bs4.find_all (Bs4.named "a") e)
  | None => []
  end.

(** The filters of the [or] chain that selects [content_elem], in order. *)
Definition content_filters : list (Bs4.node -> bool) :=
  [ Bs4.named "main"; Bs4.named "article";
    Bs4.has_class "documentation-content"; Bs4.has_class "doc-content" ].

(** The first filter of the chain whose [find] is not [None]. *)
Fixpoint first_found (filters : list (Bs4.node -> bool)) (soup : Bs4.node)
  : option (Bs4.node -> bool) :=
  match filters with
  | [] => None
  | p :: rest =>
      match Bs4.find p soup with
      | Some _ => Some p
      | None => first_found rest soup
      end
  end.

Definition removed_from_content : list string := ["script"; "style"; "nav"].

(** [section] and [subsection] from the breadcrumbs *)
Definition section_of (breadcrumbs : list string) : string :=
  match breadcrumbs with
  | b :: _ => b
  | [] => "General"
  end.

Definition subsection_of (breadcrumbs : list string) : option string :=
  if (1 <? List.length breadcrumbs)%nat then List.nth_error breadcrumbs 1 else None.

(** [_scrape_page] on the outcome of its request.  [decompose] changes
    the soup in place: [soup'] is the document the later statements see. *)
Definition _scrape_page (url_ : string) (response : http Bs4.node) : option DocPage :=
  match response with
  | Failed => None
  | Response soup =>
      let title_elem := Bs4.find (Bs4.named "h1") soup ||| Bs4.find (Bs4.named "title") soup in
      let title :=
        match title_elem with
        | Some e => Bs4.get_text "" e
        | None => "Untitled"
        end in
      let '(content, soup') :=
        match first_found content_filters soup with
        | Some p =>
            match Bs4.find p soup with
            | Some content_elem =>
                (Bs4.get_text "
" (Bs4.without removed_from_content content_elem),
                 Bs4.update_first_below p (Bs4.without removed_from_content) soup)
            | None => ("", soup)
            end
        | None => ("", soup)
        end in
      let breadcrumbs := _extract_breadcrumbs soup' in
      Some {| url := url_; title := title; content := content;
              section := section_of breadcrumbs;
              subsection := subsection_of breadcrumbs;
              breadcrumbs := breadcrumbs |}
  end.

Section WithWeb.

Context {U : UrlLib}.

(** [net n u]: the outcome of the request for [u] when [n] requests
    have been sent before it. *)
Variable net : nat -> string -> http Bs4.node.

(** The tests of one turn of the loop of [_find_doc_links]: the
    resolved URL and whether it is kept. *)
Definition examine_link (visited_urls : gset string) (url_ : string) (link : Bs4.node)
  : result (string * bool) :=
  href ← Bs4.item "href" link;
  full_url ← or_ValueError (urljoin url_ href);
  netloc ← or_ValueError (url_netloc full_url);
  base_netloc ← or_ValueError (url_netloc BASE_URL);
  mret (full_url,
        String.eqb netloc base_netloc
        && (negb (PyStr.contains "#" full_url)
            && bool_decide (full_url ∉ visited_urls))).

(** The loop itself; an exception leaves it with the links found so far. *)
Fixpoint collect_links (visited_urls : gset string) (url_ : string)
         (anchors : list Bs4.node) (links : list string) : list string :=
  match anchors with
  | [] => links
  | link :: rest =>
      match examine_link visited_urls url_ link with
      | Raise _ => links
      | Ok (full_url, true) => collect_links visited_urls url_ rest (links ++ [full_url])
      | Ok (_, false) => collect_links visited_urls url_ rest links
      end
  end.

Definition _find_doc_links (visited_urls : gset string) (url_ : string)
           (response : http Bs4.node) : list string :=
  match response with
  | Failed => []
  | Response soup =>
      collect_links visited_urls url_
        (Bs4.find_all (Bs4.both (Bs4.named "a") (Bs4.has_attr "href")) soup) []
  end.

(** The variables of [scrape_docs], the field [visited_urls] of the
    scraper and the number of requests sent. *)
Record crawl : Type := {
  pages : list DocPage;
  urls_to_visit : list string;
  visited_urls : gset string;
  requests : nat
}.

(** One turn of the [while] loop; [None] when [urls_to_visit] is empty. *)
Definition step (st : crawl) : option crawl :=
  match urls_to_visit st with
  | [] => None
  | url_ :: rest =>
      if decide (url_ ∈ visited_urls st)
      then Some {| pages := pages st; urls_to_visit := rest;
                   visited_urls := visited_urls st; requests := requests st |}
      else
        match _scrape_page url_ (net (requests st) url_) with
        | Some page =>
            let visited' := {[ url_ ]} ∪ visited_urls st in
            let new_urls := _find_doc_links visited' url_ (net (S (requests st)) url_) in
            Some {| pages := pages st ++ [page];
                    urls_to_visit := rest ++ new_urls;
                    visited_urls := visited';
                    requests := S (S (requests st)) |}
        | None =>
            Some {| pages := pages st; urls_to_visit := rest;
                    visited_urls := visited_urls st;
                    requests := S (requests st) |}
        end
  end.

(** The loop, for at most [fuel] turns: [None] when it has not ended. *)
Fixpoint run (fuel : nat) (st : crawl) : option crawl :=
  match step st with
  | None => Some st
  | Some st' =>
      match fuel with
      | O => None
      | S k => run k st'
      end
  end.

Definition start (visited : gset string) (start_url : option string) : crawl :=
  {| pages := []; urls_to_visit := [default BASE_URL start_url];
     visited_urls := visited; requests := 0 |}.

(** [scrape_docs] of a scraper whose [visited_urls] is [visited]. *)
Definition scrape_docs (fuel : nat) (visited : gset string) (start_url : option string)
  : option crawl :=
  run fuel (start visited start_url).

(** The file name [save_page] builds, before [".json"] is added. *)
Definition page_filename (page : DocPage) : result string :=
  path ← or_ValueError (url_path (url page));
  let path := flatten_path path in
  mret (if Bs4.non_empty path then path else "index").

Definition save_page (output_dir : string) (files : gmap string DocPage)
           (page : DocPage) : result (string * gmap string DocPage) :=
  path ← page_filename page;
  let filepath := path_join output_dir (path +:+ ".json") in
  mret (filepath, <[ filepath := page ]> files).

End WithWeb.

End Docs.

(** ** Definitions used to state the properties *)

(** The identities a list of papers carries, in order. *)
Definition paper_ids (l : list Arxiv.ArxivPaper) : list string :=
  List.map Arxiv.paper_id l.

(** The papers of [l] whose identity is neither in [seen] nor carried by an
    earlier paper of [l]. *)
Fixpoint first_occurrences (seen : gset string) (l : list Arxiv.ArxivPaper)
  : list Arxiv.ArxivPaper :=
  match l with
  | [] => []
  | p :: l' =>
      if decide (Arxiv.paper_id p ∉ seen)
      then p :: first_occurrences ({[ Arxiv.paper_id p ]} ∪ seen) l'
      else first_occurrences seen l'
  end.

(** A paper that only carries an identity. *)
Definition paper_with_id (i : string) : Arxiv.ArxivPaper :=
  {| Arxiv.paper_id := i; Arxiv.title := ""; Arxiv.authors := [];
     Arxiv.abstract := ""; Arxiv.published := None; Arxiv.updated := None;
     Arxiv.pdf_url := Arxiv.pdf_url_of i; Arxiv.arxiv_url := Arxiv.arxiv_url_of i;
     Arxiv.categories := []; Arxiv.doi := None; Arxiv.journal_ref := None |}.

(** The elements of a document that are Atom entries. *)
Definition entry_elements (root : ET.xml) : list ET.xml :=
  List.filter (fun e => String.eqb (ET.tag_of e) (Arxiv.atom "entry")) (ET.elements root).

(** The children an entry must have for [read_entry] to get through. *)
Definition required_children : list string :=
  ["id"; "title"; "summary"; "published"; "updated"].

Definition lacks_required (entry : ET.xml) : Prop :=
  ∃ f, f ∈ required_children ∧ ET.find (Arxiv.atom f) entry = None.

(** Sample feeds. *)
Module Feeds.

Definition leaf (tag text : string) : ET.xml := ET.Element tag [] (Some text) [].

Definition good_entry : ET.xml :=
  ET.Element (Arxiv.atom "entry") [] None
    [ leaf (Arxiv.atom "id") "http://arxiv.org/abs/2502.20692v1";
      leaf (Arxiv.atom "updated") "2025-02-28T03:45:12Z";
      leaf (Arxiv.atom "published") "2025-02-28T03:45:12Z";
      leaf (Arxiv.atom "title") " MonadBFT: Fast, Responsive,
Fork-Resistant Streamlined Consensus ";
      leaf (Arxiv.atom "summary") " This paper introduces MonadBFT. ";
      ET.Element (Arxiv.atom "author") [] None [leaf (Arxiv.atom "name") "M. M. Jalalzai"];
      ET.Element (Arxiv.atom "category") [("term", "cs.DC")] None [] ].

(** [good_entry] without its title *)
Definition bad_entry : ET.xml :=
  ET.Element (Arxiv.atom "entry") [] None
    [ leaf (Arxiv.atom "id") "http://arxiv.org/abs/2401.00001v1";
      leaf (Arxiv.atom "updated") "2024-01-01T00:00:00Z";
      leaf (Arxiv.atom "published") "2024-01-01T00:00:00Z";
      leaf (Arxiv.atom "summary") "No title here." ].

Definition feed (entries : list ET.xml) : ET.xml :=
  ET.Element (Arxiv.atom "feed") [] None
    (leaf (Arxiv.atom "title") "ArXiv Query" :: entries).

Definition serves (root : ET.xml) : Arxiv.params -> http ET.document :=
  fun _ => Response (ET.WellFormed root).

Definition good_paper : Arxiv.ArxivPaper :=
  {| Arxiv.paper_id := "2502.20692v1";
     Arxiv.title := "MonadBFT: Fast, Responsive, Fork-Resistant Streamlined Consensus";
     Arxiv.authors := [Some "M. M. Jalalzai"];
     Arxiv.abstract := "This paper introduces MonadBFT.";
     Arxiv.published := Some "2025-02-28T03:45:12Z";
     Arxiv.updated := Some "2025-02-28T03:45:12Z";
     Arxiv.pdf_url := "https://arxiv.org/pdf/2502.20692v1.pdf";
     Arxiv.arxiv_url := "https://arxiv.org/abs/2502.20692v1";
     Arxiv.categories := [Some "cs.DC"];
     Arxiv.doi := None;
     Arxiv.journal_ref := None |}.

End Feeds.

(** Title, body and tags of a post, joined by blanks as the filter joins them. *)
Definition concatenation (post : Blog.BlogPost) : string :=
  Blog.title post +:+ " " +:+ Blog.content post +:+ " " +:+ PyStr.join " " (Blog.tags post).

(** Some keyword occurs in the text of the post, letter case aside. *)
Definition mentions_keyword (post : Blog.BlogPost) : Prop :=
  ∃ keyword, keyword ∈ Blog.keywords
             ∧ PyStr.occurs_in (PyStr.lower keyword) (PyStr.lower (concatenation post)).

(** A post of which only the title and the URL are known. *)
Definition post_titled (url_ title_ : string) : Blog.BlogPost :=
  {| Blog.url := url_; Blog.title := title_; Blog.author := None;
     Blog.published := None; Blog.content := ""; Blog.excerpt := "";
     Blog.tags := []; Blog.source := "category_labs" |}.

(** Sample pages. *)
Module Pages.

Import Bs4.

Definition a (href text : string) : node :=
  Tag "a" [("href", AVal href)] [NavigableString text].

Definition with_class (name class : string) (children : list node) : node :=
  Tag name [("class", AList [class])] children.

Definition crumbs : node :=
  with_class "nav" "breadcrumbs" [a "/" "Docs"; a "/getting-started" "Getting Started"].

Definition html (body : list node) : node :=
  soup [Tag "html" [] [Tag "head" [] [Tag "title" [] [NavigableString "Monad Docs"]];
                       Tag "body" [] body]].

(** The breadcrumbs above the content element ... *)
Definition crumbs_outside : node :=
  html [crumbs;
        Tag "main" [] [Tag "h1" [] [NavigableString "Install"];
                       Tag "p" [] [NavigableString "Run the installer."]]].

(** ... and inside it. *)
Definition crumbs_inside : node :=
  html [Tag "main" [] [crumbs;
                       Tag "h1" [] [NavigableString "Install"];
                       Tag "p" [] [NavigableString "Run the installer."]]].

Definition no_crumbs : node :=
  html [Tag "main" [] [Tag "h1" [] [NavigableString "Install"]]].

(** A page with links of several kinds. *)
Definition linking : node :=
  html [Tag "main" []
          [a "/guide#install" "Installing";
           a "#top" "Top";
           a "/guide" "Guide";
           a "https://example.org/x" "Elsewhere";
           a "/intro" "This page"]].

(** A site of three pages that link to each other and back to the seed. *)
Definition seed : string := "https://docs.monad.xyz".
Definition page_a : string := "https://docs.monad.xyz/a".
Definition page_b : string := "https://docs.monad.xyz/b".

Definition site (u : string) : http node :=
  if String.eqb u seed then
    Response (html [a "/a" "A"; a "/b" "B"; a "#top" "Top"; a "https://github.com/monad" "Code"])
  else if String.eqb u page_a then
    Response (html [a "/b" "B"; a seed "Home"; a "/a" "A"])
  else if String.eqb u page_b then
    Response (html [a "/a" "A"; a "/a#x" "A, x"; a seed "Home"])
  else Failed.

(** A blog page with two posts that carry a title and no link. *)
Definition blog_home : node :=
  html [Tag "article" [("class", AList ["post"])]
          [Tag "h2" [] [NavigableString "Alpha"]; Tag "p" [] [NavigableString "First."]];
        Tag "article" [("class", AList ["post"; "featured"])]
          [Tag "h2" [] [NavigableString "Beta"]; Tag "p" [] [NavigableString "Second."]]].

Definition blog (u : string) : http node :=
  if String.eqb u "https://blog.categorylabs.xyz" then Response blog_home else Failed.

(** The first and the second post of [blog_home], as scraped. *)
Definition alpha : Blog.BlogPost :=
  {| Blog.url := "https://blog.categorylabs.xyz"; Blog.title := "Alpha";
     Blog.author := None; Blog.published := None;
     Blog.content := "Alpha
First."; Blog.excerpt := "First.";
     Blog.tags := []; Blog.source := "category_labs" |}.

Definition beta : Blog.BlogPost :=
  {| Blog.url := "https://blog.categorylabs.xyz"; Blog.title := "Beta";
     Blog.author := None; Blog.published := None;
     Blog.content := "Alpha
First."; Blog.excerpt := "Second.";
     Blog.tags := []; Blog.source := "category_labs" |}.

(** A documentation record for the root of the site. *)
Definition welcome : Docs.DocPage :=
  {| Docs.url := "https://docs.monad.xyz/"; Docs.title := "Welcome to Monad";
     Docs.content := ""; Docs.section := "General"; Docs.subsection := None;
     Docs.breadcrumbs := [] |}.

(** A site of one page without links. *)
Definition lonely (u : string) : http node :=
  if String.eqb u seed then Response no_crumbs else Failed.

End Pages.

(** A container of the blog page has a title element, and has no
    hyperlink element. *)
Definition has_title (article : Bs4.node) : Prop :=
  is_Some (Bs4.find (Bs4.named "h2") article ||| Bs4.find (Bs4.named "h1") article).

Definition has_no_link (article : Bs4.node) : Prop :=
  Bs4.find (Bs4.both (Bs4.named "a") (Bs4.has_attr "href")) article = None.

(** The hyperlinks [_find_doc_links] looks at. *)
Definition anchors (soup : Bs4.node) : list Bs4.node :=
  Bs4.find_all (Bs4.both (Bs4.named "a") (Bs4.has_attr "href")) soup.

(** Looking at the link raises no exception: it has an [href], and
    [urljoin] and [urlparse] accept what they are given. *)
Definition link_resolves `{U : UrlLib} (url_ : string) (link : Bs4.node) : Prop :=
  ∃ href full_url netloc,
    Bs4.item "href" link = Ok href
    ∧ urljoin url_ href = Some full_url
    ∧ url_netloc full_url = Some netloc.

(** What the code asks of a link with resolved URL [full_url]. *)
Definition link_accepted `{U : UrlLib} (visited_urls : gset string) (url_ : string)
           (link : Bs4.node) (full_url : string) : Prop :=
  ∃ href,
    Bs4.item "href" link = Ok href
    ∧ urljoin url_ href = Some full_url
    ∧ url_netloc full_url = url_netloc Docs.BASE_URL
    ∧ ¬ PyStr.occurs_in "#" full_url
    ∧ full_url ∉ visited_urls.

(** The URLs of the records of a crawl, in order. *)
Definition urls_of (pages : list Docs.DocPage) : list string :=
  List.map Docs.url pages.

(** Records and visited set of a crawl that began with visited set [V0]:
    the URLs of the records are distinct, none was visited before, and the
    visited set is [V0] and these URLs. *)
Definition crawl_invariant (V0 : gset string) (st : Docs.crawl) : Prop :=
  NoDup (urls_of (Docs.pages st))
  ∧ (∀ u, u ∈ urls_of (Docs.pages st) → u ∉ V0)
  ∧ (∀ u, u ∈ Docs.visited_urls st ↔ u ∈ urls_of (Docs.pages st) ∨ u ∈ V0).

(** The link graph of a site: [v] is among the links that link discovery
    finds on page [u] when nothing has been visited. *)
Definition links_to `{U : UrlLib} (web : string -> http Bs4.node) (u v : string) : Prop :=
  v ∈ Docs._find_doc_links ∅ u (web u).

Inductive reachable `{U : UrlLib} (web : string -> http Bs4.node) (seed : string)
  : string -> Prop :=
| reach_seed : reachable web seed seed
| reach_link (u v : string) :
    reachable web seed u → links_to web u v → reachable web seed v.

(** A site that serves the same page for a URL whenever it is asked. *)
Definition static (web : string -> http Bs4.node) : nat -> string -> http Bs4.node :=
  fun _ u => web u.

(** What the crawl of a static site keeps at every turn, besides
    [crawl_invariant]: visited and queued URLs are reachable, every record
    cost two requests, and the seed and the links of visited pages are
    visited or queued. *)
Definition site_invariant `{U : UrlLib} (web : string -> http Bs4.node) (seed : string)
           (st : Docs.crawl) : Prop :=
  crawl_invariant ∅ st
  ∧ (∀ u, u ∈ Docs.visited_urls st → reachable web seed u)
  ∧ (∀ u, u ∈ Docs.urls_to_visit st → reachable web seed u)
  ∧ Docs.requests st = (2 * List.length (Docs.pages st))%nat
  ∧ (seed ∈ Docs.visited_urls st ∨ seed ∈ Docs.urls_to_visit st)
  ∧ (∀ u v, u ∈ Docs.visited_urls st → links_to web u v →
            v ∈ Docs.visited_urls st ∨ v ∈ Docs.urls_to_visit st).

(** The reachable pages that a crawl has not visited yet. *)
Definition unvisited (R : list string) (st : Docs.crawl) : nat :=
  List.length (List.filter (fun u => bool_decide (u ∉ Docs.visited_urls st)) R).


(** ** docs_scraper.py: [save_all_pages] and [main] *)

Module DocsSave.

(** An entry of a list of [index['sections']] and an entry of
    [index['pages']]. *)
Record section_entry : Type := {
  s_title : string;
  s_url : string;
  s_subsection : option string
}.

Record page_entry : Type := {
  p_title : string;
  p_url : string;
  p_section : string
}.

(** The [index] dictionary.  [sections] is itself a dictionary, kept in
    the order in which its keys were inserted, as [json.dump] writes it. *)
Record index : Type := {
  total_pages : nat;
  sections : list (string * list section_entry);
  pages : list page_entry
}.

(** [key in d] *)
Definition dict_has {V} (key : string) (d : list (string * V)) : bool :=
  List.existsb (fun kv => String.eqb (fst kv) key) d.

(** [d.get(key)] *)
Fixpoint dict_get {V} (key : string) (d : list (string * V)) : option V :=
  match d with
  | [] => None
  | (k, v) :: d' => if String.eqb k key then Some v else dict_get key d'
  end.

(** [d[key].append(x)], for a key of [d] *)
Fixpoint dict_append {V} (key : string) (x : V) (d : list (string * list V))
  : list (string * list V) :=
  match d with
  | [] => []
  | (k, l) :: d' =>
      if String.eqb k key then (k, l ++ [x]) :: d' else (k, l) :: dict_append key x d'
  end.

Definition section_entry_of (page : Docs.DocPage) : section_entry :=
  {| s_title := Docs.title page; s_url := Docs.url page;
     s_subsection := Docs.subsection page |}.

Definition page_entry_of (page : Docs.DocPage) : page_entry :=
  {| p_title := Docs.title page; p_url := Docs.url page;
     p_section := Docs.section page |}.

(** One turn of the loop that fills the index. *)
Definition index_page (idx : index) (page : Docs.DocPage) : index :=
  let sections1 :=
    if dict_has (Docs.section page) (sections idx) then sections idx
    else sections idx ++ [(Docs.section page, [])] in
  {| total_pages := total_pages idx;
     sections := dict_append (Docs.section page) (section_entry_of page) sections1;
     pages := pages idx ++ [page_entry_of page] |}.

Definition build_index (pages_ : list Docs.DocPage) : index :=
  List.fold_left index_page pages_
    {| total_pages := List.length pages_; sections := []; pages := [] |}.

(** What a file of the output directory holds: a page, or the index. *)
Inductive file : Type :=
| PageFile (page : Docs.DocPage)
| IndexFile (idx : index).

Section WithWeb.

Context {U : UrlLib}.
Variable net : nat -> string -> http Bs4.node.

(** [save_page], writing into a directory that can hold the index too. *)
Definition save_page (output_dir : string) (files : gmap string file)
           (page : Docs.DocPage) : result (string * gmap string file) :=
  path ← Docs.page_filename page;
  let filepath := path_join output_dir (path +:+ ".json") in
  mret (filepath, <[ filepath := PageFile page ]> files).

(** The first loop of [save_all_pages]. *)
Fixpoint save_pages (output_dir : string) (files : gmap string file)
         (pages_ : list Docs.DocPage) : result (gmap string file) :=
  match pages_ with
  | [] => Ok files
  | page :: rest =>
      saved ← save_page output_dir files page;
      save_pages output_dir (snd saved) rest
  end.

Definition index_path (output_dir : string) : string := path_join output_dir "index.json".

Definition save_all_pages (output_dir : string) (files : gmap string file)
           (pages_ : list Docs.DocPage) : result (gmap string file) :=
  files' ← save_pages output_dir files pages_;
  mret (<[ index_path output_dir := IndexFile (build_index pages_) ]> files').

(** [main] with the parsed arguments [--url], [--output-dir] and
    [--single-page], for a new scraper and a directory holding [files].
    [None] when the crawl needs more than [fuel] turns. *)
Definition main (fuel : nat) (url_ output_dir : string) (single_page : bool)
           (files : gmap string file) : option (result (gmap string file)) :=
  if single_page then
    match Docs._scrape_page url_ (net 0 url_) with
    | Some page => Some (snd <$> save_page output_dir files page)
    | None => Some (Ok files)
    end
  else
    match Docs.scrape_docs net fuel ∅ (Some url_) with
    | Some final => Some (save_all_pages output_dir files (Docs.pages final))
    | None => None
    end.

End WithWeb.

End DocsSave.

(** ** arxiv_scraper.py: [download_pdf] and [main] *)

Module ArxivMain.

(** What a file of the output directory holds: metadata, or a PDF. *)
Inductive file : Type :=
| MetadataFile (paper : Arxiv.ArxivPaper)
| PdfFile (content : string).

(** The name of the PDF file in the output directory, and the file that
    [write_bytes] opens, if it opens one. *)
Definition pdf_name (paper : Arxiv.ArxivPaper) : string := Arxiv.paper_id paper +:+ ".pdf".

Definition pdf_path `{F : FileSys} (output_dir : string) (paper : Arxiv.ArxivPaper)
  : option string :=
  opens output_dir (pdf_name paper).

(** The parsed arguments of [main]. *)
Record args : Type := {
  paper_id : string;
  download_pdf_flag : bool;
  search : option string;
  fetch_related : bool;
  output_dir : string
}.

(** [if args.search]: the option was given, with a non-empty value. *)
Definition search_given (a : args) : option string :=
  match search a with
  | Some q => if Bs4.non_empty q then Some q else None
  | None => None
  end.

Section WithNet.

Context {F : FileSys}.

(** The arXiv API, and the server of the PDF files by URL. *)
Variable api : Arxiv.params -> http ET.document.
Variable pdfs : string -> http string.

(** [save_metadata], writing into a directory that can hold PDFs too. *)
Definition save_metadata (dir : string) (files : gmap string file)
           (paper : Arxiv.ArxivPaper) : result (string * gmap string file) :=
  json_path ← or_OSError (Arxiv.metadata_path dir paper);
  mret (json_path, <[ json_path := MetadataFile paper ]> files).

(** [download_pdf]: only a [RequestException] is caught; the [OSError] of
    [write_bytes] gets through. *)
Definition download_pdf (dir : string) (files : gmap string file)
           (paper : Arxiv.ArxivPaper) : result (option string * gmap string file) :=
  match pdfs (Arxiv.pdf_url paper) with
  | Failed => Ok (None, files)
  | Response content =>
      pdf_path_ ← or_OSError (pdf_path dir paper);
      mret (Some pdf_path_, <[ pdf_path_ := PdfFile content ]> files)
  end.

(** How [main] ends: it returns, or an exception ends the process; the
    files it had written by then are not described.  Besides the
    exceptions that the scraper lets through there is the [TypeError] of
    [', '.join(...)] on a list of authors that holds [None]. *)
Inductive crash : Type :=
| Propagated (e : exn)
| TypeError.

Inductive ending : Type :=
| Finished (files : gmap string file)
| Crashed (c : crash).

(** The ending of [main] when a call of the scraper is its last statement
    that can raise. *)
Definition ending_of (r : result (gmap string file)) : ending :=
  match r with
  | Ok files => Finished files
  | Raise e => Crashed (Propagated e)
  end.

(** [', '.join(names)] goes through *)
Definition joinable (names : list (option string)) : bool :=
  List.forallb (fun name => match name with Some _ => true | None => false end) names.

(** The loop of the search mode: the first three authors are printed, then
    the metadata are saved. *)
Fixpoint save_found (dir : string) (files : gmap string file)
         (papers : list Arxiv.ArxivPaper) : ending :=
  match papers with
  | [] => Finished files
  | paper :: rest =>
      if joinable (List.firstn 3 (Arxiv.authors paper))
      then match save_metadata dir files paper with
           | Ok saved => save_found dir (snd saved) rest
           | Raise e => Crashed (Propagated e)
           end
      else Crashed TypeError
  end.

(** What [main] does with a paper in the other two modes: the metadata
    are saved, and the PDF is downloaded when [--download-pdf] is given. *)
Definition save_paper (dir : string) (download : bool) (files : gmap string file)
           (paper : Arxiv.ArxivPaper) : result (gmap string file) :=
  saved ← save_metadata dir files paper;
  if download then snd <$> download_pdf dir (snd saved) paper else mret (snd saved).

(** The loop of the related-papers mode. *)
Fixpoint save_related (dir : string) (download : bool) (files : gmap string file)
         (papers : list Arxiv.ArxivPaper) : result (gmap string file) :=
  match papers with
  | [] => Ok files
  | paper :: rest =>
      files' ← save_paper dir download files paper;
      save_related dir download files' rest
  end.

Definition main (a : args) (files : gmap string file) : ending :=
  match search_given a with
  | Some q => save_found (output_dir a) files (Arxiv.search_papers api q 10)
  | None =>
      if fetch_related a then
        ending_of (save_related (output_dir a) (download_pdf_flag a) files
                                (Arxiv.fetch_related_papers api))
      else
        match Arxiv.fetch_paper api (paper_id a) with
        | Raise e => Crashed (Propagated e)
        | Ok None => Finished files
        | Ok (Some p) =>
            if joinable (Arxiv.authors p)
            then ending_of (save_paper (output_dir a) (download_pdf_flag a) files p)
            else Crashed TypeError
        end
  end.

End WithNet.

End ArxivMain.

(** ** blog_scraper.py: [main] *)

Module BlogMain.

(** The choices of [--source]. *)
Inductive source : Type := category_labs | monad | all.

Section WithWeb.

Context {U : UrlLib} {F : FileSys}.
Variable net : nat -> string -> http Bs4.node.

(** The posts [main] goes on with; [None] for a source that is not
    implemented, where [main] returns at once. *)
Definition scraped (src : source) : option (list Blog.BlogPost) :=
  match src with
  | all => Some (Blog.scrape_all_sources net)
  | category_labs => Some (Blog.scrape_category_labs net)
  | monad => None
  end.

Definition main (src : source) (filter_monadbft : bool) (output_dir : string)
           (files : gmap string Blog.BlogPost) : result (gmap string Blog.BlogPost) :=
  match scraped src with
  | None => Ok files
  | Some posts =>
      let posts := if filter_monadbft then Blog.filter_monadbft_posts posts else posts in
      Blog.save_each output_dir files posts
  end.

End WithWeb.

End BlogMain.

(** ** Definitions used to state further properties *)

(** [f] applied to every character. *)
Fixpoint map_chars (f : ascii -> ascii) (s : string) : string :=
  match s with
  | EmptyString => EmptyString
  | String c s' => String (f c) (map_chars f s')
  end.

(** The character [a] replaced by [b]. *)
Definition swap_char (a b c : ascii) : ascii := if Ascii.eqb c a then b else c.

(** A string without white space at either end: [strip] leaves it as it is. *)
Definition trimmed (s : string) : Prop := PyStr.strip s = s.

(** The paper carries the URLs that its identity determines, a title
    without line break and without white space around it, and an abstract
    without white space around it. *)
Definition well_formed_paper (paper : Arxiv.ArxivPaper) : Prop :=
  Arxiv.pdf_url paper = "https://arxiv.org/pdf/" +:+ Arxiv.paper_id paper +:+ ".pdf"
  ∧ Arxiv.arxiv_url paper = "https://arxiv.org/abs/" +:+ Arxiv.paper_id paper
  ∧ PyStr.contains "
" (Arxiv.title paper) = false
  ∧ trimmed (Arxiv.title paper)
  ∧ trimmed (Arxiv.abstract paper).

(** Every file of [files'] that [files] did not hold already is the
    metadata of one of [papers], stored under the path of that paper. *)
Definition only_metadata_added `{F : FileSys} (dir : string) (papers : list Arxiv.ArxivPaper)
           (files files' : gmap string ArxivMain.file) : Prop :=
  ∀ path, files' !! path = files !! path
          ∨ ∃ paper, paper ∈ papers
                     ∧ Arxiv.metadata_path dir paper = Some path
                     ∧ files' !! path = Some (ArxivMain.MetadataFile paper).

(** The first hyperlink of the container has an [href] that [urljoin]
    rejects. *)
Definition link_rejected `{U : UrlLib} (base_url : string) (article : Bs4.node) : Prop :=
  ∃ link value,
    Bs4.find (Bs4.both (Bs4.named "a") (Bs4.has_attr "href")) article = Some link
    ∧ Bs4.get "href" link = Some value
    ∧ urljoin base_url (Bs4.attr_text value) = None.

(** The path of the file that [save_post] writes for a post. *)
Definition post_path `{U : UrlLib} `{F : FileSys} (output_dir : string) (post : Blog.BlogPost)
  : result string :=
  filename ← Blog.post_filename post;
  or_OSError (opens output_dir (filename +:+ ".json")).

(** The container of the blog page that [scrape_category_labs] asks for. *)
Definition is_post_container : Bs4.node -> bool :=
  Bs4.both (Bs4.named "article") (Bs4.has_class "post").

(** What a turn of the crawl keeps: records and visited URLs are only
    added, and every new record costs two requests. *)
Definition grows (st st' : Docs.crawl) : Prop :=
  Docs.visited_urls st ⊆ Docs.visited_urls st'
  ∧ (∃ added, Docs.pages st' = Docs.pages st ++ added
              ∧ (Docs.requests st + 2 * List.length added <= Docs.requests st')%nat).

(** [without] on the children of a tag. *)
Definition without_list (names : list string) : list Bs4.node -> list Bs4.node :=
  fix go (l : list Bs4.node) : list Bs4.node :=
    match l with
    | [] => []
    | c :: l' => if Bs4.named_in names c then go l' else Bs4.without names c :: go l'
    end.

(** The content element of a page: what the [or] chain of [_scrape_page]
    selects. *)
Definition content_elem (soup : Bs4.node) : option Bs4.node :=
  match Docs.first_found Docs.content_filters soup with
  | Some p => Bs4.find p soup
  | None => None
  end.

(** The strings of a list that are not in [seen], each at its first
    occurrence. *)
Fixpoint distinct_from (seen : gset string) (l : list string) : list string :=
  match l with
  | [] => []
  | x :: l' =>
      if decide (x ∈ seen) then distinct_from seen l'
      else x :: distinct_from ({[ x ]} ∪ seen) l'
  end.

Definition in_section (s : string) (page : Docs.DocPage) : bool :=
  String.eqb (Docs.section page) s.

(** The entries of the pages of section [s], in the order of the pages. *)
Definition section_group (s : string) (pages : list Docs.DocPage)
  : list DocsSave.section_entry :=
  List.map DocsSave.section_entry_of (List.filter (in_section s) pages).

(** The index of the pages [done], for a crawl of [n] pages. *)
Definition indexes (n : nat) (done : list Docs.DocPage) (idx : DocsSave.index) : Prop :=
  DocsSave.total_pages idx = n
  ∧ DocsSave.pages idx = List.map DocsSave.page_entry_of done
  ∧ List.map fst (DocsSave.sections idx) = distinct_from ∅ (List.map Docs.section done)
  ∧ ∀ s, DocsSave.dict_get s (DocsSave.sections idx)
         = if List.existsb (in_section s) done then Some (section_group s done) else None.

(** The path of the file that [save_page] writes for a page. *)
Definition page_path `{U : UrlLib} (output_dir : string) (page : Docs.DocPage) : result string :=
  name ← Docs.page_filename page;
  mret (path_join output_dir (name +:+ ".json")).

Example strip_ex : PyStr.strip "  a b
 " = "a b".
Proof. reflexivity. Qed.

Example strip_char_ex : PyStr.strip_char "/" "/docs/intro/" = "docs/intro".
Proof. reflexivity. Qed.

Example replace_ex : PyStr.replace "/" "_" "docs/intro/x" = "docs_intro_x".
Proof. reflexivity. Qed.

Example split_ex : PyStr.split "/abs/" "http://arxiv.org/abs/2502.20692v1" = ["http://arxiv.org"; "2502.20692v1"].
Proof. reflexivity. Qed.

Example split_overlap_ex : PyStr.last_piece (PyStr.split "/abs/" "/abs/abs/") = "abs/".
Proof. reflexivity. Qed.

Example lower_ex : PyStr.lower "MonadBFT update" = "monadbft update".
Proof. reflexivity. Qed.

Example urljoin_abs_ex :
  SimpleUrl.join "https://docs.monad.xyz/a/b" "https://docs.monad.xyz/c#d" = Some "https://docs.monad.xyz/c#d".
Proof. reflexivity. Qed.

Example urljoin_root_ex :
  SimpleUrl.join "https://docs.monad.xyz/a/b" "/intro" = Some "https://docs.monad.xyz/intro".
Proof. reflexivity. Qed.

Example urljoin_rel_ex :
  SimpleUrl.join "https://docs.monad.xyz/a/b" "c" = Some "https://docs.monad.xyz/a/c".
Proof. reflexivity. Qed.

Example urljoin_frag_ex :
  SimpleUrl.join "https://docs.monad.xyz/a/b#x" "#top" = Some "https://docs.monad.xyz/a/b#top".
Proof. reflexivity. Qed.

Example netloc_ex : SimpleUrl.netloc "https://docs.monad.xyz/a/b#x" = Some "docs.monad.xyz".
Proof. reflexivity. Qed.

Example path_ex : SimpleUrl.path "https://docs.monad.xyz/a/b#x" = Some "/a/b".
Proof. reflexivity. Qed.

Example path_root_ex : SimpleUrl.path "https://blog.categorylabs.xyz" = Some "".
Proof. reflexivity. Qed.

Example netloc_rejected_ex : SimpleUrl.netloc "https://[docs/a" = None.
Proof. reflexivity. Qed.

Example get_text_ex :
  Bs4.get_text ""
    (Bs4.Tag "h2" [] [Bs4.NavigableString "  Monad"; Bs4.Tag "b" [] [Bs4.NavigableString "BFT "]; Bs4.NavigableString " "])
  = "MonadBFT".
Proof. reflexivity. Qed.

Example without_ex :
  Bs4.without ["nav"]
    (Bs4.Tag "main" [] [Bs4.Tag "nav" [] [Bs4.NavigableString "x"]; Bs4.Tag "p" [] [Bs4.Tag "nav" [] []; Bs4.NavigableString "y"]])
  = Bs4.Tag "main" [] [Bs4.Tag "p" [] [Bs4.NavigableString "y"]].
Proof. reflexivity. Qed.

Example update_first_ex :
  Bs4.update_first_below (Bs4.named "p") (Bs4.without ["b"])
    (Bs4.soup [Bs4.Tag "div" [] [Bs4.Tag "p" [] [Bs4.Tag "b" [] []]]; Bs4.Tag "p" [] [Bs4.Tag "b" [] []]])
  = Bs4.soup [Bs4.Tag "div" [] [Bs4.Tag "p" [] []]; Bs4.Tag "p" [] [Bs4.Tag "b" [] []]].
Proof. reflexivity. Qed.

(** * Lists *)

Lemma elem_of_map {A B} (f : A -> B) (l : list A) (y : B) :
  y ∈ List.map f l ↔ ∃ x, y = f x ∧ x ∈ l.
Proof.
  rewrite list_elem_of_In, in_map_iff.
  split; intros (x & H1 & H2); exists x; rewrite ?list_elem_of_In in *; auto.
Qed.

Lemma elem_of_map_2 {A B} (f : A -> B) (l : list A) (x : A) :
  x ∈ l → f x ∈ List.map f l.
Proof. intros H. apply elem_of_map. eauto. Qed.

(** * Removal of duplicates ([fetch_related_papers]) *)

Section Dedupe.

Import Arxiv.

Lemma fold_keep_if_new (l : list ArxivPaper) (seen : gset string) (acc : list ArxivPaper) :
  snd (List.fold_left keep_if_new l (seen, acc)) = acc ++ first_occurrences seen l.
Proof.
  revert seen acc.
  induction l as [|p l IH]; intros seen acc; simpl.
  - by rewrite app_nil_r.
  - destruct (decide (paper_id p ∉ seen)) as [Hnew|Hold].
    + rewrite IH, <- app_assoc. reflexivity.
    + apply IH.
Qed.

Lemma remove_duplicates_first_occurrences (l : list ArxivPaper) :
  remove_duplicates l = first_occurrences ∅ l.
Proof. unfold remove_duplicates. by rewrite fold_keep_if_new. Qed.

Lemma first_occurrences_ids (l : list ArxivPaper) (seen : gset string) (i : string) :
  i ∈ paper_ids (first_occurrences seen l) ↔ i ∈ paper_ids l ∧ i ∉ seen.
Proof.
  revert seen.
  induction l as [|p l IH]; intros seen; simpl.
  - unfold paper_ids; simpl. rewrite elem_of_nil. tauto.
  - unfold paper_ids in *. destruct (decide (paper_id p ∉ seen)) as [Hnew|Hold]; simpl.
    + rewrite !elem_of_cons, IH, not_elem_of_union, not_elem_of_singleton.
      destruct (decide (i = paper_id p)) as [->|Hne]; tauto.
    + rewrite IH, elem_of_cons.
      split; [tauto|]. intros [[->|Hin] Hn]; [contradiction|tauto].
Qed.

Lemma first_occurrences_NoDup (l : list ArxivPaper) (seen : gset string) :
  NoDup (paper_ids (first_occurrences seen l)).
Proof.
  revert seen.
  induction l as [|p l IH]; intros seen; simpl.
  - constructor.
  - destruct (decide (paper_id p ∉ seen)); [|apply IH].
    unfold paper_ids; simpl. constructor; [|apply IH].
    intros Hin. apply first_occurrences_ids in Hin.
    destruct Hin as [_ Hn]. apply Hn, elem_of_union_l, elem_of_singleton. reflexivity.
Qed.

Lemma first_occurrences_sublist (l : list ArxivPaper) (seen : gset string) :
  sublist (first_occurrences seen l) l.
Proof.
  revert seen.
  induction l as [|p l IH]; intros seen; simpl.
  - constructor.
  - destruct (decide (paper_id p ∉ seen)).
    + apply sublist_skip, IH.
    + apply sublist_cons, IH.
Qed.

Lemma first_occurrences_first (l : list ArxivPaper) (seen : gset string) (p : ArxivPaper) :
  p ∈ first_occurrences seen l →
  List.find (fun q => String.eqb (paper_id q) (paper_id p)) l = Some p.
Proof.
  revert seen.
  induction l as [|q l IH]; intros seen; simpl.
  - by rewrite elem_of_nil.
  - destruct (decide (paper_id q ∉ seen)) as [Hnew|Hold].
    + rewrite elem_of_cons. intros [->|Hin].
      * by rewrite String.eqb_refl.
      * assert (Hid : paper_id p ∈ paper_ids (first_occurrences ({[paper_id q]} ∪ seen) l))
          by (unfold paper_ids; apply elem_of_map_2; exact Hin).
        apply first_occurrences_ids in Hid. destruct Hid as [_ Hn].
        destruct (String.eqb_spec (paper_id q) (paper_id p)) as [Heq|Hne].
        -- exfalso. apply Hn, elem_of_union_l, elem_of_singleton. by rewrite Heq.
        -- by apply IH in Hin.
    + intros Hin.
      assert (Hid : paper_id p ∈ paper_ids (first_occurrences seen l))
        by (unfold paper_ids; apply elem_of_map_2; exact Hin).
      apply first_occurrences_ids in Hid.
      destruct (String.eqb_spec (paper_id q) (paper_id p)) as [Heq|Hne].
      * exfalso. apply Hold. rewrite Heq. tauto.
      * by apply IH in Hin.
Qed.

End Dedupe.

(** C3: removing duplicates keeps exactly one paper per distinct identity,
    namely the first paper of the input that carries it, and keeps the
    papers in the order of the input; identities [A,B,A,C,B] give [A,B,C]. *)
Theorem C3_remove_duplicates_first_occurrence :
  (∀ all_papers : list Arxiv.ArxivPaper,
      NoDup (paper_ids (Arxiv.remove_duplicates all_papers))
      ∧ (∀ i, i ∈ paper_ids (Arxiv.remove_duplicates all_papers) ↔ i ∈ paper_ids all_papers)
      ∧ (∀ p, p ∈ Arxiv.remove_duplicates all_papers →
              List.find (fun q => String.eqb (Arxiv.paper_id q) (Arxiv.paper_id p)) all_papers
              = Some p)
      ∧ sublist (Arxiv.remove_duplicates all_papers) all_papers)
  ∧ Arxiv.remove_duplicates (List.map paper_with_id ["A"; "B"; "A"; "C"; "B"])
    = List.map paper_with_id ["A"; "B"; "C"].
Proof.
  split.
  - intros all_papers. rewrite remove_duplicates_first_occurrences.
    split; [apply first_occurrences_NoDup|].
    split; [intros i; rewrite first_occurrences_ids; pose proof (not_elem_of_empty (C:=gset string) i); tauto|].
    split; [intros p; apply first_occurrences_first|apply first_occurrences_sublist].
  - rewrite remove_duplicates_first_occurrences. reflexivity.
Qed.

(** * Parsing the Atom feed *)

Example parse_good_ex :
  Arxiv._parse_response (ET.WellFormed (Feeds.feed [Feeds.good_entry])) = Ok (Some Feeds.good_paper).
Proof. vm_compute. reflexivity. Qed.

Example parse_not_well_formed_ex : Arxiv._parse_response ET.NotWellFormed = Ok None.
Proof. reflexivity. Qed.

Section Feed.

Import Arxiv.

Lemma child_in_elements (root c : ET.xml) :
  c ∈ ET.children_of root → c ∈ ET.elements root.
Proof.
  destruct root as [t a x ch]; simpl. intros Hc.
  apply elem_of_cons; right.
  apply list_elem_of_In, in_flat_map. exists c. split.
  - by apply list_elem_of_In.
  - destruct c; simpl; auto.
Qed.

Lemma find_entry_None (root : ET.xml) :
  entry_elements root = [] → ET.find (atom "entry") root = None.
Proof.
  intros Hnone. unfold ET.find, ET.findall.
  destruct (List.filter _ (ET.children_of root)) as [|c l] eqn:Hf; [reflexivity|].
  exfalso.
  assert (Hc : List.In c (List.filter (fun c => String.eqb (ET.tag_of c) (atom "entry"))
                                     (ET.children_of root)))
    by (rewrite Hf; left; reflexivity).
  apply filter_In in Hc. destruct Hc as [Hin Htag].
  assert (Hin' : List.In c (entry_elements root)).
  { unfold entry_elements. apply filter_In. split; [|exact Htag].
    apply list_elem_of_In, child_in_elements, list_elem_of_In, Hin. }
  rewrite Hnone in Hin'. destruct Hin'.
Qed.

Lemma mapM_result_cons {A B} (f : A -> result B) (a : A) (l : list A) :
  mapM f (a :: l)
  = match f a with
    | Ok y => match mapM f l with
              | Ok k => Ok (y :: k)
              | Raise e => Raise e
              end
    | Raise e => Raise e
    end.
Proof. reflexivity. Qed.

(** [mapM] in the exception monad stops at the first failure. *)
Lemma mapM_raises {A B} (f : A -> result B) (l : list A) (x : A) (e : exn) :
  x ∈ l → f x = Raise e → ∃ e', mapM f l = Raise e'.
Proof.
  induction l as [|a l IH]; intros Hin Hx.
  - by apply elem_of_nil in Hin.
  - rewrite mapM_result_cons. destruct (f a) as [b|e0] eqn:Hfa.
    + apply elem_of_cons in Hin. destruct Hin as [->|Hin]; [congruence|].
      destruct (IH Hin Hx) as [e' He']. exists e'. by rewrite He'.
    + exists e0. reflexivity.
Qed.

Lemma mapM_find_text_exn (tag : string) (l : list ET.xml) (e : exn) :
  mapM (find_text tag) l = Raise e → e = AttributeError.
Proof.
  induction l as [|a l IH]; [discriminate|].
  rewrite mapM_result_cons.
  unfold find_text at 1, attr_of. destruct (ET.find tag a).
  - destruct (mapM (find_text tag) l) eqn:Hm; [discriminate|].
    intros [= <-]. by apply IH.
  - by intros [= <-].
Qed.

(** Every exception of [read_entry] is an [AttributeError], and it gets
    through only when the five children are there. *)
Lemma read_entry_cases (entry : ET.xml) :
  read_entry entry = Raise AttributeError
  ∨ ((∃ f, read_entry entry = Ok f)
     ∧ ∀ c, c ∈ required_children → ET.find (atom c) entry ≠ None).
Proof.
  unfold read_entry, find_text, attr_of.
  destruct (ET.find (atom "id") entry) as [e1|] eqn:H1; cbn; [|by left].
  destruct (ET.text_of e1); cbn; [|by left].
  destruct (ET.find (atom "title") entry) as [e2|] eqn:H2; cbn; [|by left].
  destruct (ET.text_of e2); cbn; [|by left].
  destruct (ET.find (atom "summary") entry) as [e3|] eqn:H3; cbn; [|by left].
  destruct (ET.text_of e3); cbn; [|by left].
  destruct (ET.find (atom "published") entry) as [e4|] eqn:H4; cbn; [|by left].
  destruct (ET.find (atom "updated") entry) as [e5|] eqn:H5; cbn; [|by left].
  destruct (mapM _ (ET.findall (atom "author") entry)) as [names|e] eqn:Hm; cbn.
  - right. split; [eauto|].
    intros c Hc. unfold required_children in Hc.
    repeat (apply elem_of_cons in Hc; destruct Hc as [->|Hc]; [congruence|]).
    by apply elem_of_nil in Hc.
  - left. apply mapM_find_text_exn in Hm. by subst.
Qed.

Lemma read_entry_lacking (entry : ET.xml) :
  lacks_required entry → read_entry entry = Raise AttributeError.
Proof.
  intros (c & Hc & Hnone).
  destruct (read_entry_cases entry) as [H|[_ H]]; [exact H|].
  by destruct (H c Hc).
Qed.

End Feed.

(** C5: a well-formed response without any entry element is parsed to
    [None]; no exception is raised. *)
Theorem C5_no_entry_is_None (root : ET.xml) :
  entry_elements root = [] →
  Arxiv._parse_response (ET.WellFormed root) = Ok None.
Proof.
  intros Hnone. unfold Arxiv._parse_response; cbn.
  by rewrite (find_entry_None root Hnone).
Qed.

Lemma C5_no_entry_is_None_witness :
  entry_elements (Feeds.feed []) = []
  ∧ Arxiv._parse_response (ET.WellFormed (Feeds.feed [])) = Ok None.
Proof.
  split; [reflexivity|].
  apply (C5_no_entry_is_None (Feeds.feed [])). reflexivity.
Defined.

(** C2, as the claim states it, fails: an entry without title makes the
    single-item parser raise [AttributeError], which is not the parser's
    [ParseError]; and in a search the same entry empties the whole result,
    although the other entry of the feed parses on its own. *)
Lemma C2_counterexample :
  Arxiv._parse_response (ET.WellFormed (Feeds.feed [Feeds.bad_entry])) = Raise AttributeError
  ∧ Arxiv._parse_response (ET.WellFormed (Feeds.feed [Feeds.bad_entry])) ≠ Raise ParseError
  ∧ Arxiv.search_papers (Feeds.serves (Feeds.feed [Feeds.good_entry])) "consensus" 10
    = [Feeds.good_paper]
  ∧ Arxiv.search_papers (Feeds.serves (Feeds.feed [Feeds.bad_entry; Feeds.good_entry])) "consensus" 10
    = []
  ∧ ¬ (Feeds.good_paper
       ∈ Arxiv.search_papers (Feeds.serves (Feeds.feed [Feeds.bad_entry; Feeds.good_entry]))
                             "consensus" 10).
Proof.
  assert (H1 : Arxiv._parse_response (ET.WellFormed (Feeds.feed [Feeds.bad_entry]))
               = Raise AttributeError) by (vm_compute; reflexivity).
  assert (H2 : Arxiv.search_papers (Feeds.serves (Feeds.feed [Feeds.bad_entry; Feeds.good_entry]))
                                   "consensus" 10 = []) by (vm_compute; reflexivity).
  split; [exact H1|]. split; [rewrite H1; discriminate|].
  split; [vm_compute; reflexivity|]. split; [exact H2|].
  rewrite H2. apply not_elem_of_nil.
Qed.

(** C2, amended: when an entry lacks one of [id], [title], [summary],
    [published], [updated], the single-item parser that reads it raises
    [AttributeError], and a search whose feed contains it returns the
    empty list. *)
Theorem C2_missing_required_field (entry : ET.xml) :
  lacks_required entry →
  (∀ root, ET.find (Arxiv.atom "entry") root = Some entry →
           Arxiv._parse_response (ET.WellFormed root) = Raise AttributeError)
  ∧ (∀ api query max_results root,
        api (Arxiv.BySearch query max_results) = Response (ET.WellFormed root) →
        entry ∈ ET.findall (Arxiv.atom "entry") root →
        Arxiv.search_papers api query max_results = []).
Proof.
  intros Hlacks. pose proof (read_entry_lacking entry Hlacks) as Hread. split.
  - intros root Hfind. unfold Arxiv._parse_response; cbn.
    rewrite Hfind. cbn. rewrite Hread. reflexivity.
  - intros api query max_results root Hapi Hin.
    unfold Arxiv.search_papers. rewrite Hapi.
    unfold Arxiv.parse_search; cbn.
    destruct (mapM_raises Arxiv.search_entry _ entry AttributeError Hin) as [e' He'].
    + unfold Arxiv.search_entry. rewrite Hread. reflexivity.
    + rewrite He'. reflexivity.
Qed.

Lemma C2_missing_required_field_witness :
  lacks_required Feeds.bad_entry
  ∧ Arxiv._parse_response (ET.WellFormed (Feeds.feed [Feeds.bad_entry])) = Raise AttributeError
  ∧ Arxiv.search_papers (Feeds.serves (Feeds.feed [Feeds.bad_entry; Feeds.good_entry])) "consensus" 10
    = [].
Proof.
  assert (Hl : lacks_required Feeds.bad_entry).
  { exists "title". split; [|reflexivity].
    unfold required_children. apply elem_of_cons; right. apply elem_of_cons; left. reflexivity. }
  split; [exact Hl|].
  destruct (C2_missing_required_field Feeds.bad_entry Hl) as [Hsingle Hbatch].
  split.
  - apply Hsingle. reflexivity.
  - apply (Hbatch _ _ _ (Feeds.feed [Feeds.bad_entry; Feeds.good_entry])); [reflexivity|].
    unfold ET.findall; simpl. apply elem_of_cons; left. reflexivity.
Defined.

(** * The keyword filter *)

Section Keywords.

Lemma prefix_occurs (a s : string) :
  String.prefix a s = true ↔ ∃ post, s = a +:+ post.
Proof.
  revert s. induction a as [|c a IH]; intros s.
  - split; [intros _; by exists s|intros _; by destruct s].
  - destruct s as [|d s]; [split; [discriminate|intros [post Hp]; discriminate]|].
    cbn [String.prefix]. destruct (Ascii.ascii_dec c d) as [->|Hne].
    + rewrite IH. split; intros [post Hp]; exists post.
      * cbn. by rewrite Hp.
      * cbn in Hp. by injection Hp.
    + split; [discriminate|]. intros [post Hp]. cbn in Hp. injection Hp as Hc _. congruence.
Qed.

Lemma contains_occurs (sub s : string) :
  PyStr.contains sub s = true ↔ PyStr.occurs_in sub s.
Proof.
  unfold PyStr.occurs_in. induction s as [|c s IH].
  - cbn [PyStr.contains]. rewrite orb_false_r, prefix_occurs. split.
    + intros [post Hp]. by exists EmptyString, post.
    + intros (pre & post & Hp). destruct pre; [by exists post|discriminate].
  - cbn [PyStr.contains]. rewrite orb_true_iff, IH, prefix_occurs. split.
    + intros [[post Hp]|(pre & post & Hp)].
      * by exists EmptyString, post.
      * exists (String c pre), post. simpl. by rewrite Hp.
    + intros (pre & post & Hp). destruct pre as [|d pre].
      * left. by exists post.
      * right. simpl in Hp. injection Hp as _ Hp. by exists pre, post.
Qed.

Lemma filter_loop {A} (t : A -> bool) (l acc : list A) :
  List.fold_left (fun filtered x => if t x then filtered ++ [x] else filtered) l acc
  = acc ++ List.filter t l.
Proof.
  revert acc. induction l as [|x l IH]; intros acc; simpl.
  - by rewrite app_nil_r.
  - rewrite IH. destruct (t x); [|reflexivity].
    by rewrite <- app_assoc.
Qed.

Lemma keywords_lower (keyword : string) :
  keyword ∈ Blog.keywords → PyStr.lower keyword = keyword.
Proof.
  unfold Blog.keywords. intros H.
  repeat (apply elem_of_cons in H; destruct H as [->|H]; [reflexivity|]).
  by apply elem_of_nil in H.
Qed.

Lemma keyword_test_spec (post : Blog.BlogPost) :
  List.existsb (fun keyword => PyStr.contains keyword (Blog.post_text post)) Blog.keywords = true
  ↔ mentions_keyword post.
Proof.
  rewrite existsb_exists. unfold mentions_keyword.
  split; intros (k & Hk & Hc); exists k.
  - apply list_elem_of_In in Hk. split; [exact Hk|].
    rewrite (keywords_lower k Hk). by apply contains_occurs.
  - split; [by apply list_elem_of_In|].
    rewrite (keywords_lower k Hk) in Hc. by apply contains_occurs.
Qed.

End Keywords.

(** C7: the filter returns the posts that mention a keyword, letter case
    aside, in title, body and tags joined together; it returns them
    unchanged and in the order of the input.  Of the posts titled
    "MonadBFT update" and "Cooking tips" it returns the first only. *)
Theorem C7_filter_selects_keyword_posts :
  (∀ posts : list Blog.BlogPost,
      ∃ keep : Blog.BlogPost -> bool,
        (∀ post, keep post = true ↔ mentions_keyword post)
        ∧ Blog.filter_monadbft_posts posts = List.filter keep posts)
  ∧ Blog.filter_monadbft_posts
      [post_titled "https://blog.categorylabs.xyz/a" "MonadBFT update";
       post_titled "https://blog.categorylabs.xyz/b" "Cooking tips"]
    = [post_titled "https://blog.categorylabs.xyz/a" "MonadBFT update"].
Proof.
  split.
  - intros posts.
    exists (fun post =>
              List.existsb (fun keyword => PyStr.contains keyword (Blog.post_text post))
                           Blog.keywords).
    split; [apply keyword_test_spec|].
    unfold Blog.filter_monadbft_posts. by rewrite filter_loop.
  - vm_compute. reflexivity.
Qed.

(** * Changing a document in place *)

Section Mutation.

Import Bs4.

Lemma node_forall_ind (P : node -> Prop) :
  (∀ nm at_ ch, Forall P ch → P (Tag nm at_ ch)) →
  (∀ s, P (NavigableString s)) →
  ∀ n, P n.
Proof.
  intros Htag Hstr. fix IH 1. intros [nm at_ ch|s]; [|apply Hstr].
  apply Htag. induction ch as [|c ch IHch]; constructor; [apply IH|exact IHch].
Qed.

Variable p : node -> bool.
Variable f : node -> node.
Hypothesis p_shallow : shallow p.
Hypothesis f_keeps : ∀ n, p (f n) = p n.

Lemma update_first_Tag (nm : string) (at_ : list (string * attr_value)) (ch : list node) :
  update_first p f (Tag nm at_ ch)
  = if p (Tag nm at_ ch) then Some (f (Tag nm at_ ch))
    else match update_first_in p f ch with
         | Some ch' => Some (Tag nm at_ ch')
         | None => None
         end.
Proof. reflexivity. Qed.

Local Abbreviation updated := (Bs4.updated p f).

Lemma update_first_in_updated (ch : list node) :
  Forall (fun c => updated (self_and_descendants c)
                           (self_and_descendants <$> update_first p f c)) ch →
  updated (List.flat_map self_and_descendants ch)
          (List.flat_map self_and_descendants <$> update_first_in p f ch).
Proof.
  induction 1 as [|c l Hc _ IHl]; [reflexivity|].
  cbn [update_first_in List.flat_map]. fold (update_first_in p f).
  destruct (update_first p f c) as [c'|]; cbn in Hc.
  - destruct Hc as (e & rest & He & Hh). cbn.
    exists e, (rest ++ List.filter p (List.flat_map self_and_descendants l)).
    rewrite !List.filter_app, He. split; [reflexivity|].
    destruct (List.filter p (self_and_descendants c')); [discriminate|exact Hh].
  - destruct (update_first_in p f l) as [l''|]; cbn in IHl |- *.
    + destruct IHl as (e & rest & He & Hh). exists e, rest.
      rewrite !List.filter_app, Hc, He. split; [reflexivity|].
      cbn. exact Hh.
    + by rewrite List.filter_app, Hc, IHl.
Qed.

Lemma update_first_updated (n : node) :
  updated (self_and_descendants n) (self_and_descendants <$> update_first p f n).
Proof.
  induction n as [nm at_ ch IH|s] using node_forall_ind.
  - apply update_first_in_updated in IH.
    rewrite update_first_Tag. cbn [self_and_descendants].
    destruct (p (Tag nm at_ ch)) eqn:Hp.
    + cbn. rewrite Hp.
      exists (Tag nm at_ ch), (List.filter p (List.flat_map self_and_descendants ch)).
      split; [reflexivity|].
      destruct (f (Tag nm at_ ch)) eqn:Hf; cbn; rewrite <- Hf, f_keeps, Hp; reflexivity.
    + destruct (update_first_in p f ch) as [ch'|]; cbn in IH |- *; rewrite Hp.
      * destruct IH as (e & rest & He & Hh). exists e, rest. split; [exact He|].
        rewrite (p_shallow nm at_ ch' ch), Hp. exact Hh.
      * exact IH.
  - cbn. destruct (p (NavigableString s)) eqn:Hp; cbn; rewrite Hp; [|reflexivity].
    exists (NavigableString s), []. split; [reflexivity|].
    destruct (f (NavigableString s)) eqn:Hf; cbn; rewrite <- Hf, f_keeps, Hp; reflexivity.
Qed.

(** The node changed is the one [find] returns, and [find] returns the
    changed node afterwards. *)
Lemma find_update_first_below (n : node) :
  find p (update_first_below p f n) = f <$> find p n.
Proof.
  destruct n as [nm at_ ch|s]; [|reflexivity].
  unfold find, find_all, descendants, update_first_below; cbn [children_of].
  assert (Hch : updated (List.flat_map self_and_descendants ch)
                        (List.flat_map self_and_descendants <$> update_first_in p f ch)).
  { apply update_first_in_updated, Forall_forall. intros c _. apply update_first_updated. }
  destruct (update_first_in p f ch) as [ch'|]; cbn in Hch; cbn [children_of].
  - destruct Hch as (e & rest & He & Hh). by rewrite Hh, He.
  - by rewrite Hch.
Qed.

End Mutation.

(** The filters that select the content element look at name and class
    only, which [decompose] below the element does not change: after the
    removal, [find] returns the content element without the removed tags. *)
Lemma content_filter_stable (p : Bs4.node -> bool) :
  p ∈ Docs.content_filters →
  Bs4.shallow p ∧ ∀ names n, p (Bs4.without names n) = p n.
Proof.
  unfold Docs.content_filters. intros Hp.
  repeat (apply elem_of_cons in Hp; destruct Hp as [->|Hp];
          [split; [intros nm at_ ch ch'; reflexivity|intros names [nm at_ ch|s]; reflexivity]|]).
  by apply elem_of_nil in Hp.
Qed.

Lemma content_elem_after_decompose (p : Bs4.node -> bool) (soup : Bs4.node) :
  p ∈ Docs.content_filters →
  Bs4.find p (Bs4.update_first_below p (Bs4.without Docs.removed_from_content) soup)
  = Bs4.without Docs.removed_from_content <$> Bs4.find p soup.
Proof.
  intros Hp. destruct (content_filter_stable p Hp) as [Hs Hk].
  apply find_update_first_below; [exact Hs|intros n; apply Hk].
Qed.

(** * Pages of the documentation *)

Example scrape_page_ex :
  Docs._scrape_page "https://docs.monad.xyz/install" (Response Pages.crumbs_outside)
  = Some {| Docs.url := "https://docs.monad.xyz/install"; Docs.title := "Install";
            Docs.content := "Install
Run the installer.";
            Docs.section := "Docs"; Docs.subsection := Some "Getting Started";
            Docs.breadcrumbs := ["Docs"; "Getting Started"] |}.
Proof. vm_compute. reflexivity. Qed.

Example scrape_page_no_crumbs_ex :
  Docs._scrape_page "https://docs.monad.xyz/install" (Response Pages.no_crumbs)
  = Some {| Docs.url := "https://docs.monad.xyz/install"; Docs.title := "Install";
            Docs.content := "Install";
            Docs.section := "General"; Docs.subsection := None;
            Docs.breadcrumbs := [] |}.
Proof. vm_compute. reflexivity. Qed.

Example find_doc_links_ex :
  Docs._find_doc_links (U := SimpleUrl.lib) {[ "https://docs.monad.xyz/intro" ]}
    "https://docs.monad.xyz/intro" (Response Pages.linking)
  = ["https://docs.monad.xyz/guide"].
Proof. vm_compute. reflexivity. Qed.

Example scrape_docs_ex :
  option_map (fun st => (List.map Docs.url (Docs.pages st), Docs.requests st))
    (Docs.scrape_docs (U := SimpleUrl.lib) (static Pages.site) 20 ∅ None)
  = Some ([Pages.seed; Pages.page_a; Pages.page_b], 6).
Proof. vm_compute. reflexivity. Qed.

(** In the record, [section] and [subsection] are the first two entries of
    [breadcrumbs]. *)
Lemma scrape_page_sections (url_ : string) (response : http Bs4.node) (page : Docs.DocPage) :
  Docs._scrape_page url_ response = Some page →
  Docs.url page = url_
  ∧ Docs.section page = List.hd "General" (Docs.breadcrumbs page)
  ∧ Docs.subsection page = List.nth_error (Docs.breadcrumbs page) 1.
Proof.
  unfold Docs._scrape_page. destruct response as [soup|]; [|discriminate].
  destruct (match Docs.first_found Docs.content_filters soup with
            | Some p => _ | None => _ end) as [content soup'].
  intros [= <-]. cbn. split; [reflexivity|]. split.
  - by destruct (Docs._extract_breadcrumbs soup').
  - unfold Docs.subsection_of.
    destruct (Docs._extract_breadcrumbs soup') as [|b1 [|b2 l]]; reflexivity.
Qed.

(** C6: a page whose breadcrumbs, "Docs" and "Getting Started", stand in a
    [nav] inside [main].  The breadcrumbs are there when the page is read,
    but [_scrape_page] removes every [nav] of the content element from the
    soup before it looks for them: the record gets no breadcrumbs, section
    "General" and no subsection. *)
Theorem C6_breadcrumbs_in_content_are_lost :
  Docs._extract_breadcrumbs Pages.crumbs_inside = ["Docs"; "Getting Started"]
  ∧ Docs._scrape_page "https://docs.monad.xyz/install" (Response Pages.crumbs_inside)
    = Some {| Docs.url := "https://docs.monad.xyz/install"; Docs.title := "Install";
              Docs.content := "Install
Run the installer.";
              Docs.section := "General"; Docs.subsection := None;
              Docs.breadcrumbs := [] |}.
Proof. split; vm_compute; reflexivity. Qed.

(** * Link discovery *)

Section Links.

Context {U : UrlLib}.

Lemma collect_links_acc (V : gset string) (u : string) (l : list Bs4.node) (acc : list string) :
  Docs.collect_links V u l acc = acc ++ Docs.collect_links V u l [].
Proof.
  revert acc. induction l as [|link l IH]; intros acc; simpl.
  - by rewrite app_nil_r.
  - destruct (Docs.examine_link V u link) as [[full keep]|e].
    + destruct keep; [|apply IH].
      rewrite IH, (IH [full]), <- app_assoc. reflexivity.
    + by rewrite app_nil_r.
Qed.

(** The visited set only enters the last test of [examine_link]. *)
Lemma examine_link_visited (V : gset string) (u : string) (link : Bs4.node) :
  Docs.examine_link V u link
  = match Docs.examine_link ∅ u link with
    | Ok (full, keep) => Ok (full, keep && bool_decide (full ∉ V))
    | Raise e => Raise e
    end.
Proof.
  unfold Docs.examine_link.
  destruct (Bs4.item "href" link) as [href|]; cbn; [|reflexivity].
  destruct (urljoin u href) as [full|]; cbn; [|reflexivity].
  destruct (url_netloc full) as [n|]; cbn; [|reflexivity].
  destruct (url_netloc Docs.BASE_URL) as [b|]; cbn; [|reflexivity].
  f_equal. f_equal.
  rewrite (bool_decide_eq_true_2 (full ∉ (∅ : gset string))) by apply not_elem_of_empty.
  rewrite andb_true_r, andb_assoc. reflexivity.
Qed.

Lemma collect_links_visited (V : gset string) (u : string) (l : list Bs4.node) :
  Docs.collect_links V u l []
  = List.filter (fun x => bool_decide (x ∉ V)) (Docs.collect_links ∅ u l []).
Proof.
  induction l as [|link l IH]; simpl; [reflexivity|].
  rewrite (examine_link_visited V u link).
  destruct (Docs.examine_link ∅ u link) as [[full keep]|e]; [|reflexivity].
  destruct keep; cbn [andb]; [|exact IH].
  rewrite (collect_links_acc ∅), (collect_links_acc V). cbn [app List.filter].
  destruct (bool_decide (full ∉ V)); cbn [app]; by rewrite IH.
Qed.

Lemma find_doc_links_visited (V : gset string) (u : string) (r : http Bs4.node) (x : string) :
  x ∈ Docs._find_doc_links V u r ↔ x ∈ Docs._find_doc_links ∅ u r ∧ x ∉ V.
Proof.
  unfold Docs._find_doc_links. destruct r as [soup|].
  - rewrite (collect_links_visited V), !list_elem_of_In, filter_In, bool_decide_eq_true.
    reflexivity.
  - rewrite elem_of_nil. tauto.
Qed.

Lemma examine_link_accepts (V : gset string) (u : string) (link : Bs4.node) (full : string) :
  link_resolves u link → is_Some (url_netloc Docs.BASE_URL) →
  Docs.examine_link V u link = Ok (full, true) ↔ link_accepted V u link full.
Proof.
  intros (href & f & n & Hitem & Hjoin & Hnet) [b Hb].
  unfold link_accepted, Docs.examine_link.
  rewrite Hitem, Hb; cbn. rewrite Hjoin; cbn. rewrite Hnet; cbn. split.
  - intros [= <- Hkeep].
    apply andb_true_iff in Hkeep. destruct Hkeep as [Hn Hkeep].
    apply andb_true_iff in Hkeep. destruct Hkeep as [Hhash Hv].
    exists href. split; [reflexivity|]. split; [exact Hjoin|].
    split; [apply String.eqb_eq in Hn; congruence|]. split.
    + intros Hocc. apply contains_occurs in Hocc. by rewrite Hocc in Hhash.
    + by apply bool_decide_eq_true in Hv.
  - intros (href' & [= <-] & Hjoin' & Hnet' & Hhash & Hv).
    rewrite Hjoin in Hjoin'. injection Hjoin' as <-.
    f_equal. f_equal. rewrite Hnet in Hnet'. injection Hnet' as ->.
    rewrite String.eqb_refl. cbn.
    rewrite (bool_decide_eq_true_2 _ Hv), andb_true_r.
    destruct (PyStr.contains "#" f) eqn:Hc; [|reflexivity].
    apply contains_occurs in Hc. contradiction.
Qed.

Lemma examine_link_not_raised (V : gset string) (u : string) (link : Bs4.node) :
  link_resolves u link → is_Some (url_netloc Docs.BASE_URL) →
  ∃ full keep, Docs.examine_link V u link = Ok (full, keep).
Proof.
  intros (href & f & n & Hitem & Hjoin & Hnet) [b Hb].
  unfold Docs.examine_link.
  rewrite Hitem, Hb; cbn. rewrite Hjoin; cbn. rewrite Hnet; cbn. eauto.
Qed.

Lemma in_collect_links (V : gset string) (u : string) (l : list Bs4.node) (x : string) :
  (∀ link, link ∈ l → link_resolves u link) → is_Some (url_netloc Docs.BASE_URL) →
  x ∈ Docs.collect_links V u l [] ↔ ∃ link, link ∈ l ∧ link_accepted V u link x.
Proof.
  intros Hres Hbase. induction l as [|link l IH]; simpl.
  - rewrite elem_of_nil. split; [tauto|]. intros (k & Hk & _). by apply elem_of_nil in Hk.
  - assert (Hl : link_resolves u link) by (apply Hres, elem_of_cons; by left).
    assert (IH' := IH (fun k Hk => Hres k (proj2 (elem_of_cons l k link) (or_intror Hk)))).
    pose proof (examine_link_accepts V u link x Hl Hbase) as Hacc.
    destruct (examine_link_not_raised V u link Hl Hbase) as (full & keep & Hex).
    rewrite Hex in *. destruct keep.
    + rewrite collect_links_acc. cbn [app]. rewrite elem_of_cons, IH'. split.
      * intros [->|(k & Hk & Ha)].
        -- exists link. split; [apply elem_of_cons; by left|by apply Hacc].
        -- exists k. split; [apply elem_of_cons; by right|exact Ha].
      * intros (k & Hk & Ha). apply elem_of_cons in Hk. destruct Hk as [->|Hk].
        -- left. apply Hacc in Ha. by injection Ha.
        -- right. eauto.
    + rewrite IH'. split.
      * intros (k & Hk & Ha). exists k. split; [apply elem_of_cons; by right|exact Ha].
      * intros (k & Hk & Ha). apply elem_of_cons in Hk. destruct Hk as [->|Hk].
        -- apply Hacc in Ha. discriminate.
        -- eauto.
Qed.

End Links.

(** C4, as the claim states it, fails.  On the page
    [https://docs.monad.xyz/intro] the link [/guide#install] resolves to a
    URL of the seed's domain, with a path of its own, that has not been
    visited; it is not returned.  And when the crawl is started on another
    site, a link to a page of that site is not returned either. *)
Lemma C4_counterexample :
  let page := "https://docs.monad.xyz/intro" in
  let target := "https://docs.monad.xyz/guide#install" in
  let found := Docs._find_doc_links (U := SimpleUrl.lib) {[ page ]} page (Response Pages.linking) in
  (SimpleUrl.join page "/guide#install" = Some target
   ∧ SimpleUrl.netloc target = SimpleUrl.netloc Pages.seed
   ∧ SimpleUrl.path target = Some "/guide"
   ∧ SimpleUrl.path page = Some "/intro"
   ∧ (target ∉ ({[ page ]} : gset string))
   ∧ (target ∉ found))
  ∧
  let seed' := "https://example.org/docs" in
  let target' := "https://example.org/docs/a" in
  let found' :=
    Docs._find_doc_links (U := SimpleUrl.lib) {[ seed' ]} seed'
      (Response (Pages.html [Pages.a "/docs/a" "A"])) in
  (SimpleUrl.join seed' "/docs/a" = Some target'
   ∧ SimpleUrl.netloc target' = SimpleUrl.netloc seed'
   ∧ (target' ∉ ({[ seed' ]} : gset string))
   ∧ found' = []).
Proof.
  cbv zeta. split.
  - repeat split; try (vm_compute; reflexivity).
    + apply not_elem_of_singleton. discriminate.
    + replace (Docs._find_doc_links _ _ _) with ["https://docs.monad.xyz/guide"]
        by (vm_compute; reflexivity).
      intros H. apply list_elem_of_singleton in H. discriminate.
  - repeat split; try (vm_compute; reflexivity).
    apply not_elem_of_singleton. discriminate.
Qed.

(** C4, amended: when resolving the links of the page raises no
    exception, a URL is among the links appended to the queue exactly when
    it is the resolved target of a hyperlink of the page, its network
    location is that of [BASE_URL], no [#] occurs in it and it is not in
    the visited set. *)
Theorem C4_discovered_links `{U : UrlLib} (visited : gset string) (url_ : string)
        (soup : Bs4.node) (full_url : string) :
  is_Some (url_netloc Docs.BASE_URL) →
  (∀ link, link ∈ anchors soup → link_resolves url_ link) →
  full_url ∈ Docs._find_doc_links visited url_ (Response soup)
  ↔ ∃ link, link ∈ anchors soup ∧ link_accepted visited url_ link full_url.
Proof.
  intros Hbase Hres. unfold Docs._find_doc_links.
  apply (in_collect_links visited url_ (anchors soup) full_url Hres Hbase).
Qed.

Lemma C4_discovered_links_witness :
  let page := "https://docs.monad.xyz/intro" in
  is_Some (SimpleUrl.netloc Docs.BASE_URL)
  ∧ (∀ link, link ∈ anchors Pages.linking → link_resolves (U := SimpleUrl.lib) page link)
  ∧ ("https://docs.monad.xyz/guide"
       ∈ Docs._find_doc_links (U := SimpleUrl.lib) {[ page ]} page (Response Pages.linking)
     ↔ ∃ link, link ∈ anchors Pages.linking
               ∧ link_accepted (U := SimpleUrl.lib) {[ page ]} page link
                               "https://docs.monad.xyz/guide").
Proof.
  cbv zeta.
  assert (Hbase : is_Some (url_netloc (UrlLib := SimpleUrl.lib) Docs.BASE_URL))
    by (eexists; vm_compute; reflexivity).
  assert (Hres : ∀ link, link ∈ anchors Pages.linking →
                         link_resolves (U := SimpleUrl.lib) "https://docs.monad.xyz/intro" link).
  { intros link Hin. apply list_elem_of_In in Hin. vm_compute in Hin.
    repeat (destruct Hin as [<-|Hin];
            [do 3 eexists; repeat split; vm_compute; reflexivity|]).
    destruct Hin. }
  split; [exact Hbase|]. split; [exact Hres|].
  exact (C4_discovered_links (U := SimpleUrl.lib) {[ "https://docs.monad.xyz/intro" ]}
           "https://docs.monad.xyz/intro" Pages.linking "https://docs.monad.xyz/guide"
           Hbase Hres).
Defined.

(** * The crawl *)

Section CrawlInvariant.

Context {U : UrlLib}.
Variable net : nat -> string -> http Bs4.node.
Variable V0 : gset string.

Lemma urls_of_snoc (pages : list Docs.DocPage) (page : Docs.DocPage) :
  urls_of (pages ++ [page]) = urls_of pages ++ [Docs.url page].
Proof. unfold urls_of. by rewrite List.map_app. Qed.

Lemma crawl_invariant_start (start_url : option string) :
  crawl_invariant V0 (Docs.start V0 start_url).
Proof.
  unfold crawl_invariant; cbn.
  split; [constructor|]. split.
  - intros u Hu. by apply elem_of_nil in Hu.
  - intros u. rewrite elem_of_nil. tauto.
Qed.

Lemma crawl_invariant_step (st st' : Docs.crawl) :
  crawl_invariant V0 st → Docs.step net st = Some st' → crawl_invariant V0 st'.
Proof.
  intros (Hnd & Hfresh & Hvis). unfold Docs.step.
  destruct (Docs.urls_to_visit st) as [|url_ rest]; [discriminate|].
  destruct (decide (url_ ∈ Docs.visited_urls st)) as [Hin|Hnew].
  { intros [= <-]. by repeat split; cbn; try apply Hvis. }
  destruct (Docs._scrape_page url_ _) as [page|] eqn:Hpage.
  - intros [= <-]. apply scrape_page_sections in Hpage. destruct Hpage as [Hurl _].
    assert (Hnot : (url_ ∉ urls_of (Docs.pages st)) ∧ (url_ ∉ V0)).
    { split; intros H; apply Hnew, Hvis; tauto. }
    unfold crawl_invariant; cbn. rewrite urls_of_snoc, Hurl.
    split; [|split].
    + apply NoDup_app. split; [exact Hnd|]. split.
      * intros x Hx Hx'. apply list_elem_of_singleton in Hx'. subst. tauto.
      * apply NoDup_singleton.
    + intros u Hu. apply elem_of_app in Hu. destruct Hu as [Hu|Hu]; [by apply Hfresh|].
      apply list_elem_of_singleton in Hu. subst. tauto.
    + intros u. rewrite elem_of_union, elem_of_singleton, elem_of_app,
        list_elem_of_singleton, Hvis. tauto.
  - intros [= <-]. by repeat split; cbn; try apply Hvis.
Qed.

Lemma crawl_invariant_run (fuel : nat) (st final : Docs.crawl) :
  crawl_invariant V0 st → Docs.run net fuel st = Some final → crawl_invariant V0 final.
Proof.
  revert st. induction fuel as [|fuel IH]; intros st Hinv; simpl.
  - destruct (Docs.step net st); [discriminate|]. by intros [= <-].
  - destruct (Docs.step net st) as [st'|] eqn:Hstep; [|by intros [= <-]].
    apply IH. by apply (crawl_invariant_step st).
Qed.

End CrawlInvariant.

(** C9: when a crawl has ended, the URLs of its records are pairwise
    distinct and are exactly the URLs the crawl added to the visited set;
    the loop keeps this at every turn. *)
Theorem C9_records_match_visited `{U : UrlLib} (net : nat -> string -> http Bs4.node)
        (fuel : nat) (V0 : gset string) (start_url : option string) (final : Docs.crawl) :
  Docs.scrape_docs net fuel V0 start_url = Some final →
  (NoDup (urls_of (Docs.pages final))
   ∧ (∀ u, u ∈ urls_of (Docs.pages final) ↔ u ∈ Docs.visited_urls final ∧ u ∉ V0))
  ∧ crawl_invariant V0 (Docs.start V0 start_url)
  ∧ (∀ st st', crawl_invariant V0 st → Docs.step net st = Some st' → crawl_invariant V0 st').
Proof.
  intros Hrun.
  assert (Hstart : crawl_invariant V0 (Docs.start V0 start_url))
    by apply crawl_invariant_start.
  destruct (crawl_invariant_run net V0 fuel _ final Hstart Hrun) as (Hnd & Hfresh & Hvis).
  split; [split; [exact Hnd|]|split; [exact Hstart|apply crawl_invariant_step]].
  intros u. split.
  - intros Hu. split; [apply Hvis; tauto|by apply Hfresh].
  - intros [Hv Hn]. apply Hvis in Hv. tauto.
Qed.

Lemma C9_records_match_visited_witness :
  ∃ final,
    Docs.scrape_docs (U := SimpleUrl.lib) (static Pages.site) 20 {[ Pages.page_b ]} None
    = Some final
    ∧ urls_of (Docs.pages final) = [Pages.seed; Pages.page_a]
    ∧ NoDup (urls_of (Docs.pages final))
    ∧ (∀ u, u ∈ urls_of (Docs.pages final)
            ↔ u ∈ Docs.visited_urls final ∧ u ∉ ({[ Pages.page_b ]} : gset string)).
Proof.
  destruct (Docs.scrape_docs (U := SimpleUrl.lib) (static Pages.site) 20
              {[ Pages.page_b ]} None) as [final|] eqn:Hrun; [|vm_compute in Hrun; discriminate].
  exists final. split; [reflexivity|].
  split; [vm_compute in Hrun; injection Hrun as <-; vm_compute; reflexivity|].
  apply (C9_records_match_visited (U := SimpleUrl.lib) _ _ _ _ _ Hrun).
Defined.

(** * Termination of the crawl on a finite site *)

(** Replaces the links of a concrete page, in hypothesis [H] or in the
    goal, by the list [l] they evaluate to. *)
Ltac links_are_in l H :=
  match type of H with
  | context [Docs._find_doc_links ?V ?u ?r] =>
      replace (Docs._find_doc_links V u r) with l in H by (vm_compute; reflexivity)
  end.

Ltac links_are l :=
  match goal with
  | |- context [Docs._find_doc_links ?V ?u ?r] =>
      replace (Docs._find_doc_links V u r) with l by (vm_compute; reflexivity)
  end.

Section FiniteSite.

Context {U : UrlLib}.
Variable web : string -> http Bs4.node.
Variable seed : string.
Variable R : list string.
Hypothesis R_reachable : ∀ u, u ∈ R ↔ reachable web seed u.
Hypothesis R_served : ∀ u, u ∈ R → web u ≠ Failed.

Local Abbreviation net := (static web).
Local Abbreviation site_invariant := (site_invariant web seed).

Lemma scrape_page_served (u : string) :
  web u ≠ Failed → ∃ page, Docs._scrape_page u (web u) = Some page.
Proof.
  intros Hu. unfold Docs._scrape_page. destruct (web u) as [soup|]; [|contradiction].
  destruct (match Docs.first_found Docs.content_filters soup with
            | Some p => _ | None => _ end) as [content soup'].
  eauto.
Qed.

Lemma site_invariant_start : site_invariant (Docs.start ∅ (Some seed)).
Proof.
  split; [apply crawl_invariant_start|]. cbn.
  split; [intros u Hu; by apply not_elem_of_empty in Hu|].
  split; [intros u Hu; apply list_elem_of_singleton in Hu; subst; constructor|].
  split; [reflexivity|].
  split; [right; by apply list_elem_of_singleton|].
  intros u v Hu. by apply not_elem_of_empty in Hu.
Qed.

(** A turn that finds its URL already visited. *)
Lemma step_skip (st : Docs.crawl) (u : string) (rest : list string) :
  Docs.urls_to_visit st = u :: rest → u ∈ Docs.visited_urls st →
  Docs.step net st
  = Some {| Docs.pages := Docs.pages st; Docs.urls_to_visit := rest;
            Docs.visited_urls := Docs.visited_urls st;
            Docs.requests := Docs.requests st |}.
Proof.
  intros Hq Hin. unfold Docs.step. rewrite Hq.
  destruct (decide (u ∈ Docs.visited_urls st)); [reflexivity|contradiction].
Qed.

(** A turn that visits a reachable page. *)
Lemma step_visit (st : Docs.crawl) (u : string) (rest : list string) :
  Docs.urls_to_visit st = u :: rest → u ∉ Docs.visited_urls st → u ∈ R →
  ∃ page,
    Docs.url page = u
    ∧ Docs.step net st
      = Some {| Docs.pages := Docs.pages st ++ [page];
                Docs.urls_to_visit :=
                  rest ++ Docs._find_doc_links ({[ u ]} ∪ Docs.visited_urls st) u (web u);
                Docs.visited_urls := {[ u ]} ∪ Docs.visited_urls st;
                Docs.requests := S (S (Docs.requests st)) |}.
Proof.
  intros Hq Hnew HR. destruct (scrape_page_served u (R_served u HR)) as [page Hpage].
  exists page. split; [by apply scrape_page_sections in Hpage as [? _]|].
  unfold Docs.step. rewrite Hq.
  destruct (decide (u ∈ Docs.visited_urls st)); [contradiction|].
  unfold static. by rewrite Hpage.
Qed.

Lemma site_invariant_skip (st : Docs.crawl) (u : string) (rest : list string) :
  site_invariant st → Docs.urls_to_visit st = u :: rest → u ∈ Docs.visited_urls st →
  site_invariant {| Docs.pages := Docs.pages st; Docs.urls_to_visit := rest;
                    Docs.visited_urls := Docs.visited_urls st;
                    Docs.requests := Docs.requests st |}.
Proof.
  intros (Hc & Hv & Hq & Hn & Hs & Hcl) Hpending Hin. rewrite Hpending in *.
  split; [exact Hc|]. cbn.
  split; [exact Hv|].
  split; [intros x Hx; apply Hq, elem_of_cons; by right|].
  split; [exact Hn|]. split.
  - destruct Hs as [Hs|Hs]; [by left|].
    apply elem_of_cons in Hs. destruct Hs as [->|Hs]; [by left|by right].
  - intros x v Hx Hl. destruct (Hcl x v Hx Hl) as [H|H]; [by left|].
    apply elem_of_cons in H. destruct H as [->|H]; [by left|by right].
Qed.

Lemma site_invariant_visit (st : Docs.crawl) (u : string) (rest : list string)
      (page : Docs.DocPage) :
  site_invariant st → Docs.urls_to_visit st = u :: rest → u ∉ Docs.visited_urls st →
  Docs.url page = u →
  site_invariant
    {| Docs.pages := Docs.pages st ++ [page];
       Docs.urls_to_visit :=
         rest ++ Docs._find_doc_links ({[ u ]} ∪ Docs.visited_urls st) u (web u);
       Docs.visited_urls := {[ u ]} ∪ Docs.visited_urls st;
       Docs.requests := S (S (Docs.requests st)) |}.
Proof.
  intros (Hc & Hv & Hq & Hn & Hs & Hcl) Hpending Hnew Hurl. rewrite Hpending in *.
  assert (Hu : reachable web seed u) by (apply Hq, elem_of_cons; by left).
  destruct Hc as (Hnd & Hfresh & Hvis).
  assert (Hnot : u ∉ urls_of (Docs.pages st)) by (intros H; apply Hnew, Hvis; tauto).
  split; [|cbn; split; [|split; [|split; [|split]]]].
  - unfold crawl_invariant; cbn. rewrite urls_of_snoc, Hurl. split; [|split].
    + apply NoDup_app. split; [exact Hnd|]. split; [|apply NoDup_singleton].
      intros x Hx Hx'. apply list_elem_of_singleton in Hx'. by subst.
    + intros x _. apply not_elem_of_empty.
    + intros x. rewrite elem_of_union, elem_of_singleton, elem_of_app,
        list_elem_of_singleton, Hvis. tauto.
  - intros x Hx. apply elem_of_union in Hx. destruct Hx as [Hx|Hx]; [|by apply Hv].
    apply elem_of_singleton in Hx. by subst.
  - intros x Hx. apply elem_of_app in Hx. destruct Hx as [Hx|Hx].
    + apply Hq, elem_of_cons. by right.
    + apply find_doc_links_visited in Hx. destruct Hx as [Hx _].
      by apply (reach_link web seed u x).
  - rewrite length_app, Hn. cbn. lia.
  - destruct Hs as [Hs|Hs]; [left; apply elem_of_union; by right|].
    apply elem_of_cons in Hs. destruct Hs as [->|Hs].
    + left. apply elem_of_union; left. by apply elem_of_singleton.
    + right. apply elem_of_app. by left.
  - intros x v Hx Hl.
    destruct (decide (v ∈ ({[ u ]} ∪ Docs.visited_urls st : gset string))) as [Hin|Hout];
      [by left|right].
    apply elem_of_union in Hx. destruct Hx as [Hx|Hx].
    + apply elem_of_singleton in Hx. subst x.
      apply elem_of_app; right. apply find_doc_links_visited. by split.
    + destruct (Hcl x v Hx Hl) as [H|H].
      * exfalso. apply Hout, elem_of_union. by right.
      * apply elem_of_cons in H. destruct H as [->|H].
        -- exfalso. apply Hout, elem_of_union; left. by apply elem_of_singleton.
        -- apply elem_of_app. by left.
Qed.

(** Visiting a reachable page leaves fewer reachable pages unvisited. *)
Lemma filter_length_lt {A} (p q : A -> bool) (l : list A) (x : A) :
  (∀ y, q y = true → p y = true) → x ∈ l → p x = true → q x = false →
  (List.length (List.filter q l) < List.length (List.filter p l))%nat.
Proof.
  intros Hqp Hin Hp Hq.
  induction l as [|y l IH]; [by apply elem_of_nil in Hin|].
  assert (Hle : ∀ k : list A,
             (List.length (List.filter q k) <= List.length (List.filter p k))%nat).
  { induction k as [|z k IHk]; simpl; [lia|].
    destruct (q z) eqn:Hz; [rewrite (Hqp z Hz); simpl; lia|].
    destruct (p z); simpl; lia. }
  apply elem_of_cons in Hin. simpl. destruct Hin as [<-|Hin].
  - rewrite Hp, Hq. simpl. specialize (Hle l). lia.
  - specialize (IH Hin). destruct (q y) eqn:Hz; [rewrite (Hqp y Hz); simpl; lia|].
    destruct (p y); simpl; lia.
Qed.

Lemma unvisited_visit (st st' : Docs.crawl) (u : string) :
  u ∈ R → u ∉ Docs.visited_urls st →
  Docs.visited_urls st' = {[ u ]} ∪ Docs.visited_urls st →
  (unvisited R st' < unvisited R st)%nat.
Proof.
  intros HR Hnew Hv'. unfold unvisited. apply (filter_length_lt _ _ R u).
  - intros y Hy. apply bool_decide_eq_true in Hy. apply bool_decide_eq_true.
    intros H. apply Hy. rewrite Hv'. apply elem_of_union. by right.
  - exact HR.
  - by apply bool_decide_eq_true.
  - apply bool_decide_eq_false. intros H. apply H. rewrite Hv'.
    apply elem_of_union; left. by apply elem_of_singleton.
Qed.

Lemma run_step (fuel : nat) (st st' : Docs.crawl) :
  Docs.step net st = Some st' → Docs.run net (S fuel) st = Docs.run net fuel st'.
Proof. intros H. simpl. by rewrite H. Qed.

(** The loop ends: by induction on the reachable pages left to visit,
    and inside on the queue. *)
Lemma crawl_ends (k : nat) :
  ∀ (queue : list string) (st : Docs.crawl),
    Docs.urls_to_visit st = queue → site_invariant st → (unvisited R st <= k)%nat →
    ∃ fuel final,
      Docs.run net fuel st = Some final
      ∧ site_invariant final ∧ Docs.urls_to_visit final = [].
Proof.
  induction k as [k IHk] using lt_wf_ind.
  induction queue as [|u rest IHq]; intros st Hq Hinv Hk.
  - exists 0, st. split; [|by split].
    unfold Docs.run, Docs.step. by rewrite Hq.
  - destruct (decide (u ∈ Docs.visited_urls st)) as [Hin|Hnew].
    + pose proof (step_skip st u rest Hq Hin) as Hstep.
      pose proof (site_invariant_skip st u rest Hinv Hq Hin) as Hinv'.
      match type of Hstep with _ = Some ?s => set (st' := s) in * end.
      destruct (IHq st' eq_refl Hinv' Hk) as (fuel & final & Hrun & Hfinal).
      exists (S fuel), final. split; [|exact Hfinal].
      by rewrite (run_step fuel st st' Hstep).
    + assert (HR : u ∈ R).
      { apply R_reachable. destruct Hinv as (_ & _ & Hreach & _).
        apply Hreach. rewrite Hq. apply elem_of_cons. by left. }
      destruct (step_visit st u rest Hq Hnew HR) as (page & Hurl & Hstep).
      pose proof (site_invariant_visit st u rest page Hinv Hq Hnew Hurl) as Hinv'.
      match type of Hstep with _ = Some ?s => set (st' := s) in * end.
      assert (Hlt : (unvisited R st' < unvisited R st)%nat)
        by (apply (unvisited_visit st st' u HR Hnew); reflexivity).
      destruct (IHk (unvisited R st') ltac:(lia) _ st' eq_refl Hinv' (le_n _))
        as (fuel & final & Hrun & Hfinal).
      exists (S fuel), final. split; [|exact Hfinal].
      by rewrite (run_step fuel st st' Hstep).
Qed.

(** When the queue is empty, every reachable page has been visited. *)
Lemma all_visited (st : Docs.crawl) (u : string) :
  site_invariant st → Docs.urls_to_visit st = [] →
  reachable web seed u → u ∈ Docs.visited_urls st.
Proof.
  intros (_ & _ & _ & _ & Hs & Hcl) Hq. rewrite Hq in *.
  induction 1 as [|x v _ IH Hl].
  - destruct Hs as [Hs|Hs]; [exact Hs|by apply elem_of_nil in Hs].
  - destruct (Hcl x v IH Hl) as [H|H]; [exact H|by apply elem_of_nil in H].
Qed.

Lemma crawl_of_finite_site :
  NoDup R →
  ∃ fuel final,
    Docs.scrape_docs net fuel ∅ (Some seed) = Some final
    ∧ urls_of (Docs.pages final) ≡ₚ R
    ∧ List.length (Docs.pages final) = List.length R
    ∧ Docs.requests final = (2 * List.length R)%nat.
Proof.
  intros HndR.
  destruct (crawl_ends (unvisited R (Docs.start ∅ (Some seed))) _ _ eq_refl
              site_invariant_start (le_n _)) as (fuel & final & Hrun & Hinv & Hq).
  exists fuel, final. split; [exact Hrun|].
  assert (Hperm : urls_of (Docs.pages final) ≡ₚ R).
  { pose proof Hinv as [(Hnd & _ & Hvis) (Hv & _)].
    apply NoDup_Permutation; [exact Hnd|exact HndR|].
    intros u. rewrite R_reachable. split.
    - intros Hu. apply Hv, Hvis. by left.
    - intros Hu. apply (all_visited final u Hinv Hq) in Hu.
      apply Hvis in Hu. destruct Hu as [Hu|Hu]; [exact Hu|by apply not_elem_of_empty in Hu]. }
  assert (Hlen : List.length (Docs.pages final) = List.length R).
  { apply Permutation_length in Hperm. unfold urls_of in Hperm.
    by rewrite length_map in Hperm. }
  split; [exact Hperm|]. split; [exact Hlen|].
  destruct Hinv as (_ & _ & _ & Hn & _). by rewrite Hn, Hlen.
Qed.

End FiniteSite.

(** C1, as the claim states it, fails: on a site of one page without links
    the crawl returns one record and has sent two requests, one by
    [_scrape_page] and one by [_find_doc_links]. *)
Lemma C1_counterexample :
  (∀ u, reachable (U := SimpleUrl.lib) Pages.lonely Pages.seed u ↔ u ∈ [Pages.seed])
  ∧ ∃ final,
      Docs.scrape_docs (U := SimpleUrl.lib) (static Pages.lonely) 5 ∅ (Some Pages.seed)
      = Some final
      ∧ urls_of (Docs.pages final) = [Pages.seed]
      ∧ Docs.requests final = 2
      ∧ Docs.requests final ≠ List.length [Pages.seed].
Proof.
  split.
  - intros u. split.
    + induction 1 as [|x v _ IH Hl]; [apply list_elem_of_singleton; reflexivity|].
      apply list_elem_of_singleton in IH. subst x.
      unfold links_to in Hl.
      links_are_in (@nil string) Hl.
      by apply elem_of_nil in Hl.
    + intros Hu. apply list_elem_of_singleton in Hu. subst u. constructor.
  - destruct (Docs.scrape_docs (U := SimpleUrl.lib) (static Pages.lonely) 5 ∅ (Some Pages.seed))
      as [final|] eqn:Hrun; [|vm_compute in Hrun; discriminate].
    exists final. split; [reflexivity|].
    vm_compute in Hrun. injection Hrun as <-.
    split; [vm_compute; reflexivity|]. split; [reflexivity|]. cbn. discriminate.
Qed.

(** C1, amended: on a site that serves each URL the same page at every
    request, whose pages reachable from the seed through the links that
    link discovery accepts are the [N] URLs of [R], all served, the crawl
    of a fresh scraper ends; it returns one record for each URL of [R] and
    no other, each once, and it has sent [2 * N] requests. *)
Theorem C1_crawl_of_finite_site `{U : UrlLib} (web : string -> http Bs4.node)
        (seed : string) (R : list string) :
  NoDup R →
  (∀ u, u ∈ R ↔ reachable web seed u) →
  (∀ u, u ∈ R → web u ≠ Failed) →
  ∃ fuel final,
    Docs.scrape_docs (static web) fuel ∅ (Some seed) = Some final
    ∧ urls_of (Docs.pages final) ≡ₚ R
    ∧ List.length (Docs.pages final) = List.length R
    ∧ Docs.requests final = (2 * List.length R)%nat.
Proof.
  intros Hnd Hreach Hserved.
  exact (crawl_of_finite_site web seed R Hreach Hserved Hnd).
Qed.

Lemma C1_crawl_of_finite_site_witness :
  let R := [Pages.seed; Pages.page_a; Pages.page_b] in
  NoDup R
  ∧ (∀ u, u ∈ R ↔ reachable (U := SimpleUrl.lib) Pages.site Pages.seed u)
  ∧ (∀ u, u ∈ R → Pages.site u ≠ Failed)
  ∧ ∃ fuel final,
      Docs.scrape_docs (U := SimpleUrl.lib) (static Pages.site) fuel ∅ (Some Pages.seed)
      = Some final
      ∧ urls_of (Docs.pages final) ≡ₚ R
      ∧ List.length (Docs.pages final) = 3
      ∧ Docs.requests final = 6.
Proof.
  cbv zeta.
  assert (Hnd : NoDup [Pages.seed; Pages.page_a; Pages.page_b]).
  { apply NoDup_ListNoDup. repeat constructor; simpl; intuition discriminate. }
  assert (Hsa : links_to (U := SimpleUrl.lib) Pages.site Pages.seed Pages.page_a).
  { unfold links_to.
    links_are [Pages.page_a; Pages.page_b].
    apply elem_of_cons. by left. }
  assert (Hsb : links_to (U := SimpleUrl.lib) Pages.site Pages.seed Pages.page_b).
  { unfold links_to.
    links_are [Pages.page_a; Pages.page_b].
    apply elem_of_cons; right. apply elem_of_cons. by left. }
  assert (Hreach : ∀ u, u ∈ [Pages.seed; Pages.page_a; Pages.page_b]
                        ↔ reachable (U := SimpleUrl.lib) Pages.site Pages.seed u).
  { intros u. split.
    - intros Hu. apply list_elem_of_In in Hu. simpl in Hu.
      destruct Hu as [<-|[<-|[<-|[]]]].
      + constructor.
      + exact (reach_link _ _ _ _ (reach_seed _ _) Hsa).
      + exact (reach_link _ _ _ _ (reach_seed _ _) Hsb).
    - induction 1 as [|x v _ IH Hl]; [apply elem_of_cons; by left|].
      unfold links_to in Hl. apply list_elem_of_In in IH. simpl in IH.
      destruct IH as [<-|[<-|[<-|[]]]].
      + links_are_in [Pages.page_a; Pages.page_b] Hl.
        apply elem_of_cons; right. exact Hl.
      + links_are_in [Pages.page_b; Pages.seed; Pages.page_a] Hl.
        apply list_elem_of_In in Hl. apply list_elem_of_In. simpl in *. tauto.
      + links_are_in [Pages.page_a; Pages.seed] Hl.
        apply list_elem_of_In in Hl. apply list_elem_of_In. simpl in *. tauto. }
  assert (Hserved : ∀ u, u ∈ [Pages.seed; Pages.page_a; Pages.page_b] → Pages.site u ≠ Failed).
  { intros u Hu. apply list_elem_of_In in Hu. simpl in Hu.
    destruct Hu as [<-|[<-|[<-|[]]]]; vm_compute; discriminate. }
  split; [exact Hnd|]. split; [exact Hreach|]. split; [exact Hserved|].
  exact (C1_crawl_of_finite_site (U := SimpleUrl.lib) Pages.site Pages.seed
           [Pages.seed; Pages.page_a; Pages.page_b] Hnd Hreach Hserved).
Defined.

(** * Saving records *)

Example scrape_blog_ex :
  Blog.scrape_category_labs (U := SimpleUrl.lib) (static Pages.blog) = [Pages.alpha; Pages.beta].
Proof. vm_compute. reflexivity. Qed.

Example save_post_path_ex :
  fst <$> Blog.save_post (U := SimpleUrl.lib) (F := SimpleFiles.fs) "data/blog_posts" ∅
            (post_titled "https://blog.categorylabs.xyz/2025/monadbft/" "MonadBFT")
  = Ok "data/blog_posts/2025_monadbft.json".
Proof. vm_compute. reflexivity. Qed.

(** A title with [/] names a file in a directory that is not there. *)
Example save_post_slash_ex :
  Blog.save_post (U := SimpleUrl.lib) (F := SimpleFiles.fs) "data/blog_posts" ∅
    (post_titled "https://blog.categorylabs.xyz" "TCP/IP notes")
  = Raise OSError.
Proof. vm_compute. reflexivity. Qed.

(** Two names of one file. *)
Example save_post_alias_ex :
  fst <$> Blog.save_post (U := SimpleUrl.lib) (F := SimpleFiles.fs) "data/blog_posts" ∅
            (post_titled "https://blog.categorylabs.xyz" "./Alpha")
  = fst <$> Blog.save_post (U := SimpleUrl.lib) (F := SimpleFiles.fs) "data/blog_posts" ∅
              (post_titled "https://blog.categorylabs.xyz" "Alpha").
Proof. vm_compute. reflexivity. Qed.

(** The identity of an old paper has a [/]. *)
Example save_metadata_slash_ex :
  Arxiv.save_metadata (F := SimpleFiles.fs) "data/papers" ∅ (paper_with_id "cs/0601001v1")
  = Raise OSError.
Proof. vm_compute. reflexivity. Qed.

Section Saving.

Context {U : UrlLib} {F : FileSys}.

Lemma append_inj_l (a x y : string) : a +:+ x = a +:+ y → x = y.
Proof.
  induction a as [|c a IH]; cbn; [tauto|].
  intros H. injection H as H. by apply IH.
Qed.

Lemma length_append (x y : string) :
  String.length (x +:+ y) = (String.length x + String.length y)%nat.
Proof. induction x as [|c x IH]; simpl; [reflexivity|]. f_equal. exact IH. Qed.

Lemma append_inj_r (s x y : string) : x +:+ s = y +:+ s → x = y.
Proof.
  revert y. induction x as [|c x IH]; intros [|d y] H; cbn in H.
  - reflexivity.
  - apply (f_equal String.length) in H. rewrite !length_append in H. simpl in H. lia.
  - apply (f_equal String.length) in H. rewrite !length_append in H. simpl in H. lia.
  - simpl in H. injection H as -> H. f_equal. by apply IH.
Qed.

Lemma path_join_inj (dir f g : string) :
  path_join dir (f +:+ ".json") = path_join dir (g +:+ ".json") → f = g.
Proof.
  unfold path_join. intros H.
  apply append_inj_l, append_inj_l in H. by apply append_inj_r in H.
Qed.

Lemma save_page_again (dir : string) (files files1 : gmap string Docs.DocPage)
      (d e : Docs.DocPage) (path : string) :
  Docs.url d = Docs.url e →
  Docs.save_page dir files d = Ok (path, files1) →
  Docs.save_page dir files1 e = Ok (path, <[ path := e ]> files).
Proof.
  unfold Docs.save_page, Docs.page_filename. intros <-.
  destruct (url_path (Docs.url d)) as [p|]; cbn; [|discriminate].
  intros [= <- <-]. by rewrite insert_insert_eq.
Qed.

Lemma post_filename_same (p q : Blog.BlogPost) :
  Blog.url p = Blog.url q →
  Blog.title p = Blog.title q
  ∨ (∃ path, url_path (Blog.url p) = Some path ∧ flatten_path path ≠ "") →
  Blog.post_filename p = Blog.post_filename q.
Proof.
  unfold Blog.post_filename. intros <- [<-|(path & Hpath & Hne)]; [reflexivity|].
  rewrite Hpath; cbn. destruct (flatten_path path); [contradiction|reflexivity].
Qed.

Lemma save_post_again (dir : string) (files files1 : gmap string Blog.BlogPost)
      (p q : Blog.BlogPost) (path : string) :
  Blog.post_filename p = Blog.post_filename q →
  Blog.save_post dir files p = Ok (path, files1) →
  Blog.save_post dir files1 q = Ok (path, <[ path := q ]> files).
Proof.
  unfold Blog.save_post. intros <-.
  destruct (Blog.post_filename p) as [f|]; cbn; [|discriminate].
  destruct (opens dir (f +:+ ".json")) as [file|]; cbn; [|discriminate].
  intros [= <- <-]. by rewrite insert_insert_eq.
Qed.

Lemma save_metadata_again (dir : string) (files files1 : gmap string Arxiv.ArxivPaper)
      (a b : Arxiv.ArxivPaper) (path : string) :
  Arxiv.paper_id a = Arxiv.paper_id b →
  Arxiv.save_metadata dir files a = Ok (path, files1) →
  Arxiv.save_metadata dir files1 b = Ok (path, <[ path := b ]> files).
Proof.
  unfold Arxiv.save_metadata, Arxiv.metadata_path, Arxiv.metadata_name. intros <-.
  destruct (opens dir (Arxiv.paper_id a +:+ ".json")) as [file|]; cbn; [|discriminate].
  intros [= <- <-]. by rewrite insert_insert_eq.
Qed.

(** A container with a title and without a link gives a post at the base URL. *)
Lemma scrape_article_linkless (net : nat -> string -> http Bs4.node) (base_url : string)
      (n : nat) (article : Bs4.node) :
  has_title article → has_no_link article →
  ∃ post, Blog.scrape_article net base_url n article = (Some post, S n)
          ∧ Blog.url post = base_url.
Proof.
  unfold has_title, has_no_link, Blog.scrape_article. intros [t Ht] Hlink.
  rewrite Ht, Hlink. eexists. split; reflexivity.
Qed.

(** When the base URL has an empty path, such a post is saved under the
    slug of its title. *)
Lemma save_post_at_root (dir : string) (files : gmap string Blog.BlogPost) (post : Blog.BlogPost) :
  url_path (Blog.url post) = Some "" →
  Blog.save_post dir files post
  = match opens dir (title_slug (Blog.title post) +:+ ".json") with
    | Some file => Ok (file, <[ file := post ]> files)
    | None => Raise OSError
    end.
Proof.
  intros Hpath. unfold Blog.save_post, Blog.post_filename. rewrite Hpath. cbn.
  by destruct (opens dir (title_slug (Blog.title post) +:+ ".json")).
Qed.

(** Plain names. *)
Lemma plain_cons (c : ascii) (s : string) :
  plain (String c s) ↔ c ≠ "/"%char ∧ plain s.
Proof.
  unfold plain. cbn [PyStr.contains String.prefix].
  destruct (Ascii.ascii_dec "/" c) as [<-|Hne].
  - destruct s; cbn; split; (discriminate || tauto).
  - cbn. split; [intros H; split; [congruence|exact H]|tauto].
Qed.

Lemma plain_append (x y : string) : plain x → plain y → plain (x +:+ y).
Proof.
  induction x as [|c x IH]; [cbn; tauto|].
  change (String c x +:+ y) with (String c (x +:+ y)).
  rewrite !plain_cons. intros [Hc Hx] Hy. split; [exact Hc|by apply IH].
Qed.

Lemma plain_not_absolute (name : string) : plain name → String.prefix "/" name = false.
Proof.
  destruct name as [|c name]; [reflexivity|]. rewrite plain_cons. intros [Hc _].
  cbn [String.prefix]. by destruct (Ascii.ascii_dec "/" c) as [<-|_].
Qed.

Lemma append_one (cur : string) (c : ascii) (s : string) :
  (cur +:+ String c EmptyString) +:+ s = cur +:+ String c s.
Proof.
  induction cur as [|d cur IH]; [reflexivity|].
  change (String d ((cur +:+ String c EmptyString) +:+ s) = String d (cur +:+ String c s)).
  by rewrite IH.
Qed.

Lemma append_empty (s : string) : s +:+ "" = s.
Proof.
  induction s as [|c s IH]; [reflexivity|].
  change (String c (s +:+ "") = String c s). by rewrite IH.
Qed.

Lemma split_go_plain (name : string) :
  ∀ cur, plain name → PyStr.split_go "/" 0 cur name = [cur +:+ name].
Proof.
  induction name as [|c name IH]; intros cur; cbn [PyStr.split_go].
  - intros _. by rewrite append_empty.
  - intros Hplain. rewrite (plain_not_absolute _ Hplain).
    apply plain_cons in Hplain. destruct Hplain as [_ Hplain].
    rewrite (IH _ Hplain). by rewrite append_one.
Qed.

Lemma split_plain (name : string) : plain name → PyStr.split "/" name = [name].
Proof. apply (split_go_plain name ""). Qed.

(** In the sample directory a plain name opens the file of that name. *)
Lemma simple_files_plain (dir name file : string) :
  plain name → SimpleFiles.opens_ dir name = Some file → file = path_join dir name.
Proof.
  intros Hplain. unfold SimpleFiles.opens_, SimpleFiles.components.
  rewrite (plain_not_absolute _ Hplain), (split_plain _ Hplain). cbn [List.filter].
  destruct (negb _); [|discriminate].
  destruct (String.eqb name ".."); [discriminate|]. by intros [= <-].
Qed.

Lemma simple_files_separates : separates SimpleFiles.fs.
Proof.
  intros dir name1 name2 file H1 H2 Ho1 Ho2.
  apply (simple_files_plain dir name1 file H1) in Ho1.
  apply (simple_files_plain dir name2 file H2) in Ho2.
  rewrite Ho1 in Ho2. unfold path_join in Ho2. by apply append_inj_l, append_inj_l in Ho2.
Qed.

End Saving.

(** C8, as the claim states it, fails.  Two posts with the URL of the blog
    itself and different titles are saved to different files, so that two
    files are there after both were saved; and the documentation page at
    the root of the site is saved as [index.json], not under its title. *)
Lemma C8_counterexample :
  Blog.url Pages.alpha = Blog.url Pages.beta
  ∧ fst <$> Blog.save_post (U := SimpleUrl.lib) (F := SimpleFiles.fs)
              "data/blog_posts" ∅ Pages.alpha
    = Ok "data/blog_posts/alpha.json"
  ∧ fst <$> Blog.save_post (U := SimpleUrl.lib) (F := SimpleFiles.fs)
              "data/blog_posts" ∅ Pages.beta
    = Ok "data/blog_posts/beta.json"
  ∧ (∃ files,
        Blog.save_each (U := SimpleUrl.lib) (F := SimpleFiles.fs)
          "data/blog_posts" ∅ [Pages.alpha; Pages.beta]
        = Ok files
        ∧ files !! "data/blog_posts/alpha.json" = Some Pages.alpha
        ∧ files !! "data/blog_posts/beta.json" = Some Pages.beta
        ∧ size files = 2)
  ∧ fst <$> Docs.save_page (U := SimpleUrl.lib) "data/docs" ∅ Pages.welcome
    = Ok "data/docs/index.json"
  ∧ title_slug (Docs.title Pages.welcome) = "welcome_to_monad".
Proof.
  split; [reflexivity|]. split; [vm_compute; reflexivity|]. split; [vm_compute; reflexivity|].
  split; [|split; vm_compute; reflexivity].
  eexists. split; [vm_compute; reflexivity|].
  repeat split; vm_compute; reflexivity.
Qed.

(** C8, amended.  The file of a record is named in the output directory
    by: [paper_id] followed by [.json] for a paper; the path of the URL
    without the [/] at its ends and with [_] for every other [/], or
    [index] when that is empty, followed by [.json], for a documentation
    page; the same flattened path, or when that is empty the first 50
    characters of the lower-cased title with [_] for its blanks, followed
    by [.json], for a post.  Saving a paper or a post writes the record
    to the file that this name opens, and raises [OSError] when it cannot
    be opened.  Two papers with the same [paper_id] and two documentation
    pages with the same URL are saved to the same file, and so are two
    posts with the same URL when their titles agree or the path of the URL
    does not flatten to the empty file name: when the first save succeeds
    the second one succeeds too, replaces what the first one wrote, and
    changes no other file. *)
Theorem C8_same_identity_same_file `{U : UrlLib} `{F : FileSys} (output_dir : string)
        (a b : Arxiv.ArxivPaper) (fa : gmap string Arxiv.ArxivPaper)
        (d e : Docs.DocPage) (fd : gmap string Docs.DocPage)
        (p q : Blog.BlogPost) (fp : gmap string Blog.BlogPost) :
  Arxiv.paper_id a = Arxiv.paper_id b →
  Docs.url d = Docs.url e →
  Blog.url p = Blog.url q →
  (Blog.title p = Blog.title q
   ∨ ∃ path, url_path (Blog.url p) = Some path ∧ flatten_path path ≠ "") →
  Arxiv.save_metadata output_dir fa a
  = match opens output_dir (Arxiv.paper_id a +:+ ".json") with
    | Some file => Ok (file, <[ file := a ]> fa)
    | None => Raise OSError
    end
  ∧ (∀ path, url_path (Docs.url d) = Some path →
       let flat := PyStr.replace "/" "_" (PyStr.strip_char "/" path) in
       let name := if String.eqb flat "" then "index" else flat in
       Docs.save_page output_dir fd d
       = Ok (path_join output_dir (name +:+ ".json"),
             <[ path_join output_dir (name +:+ ".json") := d ]> fd))
  ∧ (∀ path, url_path (Blog.url p) = Some path →
       let flat := PyStr.replace "/" "_" (PyStr.strip_char "/" path) in
       let slug := PyStr.slice_to 50 (PyStr.replace " " "_" (PyStr.lower (Blog.title p))) in
       let name := if String.eqb flat "" then slug else flat in
       Blog.save_post output_dir fp p
       = match opens output_dir (name +:+ ".json") with
         | Some file => Ok (file, <[ file := p ]> fp)
         | None => Raise OSError
         end)
  ∧ (∀ file files, Arxiv.save_metadata output_dir fa a = Ok (file, files) →
                   Arxiv.save_metadata output_dir files b = Ok (file, <[ file := b ]> fa))
  ∧ (∀ path files, Docs.save_page output_dir fd d = Ok (path, files) →
                   Docs.save_page output_dir files e = Ok (path, <[ path := e ]> fd))
  ∧ (∀ file files, Blog.save_post output_dir fp p = Ok (file, files) →
                   Blog.save_post output_dir files q = Ok (file, <[ file := q ]> fp)).
Proof.
  intros Hid Hurl Hpost Hname. repeat split.
  - unfold Arxiv.save_metadata, Arxiv.metadata_path, Arxiv.metadata_name.
    by destruct (opens output_dir (Arxiv.paper_id a +:+ ".json")).
  - intros path Hpath. cbv zeta.
    unfold Docs.save_page, Docs.page_filename, flatten_path. rewrite Hpath. cbn.
    by destruct (PyStr.replace "/" "_" (PyStr.strip_char "/" path)).
  - intros path Hpath. cbv zeta.
    unfold Blog.save_post, Blog.post_filename, flatten_path, title_slug. rewrite Hpath. cbn.
    destruct (PyStr.replace "/" "_" (PyStr.strip_char "/" path)); cbn;
      by destruct (opens output_dir _).
  - intros file files. by apply save_metadata_again.
  - intros path files. by apply save_page_again.
  - intros file files. apply save_post_again. by apply post_filename_same.
Qed.

Lemma C8_same_identity_same_file_witness :
  let a := paper_with_id "2502.20692v1" in
  let b := Feeds.good_paper in
  let d := Pages.welcome in
  let e := {| Docs.url := "https://docs.monad.xyz/"; Docs.title := "Monad";
              Docs.content := "Updated."; Docs.section := "General";
              Docs.subsection := None; Docs.breadcrumbs := [] |} in
  let p := post_titled "https://blog.categorylabs.xyz/2025/monadbft" "MonadBFT" in
  let q := post_titled "https://blog.categorylabs.xyz/2025/monadbft" "MonadBFT, revised" in
  Arxiv.paper_id a = Arxiv.paper_id b
  ∧ Docs.url d = Docs.url e
  ∧ Blog.url p = Blog.url q
  ∧ (Blog.title p = Blog.title q
     ∨ ∃ path, url_path (UrlLib := SimpleUrl.lib) (Blog.url p) = Some path
               ∧ flatten_path path ≠ "")
  ∧ Arxiv.save_metadata (F := SimpleFiles.fs) "data/papers"
      {[ "data/papers/2502.20692v1.json" := a ]} b
    = Ok ("data/papers/2502.20692v1.json", <[ "data/papers/2502.20692v1.json" := b ]> ∅)
  ∧ Docs.save_page (U := SimpleUrl.lib) "data/docs" {[ "data/docs/index.json" := d ]} e
    = Ok ("data/docs/index.json", <[ "data/docs/index.json" := e ]> ∅)
  ∧ Blog.save_post (U := SimpleUrl.lib) (F := SimpleFiles.fs) "data/blog_posts"
      {[ "data/blog_posts/2025_monadbft.json" := p ]} q
    = Ok ("data/blog_posts/2025_monadbft.json", <[ "data/blog_posts/2025_monadbft.json" := q ]> ∅).
Proof.
  cbv zeta.
  set (e := {| Docs.url := "https://docs.monad.xyz/"; Docs.title := "Monad";
               Docs.content := "Updated."; Docs.section := "General";
               Docs.subsection := None; Docs.breadcrumbs := [] |}).
  set (p := post_titled "https://blog.categorylabs.xyz/2025/monadbft" "MonadBFT").
  set (q := post_titled "https://blog.categorylabs.xyz/2025/monadbft" "MonadBFT, revised").
  assert (H1 : Arxiv.paper_id (paper_with_id "2502.20692v1") = Arxiv.paper_id Feeds.good_paper)
    by reflexivity.
  assert (H2 : Docs.url Pages.welcome = Docs.url e) by reflexivity.
  assert (H3 : Blog.url p = Blog.url q) by reflexivity.
  assert (H4 : Blog.title p = Blog.title q
               ∨ ∃ path, url_path (UrlLib := SimpleUrl.lib) (Blog.url p) = Some path
                         ∧ flatten_path path ≠ "").
  { right. exists "/2025/monadbft". split; [vm_compute; reflexivity|].
    vm_compute. discriminate. }
  destruct (C8_same_identity_same_file (U := SimpleUrl.lib) (F := SimpleFiles.fs) "data/papers"
              (paper_with_id "2502.20692v1") Feeds.good_paper ∅
              Pages.welcome e ∅ p q ∅ H1 H2 H3 H4) as (_ & _ & _ & Ha & _ & _).
  destruct (C8_same_identity_same_file (U := SimpleUrl.lib) (F := SimpleFiles.fs) "data/docs"
              (paper_with_id "2502.20692v1") Feeds.good_paper ∅
              Pages.welcome e ∅ p q ∅ H1 H2 H3 H4) as (_ & _ & _ & _ & Hd & _).
  destruct (C8_same_identity_same_file (U := SimpleUrl.lib) (F := SimpleFiles.fs)
              "data/blog_posts"
              (paper_with_id "2502.20692v1") Feeds.good_paper ∅
              Pages.welcome e ∅ p q ∅ H1 H2 H3 H4) as (_ & _ & _ & _ & _ & Hp).
  split; [exact H1|]. split; [exact H2|]. split; [exact H3|]. split; [exact H4|].
  split; [|split].
  - apply (Ha "data/papers/2502.20692v1.json"). vm_compute. reflexivity.
  - apply (Hd "data/docs/index.json"). vm_compute. reflexivity.
  - apply (Hp "data/blog_posts/2025_monadbft.json"). vm_compute. reflexivity.
Defined.

(** C10, as the claim states it, fails in its second part: the two posts
    of the page have a title and no link, and get the URL of the blog; they
    are saved to two files, and the first file still holds the first post. *)
Lemma C10_counterexample :
  Blog.scrape_category_labs (U := SimpleUrl.lib) (static Pages.blog) = [Pages.alpha; Pages.beta]
  ∧ Blog.url Pages.alpha = Blog.SOURCES "category_labs"
  ∧ Blog.url Pages.beta = Blog.SOURCES "category_labs"
  ∧ ∃ files,
      Blog.save_each (U := SimpleUrl.lib) (F := SimpleFiles.fs)
        "data/blog_posts" ∅ [Pages.alpha; Pages.beta]
      = Ok files
      ∧ files !! "data/blog_posts/alpha.json" = Some Pages.alpha
      ∧ files !! "data/blog_posts/beta.json" = Some Pages.beta.
Proof.
  split; [vm_compute; reflexivity|]. split; [reflexivity|]. split; [reflexivity|].
  eexists. split; [vm_compute; reflexivity|].
  split; vm_compute; reflexivity.
Qed.

(** C10, amended: two containers with a title element and without a
    hyperlink element give two posts whose URL is the base URL of the
    blog.  As the path of that URL is empty, [save_post] names the file of
    each post by the slug of its title: it writes the post to the file
    that this name opens, and raises [OSError] when it cannot be opened,
    as for a slug with a [/] that leads into a directory that is not
    there.  When the slugs are equal the two posts go to the same file,
    and the one saved later replaces the other.  When both saves succeed,
    the slugs hold no [/] and the file system keeps the plain names of a
    directory apart, the posts go to the same file exactly when the slugs
    are equal. *)
Theorem C10_linkless_posts `{U : UrlLib} `{F : FileSys} (net : nat -> string -> http Bs4.node)
        (output_dir : string) (files1 files2 : gmap string Blog.BlogPost)
        (n1 n2 : nat) (article1 article2 : Bs4.node) :
  has_title article1 → has_no_link article1 →
  has_title article2 → has_no_link article2 →
  url_path (Blog.SOURCES "category_labs") = Some "" →
  ∃ post1 post2,
    Blog.scrape_article net (Blog.SOURCES "category_labs") n1 article1 = (Some post1, S n1)
    ∧ Blog.scrape_article net (Blog.SOURCES "category_labs") n2 article2 = (Some post2, S n2)
    ∧ Blog.url post1 = Blog.SOURCES "category_labs"
    ∧ Blog.url post2 = Blog.SOURCES "category_labs"
    ∧ Blog.save_post output_dir files1 post1
      = match opens output_dir (title_slug (Blog.title post1) +:+ ".json") with
        | Some file => Ok (file, <[ file := post1 ]> files1)
        | None => Raise OSError
        end
    ∧ Blog.save_post output_dir files2 post2
      = match opens output_dir (title_slug (Blog.title post2) +:+ ".json") with
        | Some file => Ok (file, <[ file := post2 ]> files2)
        | None => Raise OSError
        end
    ∧ (title_slug (Blog.title post1) = title_slug (Blog.title post2) →
       ∀ file files, Blog.save_post output_dir files1 post1 = Ok (file, files) →
                     Blog.save_post output_dir files post2
                     = Ok (file, <[ file := post2 ]> files1))
    ∧ (separates F →
       plain (title_slug (Blog.title post1)) → plain (title_slug (Blog.title post2)) →
       ∀ file1 file2,
         fst <$> Blog.save_post output_dir files1 post1 = Ok file1 →
         fst <$> Blog.save_post output_dir files2 post2 = Ok file2 →
         (file1 = file2 ↔ title_slug (Blog.title post1) = title_slug (Blog.title post2))).
Proof.
  intros Ht1 Hl1 Ht2 Hl2 Hroot.
  destruct (scrape_article_linkless net (Blog.SOURCES "category_labs") n1 article1 Ht1 Hl1)
    as (post1 & Hs1 & Hu1).
  destruct (scrape_article_linkless net (Blog.SOURCES "category_labs") n2 article2 Ht2 Hl2)
    as (post2 & Hs2 & Hu2).
  exists post1, post2.
  assert (Hroot1 : url_path (Blog.url post1) = Some "") by (by rewrite Hu1).
  assert (Hroot2 : url_path (Blog.url post2) = Some "") by (by rewrite Hu2).
  assert (Hp : ∀ files post, url_path (Blog.url post) = Some "" →
                             Blog.save_post output_dir files post = _)
    by (intros files post; apply save_post_at_root).
  rewrite !Hp by assumption.
  repeat (split; [assumption || reflexivity|]).
  split.
  - intros Heq file files. rewrite (Hp files post2 Hroot2), <- Heq.
    destruct (opens output_dir (title_slug (Blog.title post1) +:+ ".json")) as [f|];
      [|discriminate].
    intros [= <- <-]. by rewrite insert_insert_eq.
  - intros Hsep Hplain1 Hplain2 file1 file2.
    destruct (opens output_dir (title_slug (Blog.title post1) +:+ ".json")) as [f1|] eqn:Ho1;
      [|discriminate].
    destruct (opens output_dir (title_slug (Blog.title post2) +:+ ".json")) as [f2|] eqn:Ho2;
      [|discriminate].
    cbn. intros [= <-] [= <-]. split.
    + intros <-. apply (append_inj_r ".json").
      apply (Hsep output_dir _ _ f1); [by apply plain_append..|exact Ho1|exact Ho2].
    + intros Heq. rewrite Heq in Ho1. congruence.
Qed.

Lemma C10_linkless_posts_witness :
  let article1 := Bs4.Tag "article" [("class", Bs4.AList ["post"])]
                    [Bs4.Tag "h2" [] [Bs4.NavigableString "Alpha"]] in
  let article2 := Bs4.Tag "article" [("class", Bs4.AList ["post"])]
                    [Bs4.Tag "h1" [] [Bs4.NavigableString "Beta"]] in
  has_title article1 ∧ has_no_link article1
  ∧ has_title article2 ∧ has_no_link article2
  ∧ url_path (UrlLib := SimpleUrl.lib) (Blog.SOURCES "category_labs") = Some ""
  ∧ ∃ post1 post2,
      Blog.scrape_article (U := SimpleUrl.lib) (static Pages.blog)
        (Blog.SOURCES "category_labs") 1 article1 = (Some post1, 2)
      ∧ Blog.scrape_article (U := SimpleUrl.lib) (static Pages.blog)
          (Blog.SOURCES "category_labs") 2 article2 = (Some post2, 3)
      ∧ Blog.url post1 = Blog.SOURCES "category_labs"
      ∧ Blog.url post2 = Blog.SOURCES "category_labs"
      ∧ fst <$> Blog.save_post (U := SimpleUrl.lib) (F := SimpleFiles.fs)
                  "data/blog_posts" ∅ post1
        = Ok "data/blog_posts/alpha.json"
      ∧ fst <$> Blog.save_post (U := SimpleUrl.lib) (F := SimpleFiles.fs)
                  "data/blog_posts" ∅ post2
        = Ok "data/blog_posts/beta.json"
      ∧ ("data/blog_posts/alpha.json" = "data/blog_posts/beta.json"
         ↔ title_slug (Blog.title post1) = title_slug (Blog.title post2)).
Proof.
  cbv zeta.
  set (article1 := Bs4.Tag "article" [("class", Bs4.AList ["post"])]
                     [Bs4.Tag "h2" [] [Bs4.NavigableString "Alpha"]]).
  set (article2 := Bs4.Tag "article" [("class", Bs4.AList ["post"])]
                     [Bs4.Tag "h1" [] [Bs4.NavigableString "Beta"]]).
  assert (Ht1 : has_title article1) by (eexists; vm_compute; reflexivity).
  assert (Hl1 : has_no_link article1) by (vm_compute; reflexivity).
  assert (Ht2 : has_title article2) by (eexists; vm_compute; reflexivity).
  assert (Hl2 : has_no_link article2) by (vm_compute; reflexivity).
  assert (Hroot : url_path (UrlLib := SimpleUrl.lib) (Blog.SOURCES "category_labs") = Some "")
    by (vm_compute; reflexivity).
  split; [exact Ht1|]. split; [exact Hl1|]. split; [exact Ht2|]. split; [exact Hl2|].
  split; [exact Hroot|].
  destruct (C10_linkless_posts (U := SimpleUrl.lib) (F := SimpleFiles.fs)
              (static Pages.blog) "data/blog_posts" ∅ ∅
              1 2 article1 article2 Ht1 Hl1 Ht2 Hl2 Hroot)
    as (post1 & post2 & Hs1 & Hs2 & Hu1 & Hu2 & _ & _ & _ & Hfiles).
  exists post1, post2.
  pose proof Hs1 as He1. vm_compute in He1. injection He1 as He1.
  pose proof Hs2 as He2. vm_compute in He2. injection He2 as He2.
  assert (Hsave1 : fst <$> Blog.save_post (U := SimpleUrl.lib) (F := SimpleFiles.fs)
                             "data/blog_posts" ∅ post1
                   = Ok "data/blog_posts/alpha.json")
    by (rewrite <- He1; vm_compute; reflexivity).
  assert (Hsave2 : fst <$> Blog.save_post (U := SimpleUrl.lib) (F := SimpleFiles.fs)
                             "data/blog_posts" ∅ post2
                   = Ok "data/blog_posts/beta.json")
    by (rewrite <- He2; vm_compute; reflexivity).
  split; [exact Hs1|]. split; [exact Hs2|]. split; [exact Hu1|]. split; [exact Hu2|].
  split; [exact Hsave1|]. split; [exact Hsave2|].
  apply Hfiles; [exact simple_files_separates| | |exact Hsave1|exact Hsave2].
  - rewrite <- He1. vm_compute. reflexivity.
  - rewrite <- He2. vm_compute. reflexivity.
Defined.


(** * Further properties of the string methods *)

Section Strings.

Lemma replace_one_char (a b : ascii) (s : string) :
  PyStr.replace (String a EmptyString) (String b EmptyString) s = map_chars (swap_char a b) s.
Proof.
  unfold PyStr.replace. induction s as [|c s IH]; [reflexivity|].
  cbn [PyStr.replace_go map_chars String.prefix String.length Nat.sub].
  unfold swap_char at 1.
  destruct (Ascii.ascii_dec a c) as [->|Hne].
  - rewrite Ascii.eqb_refl. destruct s; cbn [String.prefix]; rewrite IH; reflexivity.
  - rewrite (proj2 (Ascii.eqb_neq c a)) by congruence. by rewrite IH.
Qed.

Lemma contains_map_swap (a b : ascii) (s : string) :
  a ≠ b → PyStr.contains (String a EmptyString) (map_chars (swap_char a b) s) = false.
Proof.
  intros Hab. induction s as [|c s IH]; [reflexivity|].
  cbn [map_chars PyStr.contains String.prefix]. rewrite IH, orb_false_r.
  unfold swap_char. destruct (Ascii.eqb_spec c a) as [->|Hca].
  - destruct (Ascii.ascii_dec a b); [contradiction|reflexivity].
  - destruct (Ascii.ascii_dec a c); [congruence|reflexivity].
Qed.

(** [replace] of one character by another leaves no occurrence of the first. *)
Lemma replace_one_char_gone (a b : ascii) (s : string) :
  a ≠ b →
  PyStr.contains (String a EmptyString)
                 (PyStr.replace (String a EmptyString) (String b EmptyString) s) = false.
Proof. intros Hab. rewrite replace_one_char. by apply contains_map_swap. Qed.

Variable p : ascii -> bool.

Lemma lstrip_by_fixed (s : string) :
  match s with String c _ => p c = false | EmptyString => True end →
  PyStr.lstrip_by p s = s.
Proof. destruct s as [|c s]; [reflexivity|]. cbn. by intros ->. Qed.

Lemma lstrip_by_head (s : string) :
  match PyStr.lstrip_by p s with String c _ => p c = false | EmptyString => True end.
Proof.
  induction s as [|c s IH]; [exact I|]. cbn.
  destruct (p c) eqn:Hc; [exact IH|exact Hc].
Qed.

Lemma rstrip_by_head (s : string) :
  match s with String c _ => p c = false | EmptyString => True end →
  match PyStr.rstrip_by p s with String c _ => p c = false | EmptyString => True end.
Proof.
  destruct s as [|c s]; [intros _; exact I|]. cbn. intros Hc.
  destruct (PyStr.rstrip_by p s); [rewrite Hc|]; exact Hc.
Qed.

Lemma rstrip_by_cons (c : ascii) (s : string) :
  PyStr.rstrip_by p (String c s)
  = match PyStr.rstrip_by p s with
    | EmptyString => if p c then EmptyString else String c EmptyString
    | r => String c r
    end.
Proof. reflexivity. Qed.

Lemma rstrip_by_idem (s : string) :
  PyStr.rstrip_by p (PyStr.rstrip_by p s) = PyStr.rstrip_by p s.
Proof.
  induction s as [|c s IH]; [reflexivity|]. rewrite rstrip_by_cons.
  destruct (PyStr.rstrip_by p s) as [|d r] eqn:Hr.
  - destruct (p c) eqn:Hc; [reflexivity|]. cbn. by rewrite Hc.
  - rewrite rstrip_by_cons, IH. reflexivity.
Qed.

Lemma strip_by_idem (s : string) :
  PyStr.rstrip_by p (PyStr.lstrip_by p (PyStr.rstrip_by p (PyStr.lstrip_by p s)))
  = PyStr.rstrip_by p (PyStr.lstrip_by p s).
Proof.
  rewrite (lstrip_by_fixed (PyStr.rstrip_by p (PyStr.lstrip_by p s))).
  - apply rstrip_by_idem.
  - apply rstrip_by_head, lstrip_by_head.
Qed.

Variable f : ascii -> ascii.
Hypothesis f_keeps : ∀ c, p (f c) = p c.

Lemma lstrip_by_map (s : string) :
  PyStr.lstrip_by p (map_chars f s) = map_chars f (PyStr.lstrip_by p s).
Proof.
  induction s as [|c s IH]; [reflexivity|]. cbn. rewrite f_keeps.
  destruct (p c); [exact IH|reflexivity].
Qed.

Lemma rstrip_by_map (s : string) :
  PyStr.rstrip_by p (map_chars f s) = map_chars f (PyStr.rstrip_by p s).
Proof.
  induction s as [|c s IH]; [reflexivity|]. cbn. rewrite IH, f_keeps.
  destruct (PyStr.rstrip_by p s); cbn; [destruct (p c)|]; reflexivity.
Qed.

End Strings.

Lemma strip_trimmed (s : string) : trimmed (PyStr.strip s).
Proof. unfold trimmed, PyStr.strip. apply strip_by_idem. Qed.

Lemma line_break_is_space (c : ascii) :
  PyStr.is_space (swap_char "010" " " c) = PyStr.is_space c.
Proof.
  unfold swap_char. destruct (Ascii.eqb_spec c "010") as [->|_]; reflexivity.
Qed.

(** A trimmed string stays trimmed when its line breaks become blanks. *)
Lemma trimmed_without_line_breaks (s : string) :
  trimmed s → trimmed (PyStr.replace "
" " " s).
Proof.
  unfold trimmed, PyStr.strip. intros Hs.
  change "
" with (String "010" EmptyString). change " " with (String " " EmptyString).
  rewrite replace_one_char.
  rewrite (lstrip_by_map _ _ line_break_is_space), (rstrip_by_map _ _ line_break_is_space).
  by rewrite Hs.
Qed.

(** * Further properties of the arXiv scraper *)

Section Papers.

Import Arxiv.

Lemma mapM_Ok {A B} (f : A -> result B) (l : list A) (l' : list B) :
  mapM f l = Ok l' → Forall2 (fun x y => f x = Ok y) l l'.
Proof.
  revert l'. induction l as [|a l IH]; intros l'.
  - intros [= <-]. constructor.
  - rewrite mapM_result_cons. destruct (f a) as [b|] eqn:Hfa; [|discriminate].
    destruct (mapM f l) as [k|]; [|discriminate].
    intros [= <-]. constructor; [exact Hfa|by apply IH].
Qed.

(** What [read_entry] makes of the title and the summary. *)
Lemma read_entry_shape (entry : ET.xml) (fields : entry_fields) :
  read_entry entry = Ok fields →
  PyStr.contains "
" (f_title fields) = false
  ∧ trimmed (f_title fields) ∧ trimmed (f_abstract fields).
Proof.
  unfold read_entry, find_text, attr_of.
  destruct (ET.find (atom "id") entry) as [e1|]; cbn; [|discriminate].
  destruct (ET.text_of e1); cbn; [|discriminate].
  destruct (ET.find (atom "title") entry) as [e2|]; cbn; [|discriminate].
  destruct (ET.text_of e2) as [t|]; cbn; [|discriminate].
  destruct (ET.find (atom "summary") entry) as [e3|]; cbn; [|discriminate].
  destruct (ET.text_of e3) as [a|]; cbn; [|discriminate].
  destruct (ET.find (atom "published") entry) as [e4|]; cbn; [|discriminate].
  destruct (ET.find (atom "updated") entry) as [e5|]; cbn; [|discriminate].
  destruct (mapM _ (ET.findall (atom "author") entry)) as [names|]; cbn; [|discriminate].
  intros [= <-]. cbn. split; [|split].
  - apply (replace_one_char_gone "010" " "). discriminate.
  - apply trimmed_without_line_breaks, strip_trimmed.
  - apply strip_trimmed.
Qed.

Lemma search_entry_well_formed (entry : ET.xml) (paper : ArxivPaper) :
  search_entry entry = Ok paper →
  well_formed_paper paper ∧ doi paper = None ∧ journal_ref paper = None.
Proof.
  unfold search_entry. destruct (read_entry entry) as [fields|] eqn:Hread; [|discriminate].
  cbn. intros [= <-]. destruct (read_entry_shape entry fields Hread) as (H1 & H2 & H3).
  repeat split; assumption.
Qed.

End Papers.

(** X1: a paper that [_parse_response] returns carries the PDF and
    abstract URLs built from its identity, a title without line break and
    without white space around it, and an abstract without white space
    around it. *)
Theorem X1_parsed_paper_well_formed (xml_response : ET.document) (paper : Arxiv.ArxivPaper) :
  Arxiv._parse_response xml_response = Ok (Some paper) → well_formed_paper paper.
Proof.
  unfold Arxiv._parse_response. destruct xml_response as [|root]; cbn; [discriminate|].
  destruct (ET.find (Arxiv.atom "entry") root) as [entry|]; cbn; [|discriminate].
  destruct (Arxiv.read_entry entry) as [fields|e] eqn:Hread; cbn.
  - intros [= <-]. destruct (read_entry_shape entry fields Hread) as (H1 & H2 & H3).
    repeat split; assumption.
  - destruct e; discriminate.
Qed.

Lemma X1_parsed_paper_well_formed_witness :
  Arxiv._parse_response (ET.WellFormed (Feeds.feed [Feeds.good_entry])) = Ok (Some Feeds.good_paper)
  ∧ well_formed_paper Feeds.good_paper.
Proof.
  assert (H : Arxiv._parse_response (ET.WellFormed (Feeds.feed [Feeds.good_entry]))
              = Ok (Some Feeds.good_paper)) by (vm_compute; reflexivity).
  split; [exact H|]. exact (X1_parsed_paper_well_formed _ _ H).
Defined.

(** X2: a search whose request is answered by a well-formed feed returns
    nothing at all, or one paper for each entry of the feed, in the order of
    the feed; each paper is well formed and has neither DOI nor journal
    reference. *)
Theorem X2_search_all_or_nothing (api : Arxiv.params -> http ET.document)
        (query : string) (max_results : nat) (root : ET.xml) :
  api (Arxiv.BySearch query max_results) = Response (ET.WellFormed root) →
  (Arxiv.search_papers api query max_results = []
   ∨ Forall2 (fun entry paper => Arxiv.search_entry entry = Ok paper)
             (ET.findall (Arxiv.atom "entry") root)
             (Arxiv.search_papers api query max_results))
  ∧ (∀ paper, paper ∈ Arxiv.search_papers api query max_results →
              well_formed_paper paper
              ∧ Arxiv.doi paper = None ∧ Arxiv.journal_ref paper = None).
Proof.
  intros Hapi. unfold Arxiv.search_papers. rewrite Hapi.
  unfold Arxiv.parse_search; cbn.
  destruct (mapM Arxiv.search_entry (ET.findall (Arxiv.atom "entry") root)) as [papers|e] eqn:Hm;
    cbn.
  - apply mapM_Ok in Hm. split; [right; exact Hm|].
    intros paper Hin. apply list_elem_of_lookup in Hin. destruct Hin as [i Hi].
    destruct (Forall2_lookup_r _ _ _ _ _ Hm Hi) as (entry & _ & Hentry).
    by apply (search_entry_well_formed entry).
  - split; [by left|]. intros paper Hin. by apply elem_of_nil in Hin.
Qed.

Lemma X2_search_all_or_nothing_witness :
  let api := Feeds.serves (Feeds.feed [Feeds.good_entry]) in
  api (Arxiv.BySearch "consensus" 10) = Response (ET.WellFormed (Feeds.feed [Feeds.good_entry]))
  ∧ Arxiv.search_papers api "consensus" 10 = [Feeds.good_paper]
  ∧ (∀ paper, paper ∈ Arxiv.search_papers api "consensus" 10 →
              well_formed_paper paper
              ∧ Arxiv.doi paper = None ∧ Arxiv.journal_ref paper = None).
Proof.
  cbv zeta. split; [reflexivity|]. split; [vm_compute; reflexivity|].
  apply (X2_search_all_or_nothing (Feeds.serves (Feeds.feed [Feeds.good_entry]))
           "consensus" 10 (Feeds.feed [Feeds.good_entry])).
  reflexivity.
Defined.

Section PaperIds.

Lemma replace_go_skip (old new t s : string) :
  PyStr.replace_go old new (String.length t) (t +:+ s) = PyStr.replace_go old new 0 s.
Proof. induction t as [|c t IH]; [reflexivity|]. exact IH. Qed.

(** [replace] removes an occurrence at the front and goes on behind it. *)
Lemma replace_front (c : ascii) (old new s : string) :
  PyStr.replace (String c old) new (String c old +:+ s) = new +:+ PyStr.replace (String c old) new s.
Proof.
  unfold PyStr.replace. change (String c old +:+ s) with (String c (old +:+ s)).
  assert (Hp : String.prefix (String c old) (String c (old +:+ s)) = true)
    by (apply prefix_occurs; by exists s).
  change (PyStr.replace_go (String c old) new 0 (String c (old +:+ s)))
    with (if String.prefix (String c old) (String c (old +:+ s))
          then new +:+ PyStr.replace_go (String c old) new
                         (String.length (String c old) - 1) (old +:+ s)
          else String c (PyStr.replace_go (String c old) new 0 (old +:+ s))).
  rewrite Hp. cbn [String.length Nat.sub]. rewrite Nat.sub_0_r. by rewrite replace_go_skip.
Qed.

Lemma first_occurrences_fixed (l : list Arxiv.ArxivPaper) (seen : gset string) :
  NoDup (paper_ids l) → (∀ i, i ∈ paper_ids l → i ∉ seen) →
  first_occurrences seen l = l.
Proof.
  revert seen. induction l as [|p l IH]; intros seen Hnd Hfresh; [reflexivity|].
  cbn. unfold paper_ids in *. cbn in Hnd. apply NoDup_cons in Hnd. destruct Hnd as [Hp Hnd].
  destruct (decide (Arxiv.paper_id p ∉ seen)) as [_|Hin].
  - f_equal. apply IH; [exact Hnd|]. intros i Hi.
    rewrite not_elem_of_union, not_elem_of_singleton. split.
    + intros ->. contradiction.
    + apply Hfresh. cbn. apply elem_of_cons. by right.
  - exfalso. apply Hin, Hfresh. cbn. apply elem_of_cons. by left.
Qed.

End PaperIds.

(** X3: [fetch_paper] takes an identity with the prefix [arxiv:] or
    [arXiv:] for the identity itself. *)
Theorem X3_fetch_paper_drops_prefix (api : Arxiv.params -> http ET.document) (id : string) :
  Arxiv.fetch_paper api ("arxiv:" +:+ id) = Arxiv.fetch_paper api id
  ∧ Arxiv.fetch_paper api ("arXiv:" +:+ id) = Arxiv.fetch_paper api id.
Proof.
  unfold Arxiv.fetch_paper. split.
  - by rewrite (replace_front "a" "rxiv:" "" id).
  - replace (PyStr.replace "arxiv:" "" ("arXiv:" +:+ id))
      with ("arXiv:" +:+ PyStr.replace "arxiv:" "" id) by reflexivity.
    by rewrite (replace_front "a" "rXiv:" "" (PyStr.replace "arxiv:" "" id)).
Qed.

(** X4: removing duplicates changes nothing in a list of papers with
    distinct identities; so removing them twice is removing them once. *)
Theorem X4_remove_duplicates_idempotent (all_papers : list Arxiv.ArxivPaper) :
  (NoDup (paper_ids all_papers) → Arxiv.remove_duplicates all_papers = all_papers)
  ∧ Arxiv.remove_duplicates (Arxiv.remove_duplicates all_papers)
    = Arxiv.remove_duplicates all_papers.
Proof.
  assert (Hfixed : ∀ l, NoDup (paper_ids l) → Arxiv.remove_duplicates l = l).
  { intros l Hnd. rewrite remove_duplicates_first_occurrences.
    apply first_occurrences_fixed; [exact Hnd|]. intros i _. apply not_elem_of_empty. }
  split; [apply Hfixed|].
  apply Hfixed. rewrite remove_duplicates_first_occurrences. apply first_occurrences_NoDup.
Qed.

(** * Files of the arXiv scraper *)

Section PaperFiles.

Lemma json_is_not_pdf (x y : string) : x +:+ ".json" ≠ y +:+ ".pdf".
Proof.
  revert y. induction x as [|c x IH]; intros [|d y] H; cbn in H.
  - discriminate.
  - injection H as _ H. destruct y as [|e y]; [discriminate|].
    apply (f_equal String.length) in H. cbn in H. rewrite length_append in H. cbn in H. lia.
  - injection H as _ H. apply (f_equal String.length) in H.
    rewrite length_append in H. cbn in H. lia.
  - injection H as _ H. by apply IH in H.
Qed.

Context {F : FileSys}.

Lemma metadata_name_plain (a : Arxiv.ArxivPaper) :
  plain (Arxiv.paper_id a) → plain (Arxiv.metadata_name a).
Proof. intros H. apply plain_append; [exact H|reflexivity]. Qed.

Lemma pdf_name_plain (a : Arxiv.ArxivPaper) :
  plain (Arxiv.paper_id a) → plain (ArxivMain.pdf_name a).
Proof. intros H. apply plain_append; [exact H|reflexivity]. Qed.

(** On a file system that keeps plain names apart, a metadata file is
    not a PDF file, and it belongs to one identity. *)
Lemma metadata_file_is_not_pdf_file (dir file : string) (a b : Arxiv.ArxivPaper) :
  separates F → plain (Arxiv.paper_id a) → plain (Arxiv.paper_id b) →
  Arxiv.metadata_path dir a = Some file → ArxivMain.pdf_path dir b ≠ Some file.
Proof.
  intros Hsep Ha Hb Hm Hp.
  apply (json_is_not_pdf (Arxiv.paper_id a) (Arxiv.paper_id b)).
  apply (Hsep dir _ _ file); [by apply metadata_name_plain|by apply pdf_name_plain|done..].
Qed.

Lemma metadata_file_inj (dir file : string) (a b : Arxiv.ArxivPaper) :
  separates F → plain (Arxiv.paper_id a) → plain (Arxiv.paper_id b) →
  Arxiv.metadata_path dir a = Some file → Arxiv.metadata_path dir b = Some file →
  Arxiv.paper_id a = Arxiv.paper_id b.
Proof.
  intros Hsep Ha Hb Hma Hmb. apply (append_inj_r ".json").
  apply (Hsep dir _ _ file); [by apply metadata_name_plain..|done|done].
Qed.

Lemma main_save_metadata (dir : string) (files : gmap string ArxivMain.file)
      (paper : Arxiv.ArxivPaper) :
  ArxivMain.save_metadata dir files paper
  = match Arxiv.metadata_path dir paper with
    | Some file => Ok (file, <[ file := ArxivMain.MetadataFile paper ]> files)
    | None => Raise OSError
    end.
Proof.
  unfold ArxivMain.save_metadata. by destruct (Arxiv.metadata_path dir paper).
Qed.

Lemma main_download_pdf (pdfs : string -> http string) (dir : string)
      (files : gmap string ArxivMain.file) (paper : Arxiv.ArxivPaper) :
  ArxivMain.download_pdf pdfs dir files paper
  = match pdfs (Arxiv.pdf_url paper), ArxivMain.pdf_path dir paper with
    | Response content, Some file =>
        Ok (Some file, <[ file := ArxivMain.PdfFile content ]> files)
    | Response _, None => Raise OSError
    | Failed, _ => Ok (None, files)
    end.
Proof.
  unfold ArxivMain.download_pdf.
  destruct (pdfs (Arxiv.pdf_url paper)); [|reflexivity].
  by destruct (ArxivMain.pdf_path dir paper).
Qed.

Lemma save_found_only_metadata (dir : string) (papers : list Arxiv.ArxivPaper)
      (files files' : gmap string ArxivMain.file) :
  ArxivMain.save_found dir files papers = ArxivMain.Finished files' →
  only_metadata_added dir papers files files'.
Proof.
  revert files. induction papers as [|p papers IH]; intros files; cbn [ArxivMain.save_found].
  - intros [= <-] path. by left.
  - destruct (ArxivMain.joinable _); [|discriminate].
    rewrite main_save_metadata.
    destruct (Arxiv.metadata_path dir p) as [file|] eqn:Hfile; [|discriminate].
    cbn [snd].
    intros Hrest path. destruct (IH _ Hrest path) as [Hsame|(q & Hq & Hpath & Hq')].
    + destruct (decide (path = file)) as [->|Hne].
      * right. exists p. split; [apply elem_of_cons; by left|]. split; [exact Hfile|].
        by rewrite Hsame, lookup_insert_eq.
      * left. by rewrite Hsame, lookup_insert_ne.
    + right. exists q. split; [apply elem_of_cons; by right|]. by split.
Qed.

End PaperFiles.

(** X5: metadata and PDF files do not get in each other's way.  Take two
    papers with different identities that hold no [/], on a file system
    that keeps the plain names of a directory apart, and let the two
    metadata files open.  Then both saves succeed and each metadata file
    holds its paper.  After [download_pdf] for the first paper this is
    still so, and the PDF file holds what the server sent; when the PDF
    file does not open, [download_pdf] raises [OSError]; when the request
    fails, it returns [None] and no file changes. *)
Theorem X5_paper_files_do_not_collide `{F : FileSys} (pdfs : string -> http string)
        (dir : string) (a b : Arxiv.ArxivPaper) (files : gmap string ArxivMain.file)
        (ja jb : string) :
  separates F →
  plain (Arxiv.paper_id a) → plain (Arxiv.paper_id b) →
  Arxiv.paper_id a ≠ Arxiv.paper_id b →
  Arxiv.metadata_path dir a = Some ja →
  Arxiv.metadata_path dir b = Some jb →
  ∃ files1 files2,
    ArxivMain.save_metadata dir files a = Ok (ja, files1)
    ∧ ArxivMain.save_metadata dir files1 b = Ok (jb, files2)
    ∧ files2 !! ja = Some (ArxivMain.MetadataFile a)
    ∧ files2 !! jb = Some (ArxivMain.MetadataFile b)
    ∧ match pdfs (Arxiv.pdf_url a), ArxivMain.pdf_path dir a with
      | Response content, Some pa =>
          ∃ files3,
            ArxivMain.download_pdf pdfs dir files2 a = Ok (Some pa, files3)
            ∧ files3 !! ja = Some (ArxivMain.MetadataFile a)
            ∧ files3 !! jb = Some (ArxivMain.MetadataFile b)
            ∧ files3 !! pa = Some (ArxivMain.PdfFile content)
      | Response _, None => ArxivMain.download_pdf pdfs dir files2 a = Raise OSError
      | Failed, _ => ArxivMain.download_pdf pdfs dir files2 a = Ok (None, files2)
      end.
Proof.
  intros Hsep Ha Hb Hid Hja Hjb.
  assert (Hab : jb ≠ ja).
  { intros ->. apply Hid. by apply (metadata_file_inj dir ja). }
  exists (<[ ja := ArxivMain.MetadataFile a ]> files),
         (<[ jb := ArxivMain.MetadataFile b ]> (<[ ja := ArxivMain.MetadataFile a ]> files)).
  rewrite !main_save_metadata, Hja, Hjb, main_download_pdf.
  split; [reflexivity|]. split; [reflexivity|].
  split; [by rewrite lookup_insert_ne, lookup_insert_eq|].
  split; [by rewrite lookup_insert_eq|].
  destruct (pdfs (Arxiv.pdf_url a)) as [content|]; [|reflexivity].
  destruct (ArxivMain.pdf_path dir a) as [pa|] eqn:Hpa; [|reflexivity].
  assert (Hpa_a : pa ≠ ja)
    by (intros ->; by apply (metadata_file_is_not_pdf_file dir ja a a)).
  assert (Hpa_b : pa ≠ jb)
    by (intros ->; by apply (metadata_file_is_not_pdf_file dir jb b a)).
  eexists. split; [reflexivity|].
  rewrite !(lookup_insert_ne _ pa) by done.
  split; [by rewrite lookup_insert_ne, lookup_insert_eq|].
  split; [by rewrite lookup_insert_eq|]. by rewrite lookup_insert_eq.
Qed.

Lemma X5_paper_files_do_not_collide_witness :
  let pdfs := fun _ : string => Response "%PDF-1.5" in
  let a := Feeds.good_paper in
  let b := paper_with_id "2401.00001v1" in
  separates SimpleFiles.fs
  ∧ plain (Arxiv.paper_id a) ∧ plain (Arxiv.paper_id b)
  ∧ Arxiv.paper_id a ≠ Arxiv.paper_id b
  ∧ Arxiv.metadata_path (F := SimpleFiles.fs) "data/papers" a
    = Some "data/papers/2502.20692v1.json"
  ∧ Arxiv.metadata_path (F := SimpleFiles.fs) "data/papers" b
    = Some "data/papers/2401.00001v1.json"
  ∧ ∃ files2 files3,
      ArxivMain.download_pdf (F := SimpleFiles.fs) pdfs "data/papers" files2 a
      = Ok (Some "data/papers/2502.20692v1.pdf", files3)
      ∧ files3 !! "data/papers/2502.20692v1.json" = Some (ArxivMain.MetadataFile a)
      ∧ files3 !! "data/papers/2401.00001v1.json" = Some (ArxivMain.MetadataFile b)
      ∧ files3 !! "data/papers/2502.20692v1.pdf" = Some (ArxivMain.PdfFile "%PDF-1.5").
Proof.
  cbv zeta.
  assert (Ha : plain (Arxiv.paper_id Feeds.good_paper)) by (vm_compute; reflexivity).
  assert (Hb : plain (Arxiv.paper_id (paper_with_id "2401.00001v1")))
    by (vm_compute; reflexivity).
  assert (Hid : Arxiv.paper_id Feeds.good_paper ≠ Arxiv.paper_id (paper_with_id "2401.00001v1"))
    by discriminate.
  assert (Hja : Arxiv.metadata_path (F := SimpleFiles.fs) "data/papers" Feeds.good_paper
                = Some "data/papers/2502.20692v1.json") by (vm_compute; reflexivity).
  assert (Hjb : Arxiv.metadata_path (F := SimpleFiles.fs) "data/papers"
                  (paper_with_id "2401.00001v1")
                = Some "data/papers/2401.00001v1.json") by (vm_compute; reflexivity).
  assert (Hpa : ArxivMain.pdf_path (F := SimpleFiles.fs) "data/papers" Feeds.good_paper
                = Some "data/papers/2502.20692v1.pdf") by (vm_compute; reflexivity).
  split; [exact simple_files_separates|]. split; [exact Ha|]. split; [exact Hb|].
  split; [exact Hid|]. split; [exact Hja|]. split; [exact Hjb|].
  destruct (X5_paper_files_do_not_collide (F := SimpleFiles.fs)
              (fun _ => Response "%PDF-1.5") "data/papers"
              Feeds.good_paper (paper_with_id "2401.00001v1") ∅ _ _
              simple_files_separates Ha Hb Hid Hja Hjb)
    as (files1 & files2 & _ & _ & _ & _ & Hpdf).
  cbv beta in Hpdf. rewrite Hpa in Hpdf. destruct Hpdf as (files3 & Hpdf).
  exists files2, files3. exact Hpdf.
Defined.

(** X6: in its search mode [main] saves metadata and nothing else, also
    when [--download-pdf] is given: when it returns, every file that was
    not there before is the metadata of a paper of the search, stored
    under the path of that paper. *)
Theorem X6_search_mode_saves_only_metadata `{F : FileSys}
        (api : Arxiv.params -> http ET.document)
        (pdfs : string -> http string) (a : ArxivMain.args) (query : string)
        (files files' : gmap string ArxivMain.file) :
  ArxivMain.search_given a = Some query →
  ArxivMain.main api pdfs a files = ArxivMain.Finished files' →
  only_metadata_added (ArxivMain.output_dir a) (Arxiv.search_papers api query 10) files files'.
Proof.
  unfold ArxivMain.main. intros -> Hmain. by apply save_found_only_metadata.
Qed.

Lemma X6_search_mode_saves_only_metadata_witness :
  let api := Feeds.serves (Feeds.feed [Feeds.good_entry]) in
  let a := {| ArxivMain.paper_id := "2502.20692"; ArxivMain.download_pdf_flag := true;
              ArxivMain.search := Some "consensus"; ArxivMain.fetch_related := false;
              ArxivMain.output_dir := "data/papers" |} in
  let files' := <[ "data/papers/2502.20692v1.json" := ArxivMain.MetadataFile Feeds.good_paper ]> ∅ in
  ArxivMain.search_given a = Some "consensus"
  ∧ ArxivMain.main (F := SimpleFiles.fs) api (fun _ => Response "%PDF-1.5") a ∅
    = ArxivMain.Finished files'
  ∧ only_metadata_added (F := SimpleFiles.fs) "data/papers"
      (Arxiv.search_papers api "consensus" 10) ∅ files'.
Proof.
  cbv zeta.
  set (a := {| ArxivMain.paper_id := "2502.20692"; ArxivMain.download_pdf_flag := true;
               ArxivMain.search := Some "consensus"; ArxivMain.fetch_related := false;
               ArxivMain.output_dir := "data/papers" |}).
  assert (Hs : ArxivMain.search_given a = Some "consensus") by reflexivity.
  assert (Hm : ArxivMain.main (F := SimpleFiles.fs)
                 (Feeds.serves (Feeds.feed [Feeds.good_entry]))
                 (fun _ => Response "%PDF-1.5") a ∅
               = ArxivMain.Finished
                   (<[ "data/papers/2502.20692v1.json" := ArxivMain.MetadataFile Feeds.good_paper ]> ∅))
    by (vm_compute; reflexivity).
  split; [exact Hs|]. split; [exact Hm|].
  exact (X6_search_mode_saves_only_metadata (F := SimpleFiles.fs) _ _ a "consensus" ∅ _ Hs Hm).
Defined.

(** * Further properties of the blog scraper *)

Section BlogPosts.

Context {U : UrlLib} {F : FileSys}.
Variable net : nat -> string -> http Bs4.node.

Lemma slice_to_length (n : nat) (s : string) :
  (String.length (PyStr.slice_to n s) <= n)%nat.
Proof.
  unfold PyStr.slice_to. revert s. induction n as [|n IH]; intros [|c s]; cbn; try lia.
  specialize (IH s). lia.
Qed.

Lemma find_satisfies (p : Bs4.node -> bool) (n e : Bs4.node) :
  Bs4.find p n = Some e → p e = true.
Proof.
  unfold Bs4.find, Bs4.find_all. intros H.
  destruct (List.filter p (Bs4.descendants n)) as [|x l] eqn:Hf; [discriminate|].
  injection H as ->.
  assert (Hin : List.In e (List.filter p (Bs4.descendants n))) by (rewrite Hf; by left).
  by apply filter_In in Hin as [_ ?].
Qed.

(** What a post of [scrape_article] looks like, and what the turn costs. *)
Lemma scrape_article_post (base_url : string) (n n' : nat) (article : Bs4.node)
      (post : Blog.BlogPost) :
  Blog.scrape_article net base_url n article = (Some post, n') →
  n' = S n ∧ Blog.source post = "category_labs"
  ∧ (String.length (Blog.excerpt post) <= 500)%nat.
Proof.
  unfold Blog.scrape_article.
  destruct (Bs4.find _ article ||| Bs4.find _ article); [|discriminate].
  destruct (match Bs4.find _ article with Some l => _ | None => _ end); [|discriminate].
  intros [= <- <-]. cbn. split; [reflexivity|]. split; [reflexivity|].
  apply slice_to_length.
Qed.

Lemma scrape_articles_bounds (base_url : string) (articles : list Bs4.node) :
  ∀ (n : nat) (posts : list Blog.BlogPost),
    (List.length (Blog.scrape_articles net base_url n articles posts)
     <= List.length posts + List.length articles)%nat
    ∧ ∀ post, post ∈ Blog.scrape_articles net base_url n articles posts →
              post ∈ posts
              ∨ (Blog.source post = "category_labs"
                 ∧ (String.length (Blog.excerpt post) <= 500)%nat).
Proof.
  induction articles as [|article rest IH]; intros n posts; cbn.
  - split; [lia|]. intros post Hin. by left.
  - destruct (Blog.scrape_article net base_url n article) as [[new|] n'] eqn:Hs.
    + destruct (IH n' (posts ++ [new])) as [Hlen Hall]. split.
      * rewrite length_app in Hlen. cbn in Hlen. lia.
      * intros post Hin. destruct (Hall post Hin) as [Hold|Hnew]; [|by right].
        apply elem_of_app in Hold. destruct Hold as [Hold|Hold]; [by left|].
        apply list_elem_of_singleton in Hold. subst post. right.
        by apply scrape_article_post in Hs as (_ & ? & ?).
    + destruct (IH n' posts) as [Hlen Hall]. split; [lia|exact Hall].
Qed.

Lemma save_post_path (dir : string) (files : gmap string Blog.BlogPost) (post : Blog.BlogPost) :
  Blog.save_post dir files post
  = path ← post_path dir post; mret (path, <[ path := post ]> files).
Proof.
  unfold Blog.save_post, post_path.
  destruct (Blog.post_filename post) as [name|]; [|reflexivity]. cbn.
  by destruct (opens dir (name +:+ ".json")).
Qed.

(** After the posts have been saved one after the other, the file of a
    post holds the post, unless a later post of the list was written to
    the same path; a path that is the path of no post is as it was. *)
Lemma save_each_files (dir : string) (posts : list Blog.BlogPost) :
  ∀ files files' : gmap string Blog.BlogPost,
    Blog.save_each dir files posts = Ok files' →
    (∀ path, (∀ post, post ∈ posts → post_path dir post ≠ Ok path) →
             files' !! path = files !! path)
    ∧ (∀ before post after, posts = before ++ post :: after →
         (∀ later, later ∈ after → post_path dir later ≠ post_path dir post) →
         ∃ path, post_path dir post = Ok path ∧ files' !! path = Some post).
Proof.
  induction posts as [|p posts IH]; intros files files'; cbn [Blog.save_each].
  - intros [= <-]. split; [reflexivity|]. intros [|? ?] ? ? H; discriminate.
  - rewrite save_post_path. destruct (post_path dir p) as [path_p|] eqn:Hp; [|discriminate].
    cbn. intros Hrest. destruct (IH _ _ Hrest) as [Hother Hlast]. split.
    + intros path Hnone. rewrite Hother.
      * apply lookup_insert_ne. intros ->. apply (Hnone p); [apply elem_of_cons; by left|exact Hp].
      * intros q Hq. apply Hnone, elem_of_cons. by right.
    + intros [|b before] post after Heq Hlater; injection Heq as -> ->.
      * exists path_p. split; [exact Hp|]. rewrite Hother; [apply lookup_insert_eq|].
        intros q Hq Hqp. apply (Hlater q Hq). by rewrite Hp.
      * by apply (Hlast before post after).
Qed.

Lemma save_each_origin (dir : string) (posts : list Blog.BlogPost) :
  ∀ (files files' : gmap string Blog.BlogPost) (path : string) (post : Blog.BlogPost),
    Blog.save_each dir files posts = Ok files' →
    files' !! path = Some post →
    files !! path = Some post ∨ post ∈ posts.
Proof.
  induction posts as [|p posts IH]; intros files files' path post; cbn [Blog.save_each].
  - intros [= <-] H. by left.
  - rewrite save_post_path. destruct (post_path dir p) as [path_p|]; [|discriminate].
    cbn. intros Hrest Hfile. destruct (IH _ _ _ _ Hrest Hfile) as [Hold|Hin].
    + destruct (decide (path_p = path)) as [->|Hne].
      * rewrite lookup_insert_eq in Hold. injection Hold as ->.
        right. apply elem_of_cons. by left.
      * rewrite lookup_insert_ne in Hold by exact Hne. by left.
    + right. apply elem_of_cons. by right.
Qed.

End BlogPosts.

(** X7: the posts that [scrape_category_labs] returns are tagged with the
    source [category_labs] and have an excerpt of at most 500 characters;
    there are at most as many as the page has post containers, and none
    when the request for the page fails. *)
Theorem X7_scraped_posts_bounded `{U : UrlLib} (net : nat -> string -> http Bs4.node) :
  (∀ post, post ∈ Blog.scrape_category_labs net →
           Blog.source post = "category_labs"
           ∧ (String.length (Blog.excerpt post) <= 500)%nat)
  ∧ match net 0 (Blog.SOURCES "category_labs") with
    | Response soup =>
        (List.length (Blog.scrape_category_labs net)
         <= List.length (Bs4.find_all is_post_container soup))%nat
    | Failed => Blog.scrape_category_labs net = []
    end.
Proof.
  unfold Blog.scrape_category_labs.
  destruct (net 0 (Blog.SOURCES "category_labs")) as [soup|].
  - destruct (scrape_articles_bounds net (Blog.SOURCES "category_labs")
                (Bs4.find_all is_post_container soup) 1 []) as [Hlen Hall].
    split; [|exact Hlen].
    intros post Hin. destruct (Hall post Hin) as [Hnil|H]; [by apply elem_of_nil in Hnil|exact H].
  - split; [|reflexivity]. intros post Hin. by apply elem_of_nil in Hin.
Qed.

(** X8: a post container gives no post exactly when it has neither [h2]
    nor [h1], or when [urljoin] rejects the [href] of its first hyperlink;
    then no request is sent for it.  A container that gives a post costs
    one request. *)
Theorem X8_skipped_containers `{U : UrlLib} (net : nat -> string -> http Bs4.node)
        (base_url : string) (n : nat) (article : Bs4.node) :
  (fst (Blog.scrape_article net base_url n article) = None
   ↔ ¬ has_title article ∨ link_rejected base_url article)
  ∧ snd (Blog.scrape_article net base_url n article)
    = match fst (Blog.scrape_article net base_url n article) with
      | Some _ => S n
      | None => n
      end.
Proof.
  unfold Blog.scrape_article, has_title, link_rejected.
  destruct (Bs4.find (Bs4.named "h2") article ||| Bs4.find (Bs4.named "h1") article) as [t|].
  - destruct (Bs4.find (Bs4.both (Bs4.named "a") (Bs4.has_attr "href")) article)
      as [link|] eqn:Hlink.
    + pose proof (find_satisfies _ _ _ Hlink) as Hp.
      unfold Bs4.both in Hp. apply andb_true_iff in Hp. destruct Hp as [_ Hattr].
      unfold Bs4.has_attr in Hattr. unfold Bs4.item.
      destruct (Bs4.get "href" link) as [value|] eqn:Hget; [|discriminate]. cbn.
      destruct (urljoin base_url (Bs4.attr_text value)) as [full|] eqn:Hjoin; cbn.
      * split; [|reflexivity]. split; [discriminate|].
        intros [Hno|(l & v & [= <-] & Hv & Hj)]; [destruct Hno; eauto|].
        rewrite Hget in Hv. injection Hv as <-. congruence.
      * split; [|reflexivity]. split; [|reflexivity].
        intros _. right. exists link, value. by repeat split.
    + cbn. split; [|reflexivity]. split; [discriminate|].
      intros [Hno|(l & v & Hl & _)]; [destruct Hno; eauto|discriminate].
  - cbn. split; [|reflexivity]. split; [|reflexivity].
    intros _. left. intros [x Hx]. discriminate.
Qed.

(** X9: after [main] has saved the posts one after the other, the file of
    a post holds that post, unless a later post of the list was written to
    the same path; a path that is the path of no post is as it was. *)
Theorem X9_last_saved_post_wins `{U : UrlLib} `{F : FileSys} (output_dir : string)
        (posts : list Blog.BlogPost) (files files' : gmap string Blog.BlogPost) :
  Blog.save_each output_dir files posts = Ok files' →
  (∀ path, (∀ post, post ∈ posts → post_path output_dir post ≠ Ok path) →
           files' !! path = files !! path)
  ∧ (∀ before post after, posts = before ++ post :: after →
       (∀ later, later ∈ after → post_path output_dir later ≠ post_path output_dir post) →
       ∃ path, post_path output_dir post = Ok path ∧ files' !! path = Some post).
Proof. apply save_each_files. Qed.

Lemma X9_last_saved_post_wins_witness :
  let p1 := post_titled "https://blog.categorylabs.xyz/2025/monadbft" "MonadBFT" in
  let p2 := post_titled "https://blog.categorylabs.xyz/2025/raptorcast" "RaptorCast" in
  let p3 := post_titled "https://blog.categorylabs.xyz/2025/monadbft" "MonadBFT, revised" in
  ∃ files',
    Blog.save_each (U := SimpleUrl.lib) (F := SimpleFiles.fs) "data/blog_posts" ∅ [p1; p2; p3] = Ok files'
    ∧ files' !! "data/blog_posts/2025_monadbft.json" = Some p3
    ∧ files' !! "data/blog_posts/2025_raptorcast.json" = Some p2
    ∧ (∀ before post after, [p1; p2; p3] = before ++ post :: after →
         (∀ later, later ∈ after →
                   post_path (U := SimpleUrl.lib) (F := SimpleFiles.fs) "data/blog_posts" later
                   ≠ post_path (U := SimpleUrl.lib) (F := SimpleFiles.fs) "data/blog_posts" post) →
         ∃ path, post_path (U := SimpleUrl.lib) (F := SimpleFiles.fs) "data/blog_posts" post = Ok path
                 ∧ files' !! path = Some post).
Proof.
  cbv zeta.
  destruct (Blog.save_each (U := SimpleUrl.lib) (F := SimpleFiles.fs) "data/blog_posts" ∅
              [post_titled "https://blog.categorylabs.xyz/2025/monadbft" "MonadBFT";
               post_titled "https://blog.categorylabs.xyz/2025/raptorcast" "RaptorCast";
               post_titled "https://blog.categorylabs.xyz/2025/monadbft" "MonadBFT, revised"])
    as [files'|] eqn:Hsave; [|vm_compute in Hsave; discriminate].
  exists files'. split; [reflexivity|].
  pose proof (X9_last_saved_post_wins (U := SimpleUrl.lib) (F := SimpleFiles.fs) _ _ _ _ Hsave) as [_ Hlast].
  vm_compute in Hsave. injection Hsave as <-.
  split; [vm_compute; reflexivity|]. split; [vm_compute; reflexivity|]. exact Hlast.
Defined.

Section FileNames.

Lemma contains_char_cons (a c : ascii) (s : string) :
  PyStr.contains (String a EmptyString) (String c s)
  = (if Ascii.ascii_dec a c then true else false) || PyStr.contains (String a EmptyString) s.
Proof.
  cbn [PyStr.contains String.prefix].
  destruct (Ascii.ascii_dec a c); [|reflexivity]. by destruct s.
Qed.

Lemma contains_char_slice (a : ascii) (n : nat) (s : string) :
  PyStr.contains (String a EmptyString) s = false →
  PyStr.contains (String a EmptyString) (PyStr.slice_to n s) = false.
Proof.
  unfold PyStr.slice_to. revert s. induction n as [|n IH]; intros [|c s]; try reflexivity.
  cbn [String.substring]. rewrite !contains_char_cons.
  intros H. apply orb_false_iff in H. destruct H as [-> H]. by rewrite (IH s H).
Qed.

Lemma flatten_path_flat (path : string) : PyStr.contains "/" (flatten_path path) = false.
Proof. apply (replace_one_char_gone "/" "_"). discriminate. Qed.

Lemma title_slug_shape (title : string) :
  (String.length (title_slug title) <= 50)%nat
  ∧ PyStr.contains " " (title_slug title) = false.
Proof.
  split; [apply slice_to_length|].
  apply (contains_char_slice " "), (replace_one_char_gone " " "_"). discriminate.
Qed.

Lemma filter_twice {A} (t : A -> bool) (l : list A) :
  List.filter t (List.filter t l) = List.filter t l.
Proof.
  induction l as [|x l IH]; [reflexivity|]. cbn [List.filter].
  destruct (t x) eqn:Hx; [|exact IH]. cbn [List.filter]. by rewrite Hx, IH.
Qed.

End FileNames.

(** X10: the keyword filter selects from a list what it selects from its
    parts, selects nothing more from its own result, and never returns
    more posts than it was given. *)
Theorem X10_filter_composes (posts more : list Blog.BlogPost) :
  Blog.filter_monadbft_posts (posts ++ more)
  = Blog.filter_monadbft_posts posts ++ Blog.filter_monadbft_posts more
  ∧ Blog.filter_monadbft_posts (Blog.filter_monadbft_posts posts)
    = Blog.filter_monadbft_posts posts
  ∧ (List.length (Blog.filter_monadbft_posts posts) <= List.length posts)%nat.
Proof.
  unfold Blog.filter_monadbft_posts. rewrite !filter_loop. cbn [app].
  split; [apply List.filter_app|]. split.
  - apply filter_twice.
  - apply List.filter_length_le.
Qed.

(** X11: the file name that [save_post] derives from the URL of a post is
    not empty and holds no [/]; otherwise it is the slug of the title,
    which has at most 50 characters and no blank. *)
Theorem X11_post_filename_shape `{U : UrlLib} (post : Blog.BlogPost) (name : string) :
  Blog.post_filename post = Ok name →
  (name ≠ "" ∧ PyStr.contains "/" name = false)
  ∨ (name = title_slug (Blog.title post)
     ∧ (String.length name <= 50)%nat ∧ PyStr.contains " " name = false).
Proof.
  unfold Blog.post_filename. destruct (url_path (Blog.url post)) as [path|]; [|discriminate].
  cbn. destruct (flatten_path path) as [|c s] eqn:Hflat; cbn; intros [= <-].
  - right. split; [reflexivity|apply title_slug_shape].
  - left. split; [discriminate|]. rewrite <- Hflat. apply flatten_path_flat.
Qed.

Lemma X11_post_filename_shape_witness :
  Blog.post_filename (U := SimpleUrl.lib)
    (post_titled "https://blog.categorylabs.xyz/2025/monadbft/" "MonadBFT") = Ok "2025_monadbft"
  ∧ Blog.post_filename (U := SimpleUrl.lib) Pages.alpha = Ok "alpha"
  ∧ (("2025_monadbft" ≠ "" ∧ PyStr.contains "/" "2025_monadbft" = false)
     ∨ ("2025_monadbft" = title_slug "MonadBFT"
        ∧ (String.length "2025_monadbft" <= 50)%nat
        ∧ PyStr.contains " " "2025_monadbft" = false)).
Proof.
  assert (H : Blog.post_filename (U := SimpleUrl.lib)
                (post_titled "https://blog.categorylabs.xyz/2025/monadbft/" "MonadBFT")
              = Ok "2025_monadbft") by (vm_compute; reflexivity).
  split; [exact H|]. split; [vm_compute; reflexivity|].
  exact (X11_post_filename_shape (U := SimpleUrl.lib) _ _ H).
Defined.

(** X12: when [main] of the blog scraper is run with [--filter-monadbft],
    every post it leaves in a file that did not hold it before was scraped
    from the blog and mentions a keyword. *)
Theorem X12_filtered_run_saves_keyword_posts `{U : UrlLib} `{F : FileSys}
        (net : nat -> string -> http Bs4.node) (src : BlogMain.source) (output_dir : string)
        (files files' : gmap string Blog.BlogPost) (path : string) (post : Blog.BlogPost) :
  BlogMain.main net src true output_dir files = Ok files' →
  files' !! path = Some post →
  files !! path = Some post
  ∨ (post ∈ Blog.scrape_category_labs net ∧ mentions_keyword post).
Proof.
  unfold BlogMain.main. intros Hmain Hfile.
  assert (Hposts : ∀ posts, BlogMain.scraped net src = Some posts →
                            posts = Blog.scrape_category_labs net)
    by (destruct src; intros posts [= <-]; reflexivity).
  destruct (BlogMain.scraped net src) as [posts|]; [|injection Hmain as <-; by left].
  rewrite (Hposts posts eq_refl) in Hmain.
  destruct (save_each_origin _ _ _ _ _ _ Hmain Hfile) as [Hold|Hin]; [by left|right].
  unfold Blog.filter_monadbft_posts in Hin. rewrite filter_loop in Hin. cbn [app] in Hin.
  apply list_elem_of_In, filter_In in Hin. destruct Hin as [Hin Hkw].
  split; [by apply list_elem_of_In|by apply keyword_test_spec].
Qed.

Lemma X12_filtered_run_saves_keyword_posts_witness :
  let page :=
    Pages.html [Bs4.Tag "article" [("class", Bs4.AList ["post"])]
                  [Bs4.Tag "h2" [] [Bs4.NavigableString "MonadBFT update"];
                   Pages.a "/2025/monadbft" "Read"];
                Bs4.Tag "article" [("class", Bs4.AList ["post"])]
                  [Bs4.Tag "h2" [] [Bs4.NavigableString "Cooking tips"];
                   Pages.a "/2025/cooking" "Read"]] in
  let net := fun (n : nat) (u : string) =>
               if String.eqb u "https://blog.categorylabs.xyz" then Response page else Failed in
  ∃ files' post,
    BlogMain.main (U := SimpleUrl.lib) (F := SimpleFiles.fs) net BlogMain.all true "data/blog_posts" ∅ = Ok files'
    ∧ files' !! "data/blog_posts/2025_monadbft.json" = Some post
    ∧ files' !! "data/blog_posts/2025_cooking.json" = None
    ∧ ((∅ : gmap string Blog.BlogPost) !! "data/blog_posts/2025_monadbft.json" = Some post
       ∨ (post ∈ Blog.scrape_category_labs (U := SimpleUrl.lib) net ∧ mentions_keyword post)).
Proof.
  cbv zeta.
  match goal with
  | |- ∃ files' post, BlogMain.main ?net _ _ _ _ = _ ∧ _ => set (web := net)
  end.
  destruct (BlogMain.main (U := SimpleUrl.lib) (F := SimpleFiles.fs) web BlogMain.all true "data/blog_posts" ∅)
    as [files'|] eqn:Hmain; [|vm_compute in Hmain; discriminate].
  destruct (files' !! "data/blog_posts/2025_monadbft.json") as [post|] eqn:Hfile.
  - exists files', post. split; [reflexivity|]. split; [exact Hfile|]. split.
    + vm_compute in Hmain. injection Hmain as <-. vm_compute. reflexivity.
    + exact (X12_filtered_run_saves_keyword_posts (U := SimpleUrl.lib) (F := SimpleFiles.fs) web BlogMain.all
               "data/blog_posts" ∅ files' _ post Hmain Hfile).
  - exfalso. vm_compute in Hmain. injection Hmain as <-. vm_compute in Hfile. discriminate.
Defined.

(** * Further properties of the documentation crawl *)

Section CrawlSteps.

Context {U : UrlLib}.
Variable net : nat -> string -> http Bs4.node.

(** [true] from [examine_link] means that the link is accepted, whether or
    not other links of the page raise. *)
Lemma examine_link_accepted (V : gset string) (u : string) (link : Bs4.node) (x : string) :
  Docs.examine_link V u link = Ok (x, true) → link_accepted V u link x.
Proof.
  unfold Docs.examine_link, link_accepted.
  destruct (Bs4.item "href" link) as [href|]; cbn; [|discriminate].
  destruct (urljoin u href) as [full|] eqn:Hjoin; cbn; [|discriminate].
  destruct (url_netloc full) as [n|] eqn:Hn; cbn; [|discriminate].
  destruct (url_netloc Docs.BASE_URL) as [b|] eqn:Hb; cbn; [|discriminate].
  intros [= <- Hkeep].
  apply andb_true_iff in Hkeep. destruct Hkeep as [Heq Hkeep].
  apply andb_true_iff in Hkeep. destruct Hkeep as [Hhash Hv].
  apply String.eqb_eq in Heq. subst b.
  exists href. split; [reflexivity|]. split; [exact Hjoin|]. split; [by rewrite Hn|]. split.
  - intros Hocc. apply contains_occurs in Hocc. by rewrite Hocc in Hhash.
  - by apply bool_decide_eq_true in Hv.
Qed.

Lemma collect_links_accepted (V : gset string) (u : string) (l : list Bs4.node) (x : string) :
  x ∈ Docs.collect_links V u l [] → ∃ link, link ∈ l ∧ link_accepted V u link x.
Proof.
  induction l as [|link l IH]; cbn [Docs.collect_links].
  - intros H. by apply elem_of_nil in H.
  - destruct (Docs.examine_link V u link) as [[full keep]|e] eqn:Hex.
    + destruct keep.
      * rewrite collect_links_acc. cbn [app]. intros H. apply elem_of_cons in H.
        destruct H as [->|H].
        -- exists link. split; [apply elem_of_cons; by left|by apply examine_link_accepted].
        -- destruct (IH H) as (k & Hk & Ha). exists k. split; [apply elem_of_cons; by right|done].
      * intros H. destruct (IH H) as (k & Hk & Ha).
        exists k. split; [apply elem_of_cons; by right|done].
    + intros H. by apply elem_of_nil in H.
Qed.

Lemma grows_refl (st : Docs.crawl) : grows st st.
Proof.
  split; [reflexivity|]. exists []. rewrite app_nil_r. split; [reflexivity|]. cbn. lia.
Qed.

Lemma grows_trans (a b c : Docs.crawl) : grows a b → grows b c → grows a c.
Proof.
  intros [Hv1 (l1 & Hp1 & Hr1)] [Hv2 (l2 & Hp2 & Hr2)]. split; [by etrans|].
  exists (l1 ++ l2). rewrite Hp2, Hp1, app_assoc, length_app. split; [reflexivity|lia].
Qed.

Lemma step_grows (st st' : Docs.crawl) : Docs.step net st = Some st' → grows st st'.
Proof.
  unfold Docs.step. destruct (Docs.urls_to_visit st) as [|u rest]; [discriminate|].
  destruct (decide (u ∈ Docs.visited_urls st)).
  { intros [= <-]. split; cbn; [reflexivity|].
    exists []. rewrite app_nil_r. split; [reflexivity|]. cbn. lia. }
  destruct (Docs._scrape_page u _) as [page|]; intros [= <-]; split; cbn.
  - apply union_subseteq_r.
  - exists [page]. split; [reflexivity|]. cbn. lia.
  - reflexivity.
  - exists []. rewrite app_nil_r. split; [reflexivity|]. cbn. lia.
Qed.

Lemma run_grows (fuel : nat) :
  ∀ st final, Docs.run net fuel st = Some final →
              grows st final ∧ Docs.urls_to_visit final = [].
Proof.
  induction fuel as [|fuel IH]; intros st final; cbn.
  - destruct (Docs.step net st) eqn:Hstep; [discriminate|]. intros [= <-].
    split; [apply grows_refl|].
    unfold Docs.step in Hstep. destruct (Docs.urls_to_visit st); [reflexivity|].
    destruct (decide _); [discriminate|]. destruct (Docs._scrape_page _ _); discriminate.
  - destruct (Docs.step net st) as [st'|] eqn:Hstep.
    + intros Hrun. destruct (IH _ _ Hrun) as [Hg Hq]. split; [|exact Hq].
      apply (grows_trans st st' final); [by apply step_grows|exact Hg].
    + intros [= <-]. split; [apply grows_refl|].
      unfold Docs.step in Hstep. destruct (Docs.urls_to_visit st); [reflexivity|].
      destruct (decide _); [discriminate|]. destruct (Docs._scrape_page _ _); discriminate.
Qed.

End CrawlSteps.

(** X13: whatever the page holds, a URL that link discovery returns is the
    resolved target of a hyperlink of the page, has the network location
    of [BASE_URL], holds no [#] and is not in the visited set; so a page
    never queues itself or a page already visited. *)
Theorem X13_returned_links_are_accepted `{U : UrlLib} (visited : gset string) (url_ : string)
        (response : http Bs4.node) (full_url : string) :
  full_url ∈ Docs._find_doc_links visited url_ response →
  ∃ soup link,
    response = Response soup ∧ link ∈ anchors soup
    ∧ link_accepted visited url_ link full_url.
Proof.
  unfold Docs._find_doc_links. destruct response as [soup|].
  - intros H. destruct (collect_links_accepted visited url_ _ full_url H) as (link & Hl & Ha).
    by exists soup, link.
  - intros H. by apply elem_of_nil in H.
Qed.

Lemma X13_returned_links_are_accepted_witness :
  let page := "https://docs.monad.xyz/intro" in
  "https://docs.monad.xyz/guide"
    ∈ Docs._find_doc_links (U := SimpleUrl.lib) {[ page ]} page (Response Pages.linking)
  ∧ ∃ soup link,
      Response Pages.linking = Response soup ∧ link ∈ anchors soup
      ∧ link_accepted (U := SimpleUrl.lib) {[ page ]} page link "https://docs.monad.xyz/guide".
Proof.
  cbv zeta.
  assert (H : "https://docs.monad.xyz/guide"
                ∈ Docs._find_doc_links (U := SimpleUrl.lib) {[ "https://docs.monad.xyz/intro" ]}
                    "https://docs.monad.xyz/intro" (Response Pages.linking)).
  { links_are ["https://docs.monad.xyz/guide"]. apply elem_of_cons. by left. }
  split; [exact H|].
  exact (X13_returned_links_are_accepted (U := SimpleUrl.lib) _ _ _ _ H).
Defined.

(** X14: whatever the network does, a crawl that ends has emptied its
    queue, has kept every URL that was visited before it began, and has
    sent at least two requests for each record it returns. *)
Theorem X14_crawl_accounting `{U : UrlLib} (net : nat -> string -> http Bs4.node)
        (fuel : nat) (visited : gset string) (start_url : option string) (final : Docs.crawl) :
  Docs.scrape_docs net fuel visited start_url = Some final →
  Docs.urls_to_visit final = []
  ∧ visited ⊆ Docs.visited_urls final
  ∧ (2 * List.length (Docs.pages final) <= Docs.requests final)%nat.
Proof.
  intros Hrun. destruct (run_grows net fuel _ _ Hrun) as [[Hv (added & Hp & Hr)] Hq].
  cbn in Hv, Hp, Hr. split; [exact Hq|]. split; [exact Hv|]. rewrite Hp. exact Hr.
Qed.

Lemma X14_crawl_accounting_witness :
  ∃ final,
    Docs.scrape_docs (U := SimpleUrl.lib) (static Pages.site) 20 {[ Pages.page_b ]} None
    = Some final
    ∧ Docs.urls_to_visit final = []
    ∧ ({[ Pages.page_b ]} : gset string) ⊆ Docs.visited_urls final
    ∧ (2 * List.length (Docs.pages final) <= Docs.requests final)%nat.
Proof.
  destruct (Docs.scrape_docs (U := SimpleUrl.lib) (static Pages.site) 20
              {[ Pages.page_b ]} None) as [final|] eqn:Hrun; [|vm_compute in Hrun; discriminate].
  exists final. split; [reflexivity|].
  exact (X14_crawl_accounting (U := SimpleUrl.lib) _ _ _ _ _ Hrun).
Defined.

(** X15: a crawl whose start URL is already in the visited set of the
    scraper, as after an earlier crawl from the same URL, returns no
    record and sends no request. *)
Theorem X15_second_crawl_is_empty `{U : UrlLib} (net : nat -> string -> http Bs4.node)
        (fuel : nat) (visited : gset string) (start_url : option string) :
  default Docs.BASE_URL start_url ∈ visited →
  Docs.scrape_docs net (S fuel) visited start_url
  = Some {| Docs.pages := []; Docs.urls_to_visit := [];
            Docs.visited_urls := visited; Docs.requests := 0 |}.
Proof.
  intros Hin. unfold Docs.scrape_docs, Docs.start.
  cbn [Docs.run]. unfold Docs.step at 1. cbn.
  destruct (decide (default Docs.BASE_URL start_url ∈ visited)); [|contradiction].
  by destruct fuel.
Qed.

Lemma X15_second_crawl_is_empty_witness :
  ∃ first,
    Docs.scrape_docs (U := SimpleUrl.lib) (static Pages.site) 20 ∅ None = Some first
    ∧ List.length (Docs.pages first) = 3
    ∧ default Docs.BASE_URL None ∈ Docs.visited_urls first
    ∧ Docs.scrape_docs (U := SimpleUrl.lib) (static Pages.site) 20 (Docs.visited_urls first) None
      = Some {| Docs.pages := []; Docs.urls_to_visit := [];
                Docs.visited_urls := Docs.visited_urls first; Docs.requests := 0 |}.
Proof.
  eexists. split; [vm_compute; reflexivity|].
  split; [reflexivity|].
  match goal with |- ?P ∧ _ => assert (Hin : P) end.
  { apply (bool_decide_unpack _). vm_compute. exact I. }
  split; [exact Hin|].
  exact (X15_second_crawl_is_empty (U := SimpleUrl.lib) (static Pages.site) 19 _ None Hin).
Defined.

(** X16: when the request for the start URL fails, the crawl ends with no
    record after this one request; the URL is not marked as visited. *)
Theorem X16_failed_start `{U : UrlLib} (net : nat -> string -> http Bs4.node)
        (fuel : nat) (visited : gset string) (start_url : option string) :
  default Docs.BASE_URL start_url ∉ visited →
  net 0 (default Docs.BASE_URL start_url) = Failed →
  Docs.scrape_docs net (S fuel) visited start_url
  = Some {| Docs.pages := []; Docs.urls_to_visit := [];
            Docs.visited_urls := visited; Docs.requests := 1 |}.
Proof.
  intros Hnew Hfail. unfold Docs.scrape_docs, Docs.start.
  cbn [Docs.run]. unfold Docs.step at 1. cbn.
  destruct (decide (default Docs.BASE_URL start_url ∈ visited)); [contradiction|].
  rewrite Hfail. cbn. by destruct fuel.
Qed.

Lemma X16_failed_start_witness :
  let start_url := Some "https://docs.monad.xyz/missing" in
  (default Docs.BASE_URL start_url ∉ (∅ : gset string))
  ∧ static Pages.site 0 (default Docs.BASE_URL start_url) = Failed
  ∧ Docs.scrape_docs (U := SimpleUrl.lib) (static Pages.site) 5 ∅ start_url
    = Some {| Docs.pages := []; Docs.urls_to_visit := [];
              Docs.visited_urls := ∅; Docs.requests := 1 |}.
Proof.
  cbv zeta.
  assert (H1 : default Docs.BASE_URL (Some "https://docs.monad.xyz/missing") ∉ (∅ : gset string))
    by apply not_elem_of_empty.
  assert (H2 : static Pages.site 0 (default Docs.BASE_URL (Some "https://docs.monad.xyz/missing"))
               = Failed) by (vm_compute; reflexivity).
  split; [exact H1|]. split; [exact H2|].
  exact (X16_failed_start (U := SimpleUrl.lib) (static Pages.site) 4 ∅ _ H1 H2).
Defined.

(** * Removal of tags and the breadcrumbs *)

Section Removal.

Import Bs4.

Lemma without_Tag (names : list string) (nm : string) (at_ : list (string * attr_value))
      (ch : list node) :
  without names (Tag nm at_ ch) = Tag nm at_ (without_list names ch).
Proof. reflexivity. Qed.

Lemma named_in_without (names names' : list string) (n : node) :
  named_in names (without names' n) = named_in names n.
Proof. by destruct n. Qed.

Lemma filter_descendants_cons (p : node -> bool) (c : node) (l : list node) :
  List.filter p (List.flat_map self_and_descendants (c :: l))
  = (if p c then [c] else []) ++ List.filter p (descendants c)
    ++ List.filter p (List.flat_map self_and_descendants l).
Proof.
  cbn [List.flat_map]. rewrite List.filter_app.
  destruct c as [nm at_ ch|s]; cbn [self_and_descendants List.filter];
    unfold descendants; cbn [children_of];
    destruct (p _); cbn; rewrite ?app_nil_r; reflexivity.
Qed.

(** No tag with one of the names is left below the node. *)
Lemma without_clean (names : list string) (n : node) :
  find_all (named_in names) (without names n) = [].
Proof.
  unfold find_all.
  induction n as [nm at_ ch IH|s] using node_forall_ind; [|reflexivity].
  rewrite without_Tag. unfold descendants; cbn [children_of].
  induction IH as [|c l Hc _ IHl]; [reflexivity|]. cbn [without_list].
  destruct (named_in names c) eqn:Hn; [exact IHl|].
  rewrite filter_descendants_cons, named_in_without, Hn, Hc, IHl. reflexivity.
Qed.

(** A node below which no tag has one of the names is left as it is. *)
Lemma without_id (names : list string) (n : node) :
  find_all (named_in names) n = [] → without names n = n.
Proof.
  unfold find_all.
  induction n as [nm at_ ch IH|s] using node_forall_ind; [|reflexivity].
  rewrite without_Tag. unfold descendants; cbn [children_of]. intros Hnone. f_equal.
  induction IH as [|c l Hc _ IHl]; [reflexivity|].
  rewrite filter_descendants_cons in Hnone.
  apply app_eq_nil in Hnone. destruct Hnone as [Hself Hrest].
  apply app_eq_nil in Hrest. destruct Hrest as [Hbelow Hl].
  cbn [without_list]. destruct (named_in names c); [discriminate|].
  by rewrite (Hc Hbelow), (IHl Hl).
Qed.

Variable p : node -> bool.
Variable f : node -> node.
Hypothesis p_shallow : shallow p.
Hypothesis f_keeps : ∀ n, p (f n) = p n.

Lemma update_first_in_fixed (ch ch' : list node) (e : node) :
  Forall (fun c => ∀ c', update_first p f c = Some c' →
                         List.head (List.filter p (self_and_descendants c)) = Some e →
                         f e = e → c' = c) ch →
  update_first_in p f ch = Some ch' →
  List.head (List.filter p (List.flat_map self_and_descendants ch)) = Some e →
  f e = e → ch' = ch.
Proof.
  intros Hall. revert ch'. induction Hall as [|c l Hc _ IHl]; intros ch'; [discriminate|].
  cbn [update_first_in List.flat_map]. fold (update_first_in p f).
  rewrite List.filter_app.
  pose proof (update_first_updated p f p_shallow f_keeps c) as Hup.
  destruct (update_first p f c) as [c'|]; cbn in Hup.
  - destruct Hup as (e0 & rest & He0 & _). rewrite He0. cbn.
    intros [= <-] [= ->] Hfe. f_equal. apply Hc; [reflexivity| |exact Hfe].
    by rewrite He0.
  - rewrite Hup. cbn [app].
    destruct (update_first_in p f l) as [l''|]; [|discriminate].
    intros [= <-] Hhead Hfe. f_equal. by apply IHl.
Qed.

Lemma update_first_fixed (n n' e : node) :
  update_first p f n = Some n' →
  List.head (List.filter p (self_and_descendants n)) = Some e →
  f e = e → n' = n.
Proof.
  revert n'. induction n as [nm at_ ch IH|s] using node_forall_ind; intros n'.
  - rewrite update_first_Tag. cbn [self_and_descendants List.filter].
    destruct (p (Tag nm at_ ch)).
    + intros [= <-] [= <-] Hfe. exact Hfe.
    + destruct (update_first_in p f ch) as [ch'|] eqn:Hin; [|discriminate].
      intros [= <-] Hhead Hfe. f_equal.
      apply (update_first_in_fixed ch ch' e); assumption.
  - cbn. destruct (p (NavigableString s)); [|discriminate].
    intros [= <-] [= <-] Hfe. exact Hfe.
Qed.

(** When [f] leaves the node that [find] returns as it is, the change in
    place changes nothing. *)
Lemma update_first_below_fixed (n : node) :
  (∀ e, find p n = Some e → f e = e) → update_first_below p f n = n.
Proof.
  destruct n as [nm at_ ch|s]; [|reflexivity].
  unfold find, find_all, descendants, update_first_below; cbn [children_of]. intros Hfix.
  destruct (update_first_in p f ch) as [ch'|] eqn:Hin; [|reflexivity].
  assert (Hup : updated p f (List.flat_map self_and_descendants ch)
                        (List.flat_map self_and_descendants <$> update_first_in p f ch)).
  { apply (update_first_in_updated p f), Forall_forall. intros c _.
    by apply update_first_updated. }
  rewrite Hin in Hup. cbn in Hup. destruct Hup as (e & rest & He & _).
  f_equal. apply (update_first_in_fixed ch ch' e); [| exact Hin | by rewrite He |].
  - apply Forall_forall. intros c _ c'. apply update_first_fixed.
  - apply Hfix. by rewrite He.
Qed.

End Removal.

Lemma first_found_in (filters : list (Bs4.node -> bool)) (soup : Bs4.node) (p : Bs4.node -> bool) :
  Docs.first_found filters soup = Some p → p ∈ filters.
Proof.
  induction filters as [|q filters IH]; cbn; [discriminate|].
  destruct (Bs4.find q soup).
  - intros [= <-]. apply elem_of_cons. by left.
  - intros H. apply elem_of_cons. right. by apply IH.
Qed.

(** X17: when the content element of a page holds no [script], [style] or
    [nav] tag, or the page has no content element, the record of the page
    carries the breadcrumbs of the page as it was fetched; its section is
    their first label, or "General" when there is none, and its subsection
    is their second label, if any. *)
Theorem X17_breadcrumbs_of_clean_page (url_ : string) (soup : Bs4.node) (page : Docs.DocPage) :
  Docs._scrape_page url_ (Response soup) = Some page →
  (∀ e, content_elem soup = Some e →
        Bs4.find_all (Bs4.named_in Docs.removed_from_content) e = []) →
  Docs.breadcrumbs page = Docs._extract_breadcrumbs soup
  ∧ Docs.section page = List.hd "General" (Docs._extract_breadcrumbs soup)
  ∧ Docs.subsection page = List.nth_error (Docs._extract_breadcrumbs soup) 1.
Proof.
  intros Hpage Hclean.
  destruct (scrape_page_sections _ _ _ Hpage) as (_ & Hsec & Hsub).
  assert (Hcrumbs : Docs.breadcrumbs page = Docs._extract_breadcrumbs soup).
  { revert Hpage. unfold Docs._scrape_page. unfold content_elem in Hclean.
    destruct (Docs.first_found Docs.content_filters soup) as [p|] eqn:Hfound.
    - destruct (Bs4.find p soup) as [e|] eqn:Hfind; [|by intros [= <-]].
      intros [= <-]. cbn. f_equal.
      destruct (content_filter_stable p (first_found_in _ _ _ Hfound)) as [Hs Hk].
      apply update_first_below_fixed; [exact Hs|intros n; apply Hk|].
      intros e' He'. rewrite Hfind in He'. injection He' as <-.
      apply without_id, Hclean. reflexivity.
    - by intros [= <-]. }
  by rewrite <- Hcrumbs.
Qed.

Lemma X17_breadcrumbs_of_clean_page_witness :
  ∃ page,
    Docs._scrape_page "https://docs.monad.xyz/install" (Response Pages.crumbs_outside) = Some page
    ∧ (∀ e, content_elem Pages.crumbs_outside = Some e →
            Bs4.find_all (Bs4.named_in Docs.removed_from_content) e = [])
    ∧ Docs.breadcrumbs page = ["Docs"; "Getting Started"]
    ∧ Docs.section page = "Docs"
    ∧ Docs.subsection page = Some "Getting Started".
Proof.
  eexists. split; [reflexivity|].
  assert (Hclean : ∀ e, content_elem Pages.crumbs_outside = Some e →
                        Bs4.find_all (Bs4.named_in Docs.removed_from_content) e = []).
  { intros e He. vm_compute in He. injection He as <-. vm_compute. reflexivity. }
  split; [exact Hclean|].
  exact (X17_breadcrumbs_of_clean_page "https://docs.monad.xyz/install" Pages.crumbs_outside
           _ eq_refl Hclean).
Defined.

(** X18: after the loop that decomposes the tags with given names below a
    node, no tag with one of these names is left below it, and running the
    loop again changes nothing. *)
Theorem X18_removed_tags_are_gone (names : list string) (n : Bs4.node) :
  Bs4.find_all (Bs4.named_in names) (Bs4.without names n) = []
  ∧ Bs4.without names (Bs4.without names n) = Bs4.without names n.
Proof.
  split; [apply without_clean|]. apply without_id, without_clean.
Qed.

(** * The index of the documentation *)

Section Index.

Import DocsSave.

Lemma dict_has_get {V} (key : string) (d : list (string * V)) :
  dict_has key d = match dict_get key d with Some _ => true | None => false end.
Proof.
  induction d as [|[k v] d IH]; [reflexivity|]. cbn.
  destruct (String.eqb k key); [reflexivity|exact IH].
Qed.

Lemma dict_get_keys {V} (key : string) (d : list (string * V)) :
  dict_get key d = None ↔ key ∉ List.map fst d.
Proof.
  induction d as [|[k v] d IH]; cbn.
  - split; [intros _; apply not_elem_of_nil|reflexivity].
  - rewrite not_elem_of_cons. destruct (String.eqb_spec k key) as [->|Hne].
    + split; [discriminate|]. intros [H _]. contradiction.
    + rewrite IH. split; [intros H; split; [congruence|exact H]|tauto].
Qed.

Lemma dict_get_append {V} (key key' : string) (x : V) (d : list (string * list V)) :
  dict_get key' (dict_append key x d)
  = if String.eqb key key' then (fun l => l ++ [x]) <$> dict_get key' d else dict_get key' d.
Proof.
  induction d as [|[k l] d IH]; cbn.
  - by destruct (String.eqb key key').
  - destruct (String.eqb k key) eqn:Hk; cbn.
    + apply String.eqb_eq in Hk. subst k.
      destruct (String.eqb key key'); reflexivity.
    + destruct (String.eqb k key') eqn:Hk'; [|exact IH].
      apply String.eqb_eq in Hk'. subst k.
      rewrite String.eqb_sym in Hk. by rewrite Hk.
Qed.

Lemma dict_append_keys {V} (key : string) (x : V) (d : list (string * list V)) :
  List.map fst (dict_append key x d) = List.map fst d.
Proof.
  induction d as [|[k l] d IH]; [reflexivity|]. cbn.
  destruct (String.eqb k key); cbn; [reflexivity|by rewrite IH].
Qed.

Lemma dict_get_snoc {V} (key k : string) (v : V) (d : list (string * V)) :
  dict_get key (d ++ [(k, v)])
  = match dict_get key d with
    | Some l => Some l
    | None => if String.eqb k key then Some v else None
    end.
Proof.
  induction d as [|[k' v'] d IH]; [reflexivity|]. cbn.
  destruct (String.eqb k' key); [reflexivity|exact IH].
Qed.

Lemma distinct_from_snoc (seen : gset string) (l : list string) (x : string) :
  distinct_from seen (l ++ [x])
  = distinct_from seen l ++ (if decide (x ∈ seen ∨ x ∈ l) then [] else [x]).
Proof.
  revert seen. induction l as [|y l IH]; intros seen; cbn.
  - destruct (decide (x ∈ seen)) as [Hin|Hout].
    + rewrite decide_True by tauto. reflexivity.
    + rewrite decide_False; [reflexivity|]. intros [H|H]; [contradiction|by apply elem_of_nil in H].
  - destruct (decide (y ∈ seen)) as [Hy|Hy]; rewrite IH.
    + f_equal. apply decide_ext. rewrite elem_of_cons.
      split; [tauto|]. intros [H|[->|H]]; tauto.
    + cbn. f_equal. f_equal. apply decide_ext.
      rewrite elem_of_union, elem_of_singleton, elem_of_cons. tauto.
Qed.

Lemma distinct_from_elem (seen : gset string) (l : list string) (x : string) :
  x ∈ distinct_from seen l ↔ x ∈ l ∧ x ∉ seen.
Proof.
  revert seen. induction l as [|y l IH]; intros seen; cbn.
  - rewrite elem_of_nil. tauto.
  - destruct (decide (y ∈ seen)) as [Hy|Hy].
    + rewrite IH, elem_of_cons. split; [tauto|]. intros [[->|H] Hn]; [contradiction|tauto].
    + rewrite !elem_of_cons, IH, not_elem_of_union, not_elem_of_singleton.
      destruct (decide (x = y)) as [->|Hne]; tauto.
Qed.

Lemma distinct_from_NoDup (seen : gset string) (l : list string) : NoDup (distinct_from seen l).
Proof.
  revert seen. induction l as [|y l IH]; intros seen; cbn; [constructor|].
  destruct (decide (y ∈ seen)); [apply IH|]. constructor; [|apply IH].
  rewrite distinct_from_elem, not_elem_of_union, not_elem_of_singleton. tauto.
Qed.

Lemma existsb_in_section (s : string) (done : list Docs.DocPage) :
  List.existsb (in_section s) done = true ↔ s ∈ List.map Docs.section done.
Proof.
  rewrite existsb_exists, elem_of_map. unfold in_section.
  split; intros (page & H1 & H2); exists page.
  - apply String.eqb_eq in H2. split; [done|by apply list_elem_of_In].
  - split; [by apply list_elem_of_In|]. apply String.eqb_eq. done.
Qed.

Lemma filter_none {A} (t : A -> bool) (l : list A) :
  List.existsb t l = false → List.filter t l = [].
Proof.
  induction l as [|x l IH]; [reflexivity|]. cbn.
  destruct (t x); [discriminate|exact IH].
Qed.

(** One turn of the loop takes the index of the pages done so far to the
    index with the next page. *)
Lemma index_page_indexes (n : nat) (done : list Docs.DocPage) (idx : index)
      (page : Docs.DocPage) :
  indexes n done idx → indexes n (done ++ [page]) (index_page idx page).
Proof.
  intros (Htotal & Hpages & Hkeys & Hget). unfold index_page.
  split; [exact Htotal|]. cbn [DocsSave.pages DocsSave.sections].
  split; [by rewrite Hpages, List.map_app|].
  assert (Hhas : dict_has (Docs.section page) (sections idx)
                 = List.existsb (in_section (Docs.section page)) done)
    by (rewrite dict_has_get, Hget; by destruct (List.existsb _ done)).
  split.
  - rewrite dict_append_keys, List.map_app. cbn [List.map]. rewrite distinct_from_snoc.
    destruct (List.existsb (in_section (Docs.section page)) done) eqn:Hex; rewrite Hhas.
    + rewrite Hkeys, decide_True, app_nil_r; [reflexivity|].
      right. by apply existsb_in_section.
    + rewrite List.map_app, Hkeys. cbn. rewrite decide_False; [reflexivity|].
      intros [H|H]; [by apply not_elem_of_empty in H|].
      apply existsb_in_section in H. congruence.
  - intros s. rewrite dict_get_append, List.existsb_app. unfold section_group.
    rewrite List.filter_app, List.map_app. cbn [List.existsb List.filter].
    unfold in_section at 2 4. rewrite orb_false_r.
    assert (Hget1 : dict_get s (if dict_has (Docs.section page) (sections idx)
                               then sections idx
                               else sections idx ++ [(Docs.section page, [])])
                    = match dict_get s (sections idx) with
                      | Some l => Some l
                      | None => if String.eqb (Docs.section page) s then Some [] else None
                      end).
    { rewrite Hhas. destruct (List.existsb (in_section (Docs.section page)) done) eqn:Hex.
      - destruct (dict_get s (sections idx)) eqn:Hs; [reflexivity|].
        destruct (String.eqb_spec (Docs.section page) s) as [<-|_]; [|reflexivity].
        rewrite Hget, Hex in Hs. discriminate.
      - apply dict_get_snoc. }
    rewrite Hget1, Hget.
    destruct (String.eqb (Docs.section page) s); cbn.
    + rewrite orb_true_r. destruct (List.existsb (in_section s) done) eqn:Hex; [reflexivity|].
      by rewrite (filter_none _ _ Hex).
    + rewrite orb_false_r, app_nil_r.
      destruct (List.existsb (in_section s) done); reflexivity.
Qed.

Lemma fold_index_page (n : nat) (rest : list Docs.DocPage) :
  ∀ done idx, indexes n done idx →
              indexes n (done ++ rest) (List.fold_left index_page rest idx).
Proof.
  induction rest as [|page rest IH]; intros done idx Hidx; cbn.
  - by rewrite app_nil_r.
  - rewrite (cons_middle page done rest), app_assoc.
    apply IH. by apply index_page_indexes.
Qed.

Lemma build_index_indexes (pages_ : list Docs.DocPage) :
  indexes (List.length pages_) pages_ (build_index pages_).
Proof.
  apply (fold_index_page _ pages_ []). repeat split.
Qed.

End Index.

(** X19: the index that [save_all_pages] builds counts the pages, lists
    every page once in the order of the crawl, has one key for each
    section in the order in which the sections first occur, and holds under
    each section the entries of exactly the pages of that section, in the
    order of the crawl. *)
Theorem X19_index_groups_pages_by_section (pages_ : list Docs.DocPage) :
  DocsSave.total_pages (DocsSave.build_index pages_) = List.length pages_
  ∧ DocsSave.pages (DocsSave.build_index pages_) = List.map DocsSave.page_entry_of pages_
  ∧ List.map fst (DocsSave.sections (DocsSave.build_index pages_))
    = distinct_from ∅ (List.map Docs.section pages_)
  ∧ NoDup (List.map fst (DocsSave.sections (DocsSave.build_index pages_)))
  ∧ ∀ s, DocsSave.dict_get s (DocsSave.sections (DocsSave.build_index pages_))
         = if List.existsb (in_section s) pages_
           then Some (section_group s pages_) else None.
Proof.
  destruct (build_index_indexes pages_) as (H1 & H2 & H3 & H4).
  split; [exact H1|]. split; [exact H2|]. split; [exact H3|]. split; [|exact H4].
  rewrite H3. apply distinct_from_NoDup.
Qed.

(** * Files of the documentation *)

Section DocFiles.

Context {U : UrlLib}.

Lemma docs_save_page_path (dir : string) (files : gmap string DocsSave.file)
      (page : Docs.DocPage) :
  DocsSave.save_page dir files page
  = path ← page_path dir page; mret (path, <[ path := DocsSave.PageFile page ]> files).
Proof.
  unfold DocsSave.save_page, page_path. by destruct (Docs.page_filename page).
Qed.

(** The directory model of the claims and the one with the index give
    [save_page] the same path. *)
Lemma docs_save_page_same_path (dir : string) (files : gmap string DocsSave.file)
      (files0 : gmap string Docs.DocPage) (page : Docs.DocPage) :
  fst <$> DocsSave.save_page dir files page = fst <$> Docs.save_page dir files0 page.
Proof.
  unfold DocsSave.save_page, Docs.save_page. by destruct (Docs.page_filename page).
Qed.

(** A page file that is there after the pages were saved was there before,
    or holds a page of the list under the path of that page. *)
Lemma save_pages_origin (dir : string) (pages_ : list Docs.DocPage) :
  ∀ (files files' : gmap string DocsSave.file) (path : string) (page : Docs.DocPage),
    DocsSave.save_pages dir files pages_ = Ok files' →
    files' !! path = Some (DocsSave.PageFile page) →
    files !! path = Some (DocsSave.PageFile page)
    ∨ (page ∈ pages_ ∧ page_path dir page = Ok path).
Proof.
  induction pages_ as [|p pages_ IH]; intros files files' path page; cbn [DocsSave.save_pages].
  - intros [= <-] H. by left.
  - rewrite docs_save_page_path. destruct (page_path dir p) as [path_p|] eqn:Hp; [|discriminate].
    cbn. intros Hrest Hfile. destruct (IH _ _ _ _ Hrest Hfile) as [Hold|[Hin Hpath]].
    + destruct (decide (path_p = path)) as [->|Hne].
      * rewrite lookup_insert_eq in Hold. injection Hold as ->.
        right. split; [apply elem_of_cons; by left|exact Hp].
      * rewrite lookup_insert_ne in Hold by exact Hne. by left.
    + right. split; [apply elem_of_cons; by right|exact Hpath].
Qed.

Lemma save_pages_succeeds (dir : string) (pages_ : list Docs.DocPage) :
  ∀ files : gmap string DocsSave.file,
    (∀ page, page ∈ pages_ → is_Some (url_path (Docs.url page))) →
    ∃ files', DocsSave.save_pages dir files pages_ = Ok files'.
Proof.
  induction pages_ as [|p pages_ IH]; intros files Hpaths; cbn [DocsSave.save_pages].
  - by exists files.
  - destruct (Hpaths p) as [path Hpath]; [apply elem_of_cons; by left|].
    unfold DocsSave.save_page, Docs.page_filename. rewrite Hpath. cbn.
    apply IH. intros q Hq. apply Hpaths, elem_of_cons. by right.
Qed.

Lemma page_filename_shape (page : Docs.DocPage) (name : string) :
  Docs.page_filename page = Ok name → name ≠ "" ∧ PyStr.contains "/" name = false.
Proof.
  unfold Docs.page_filename. destruct (url_path (Docs.url page)) as [path|]; [|discriminate].
  cbn. destruct (flatten_path path) as [|c s] eqn:Hflat; cbn; intros [= <-].
  - split; [discriminate|reflexivity].
  - split; [discriminate|]. rewrite <- Hflat. apply flatten_path_flat.
Qed.

End DocFiles.

(** X20: when [save_all_pages] has saved the pages of a crawl into an
    empty directory, [index.json] holds the index.  A page whose URL has an
    empty path, as the start page of the documentation has, is saved as
    [index.json] too, before the index: its record is in no file. *)
Theorem X20_index_replaces_root_page `{U : UrlLib} (output_dir : string)
        (pages_ : list Docs.DocPage) (files' : gmap string DocsSave.file) :
  DocsSave.save_all_pages output_dir ∅ pages_ = Ok files' →
  files' !! path_join output_dir "index.json"
  = Some (DocsSave.IndexFile (DocsSave.build_index pages_))
  ∧ ∀ page, Docs.page_filename page = Ok "index" →
            ∀ path, files' !! path ≠ Some (DocsSave.PageFile page).
Proof.
  unfold DocsSave.save_all_pages, DocsSave.index_path.
  destruct (DocsSave.save_pages output_dir ∅ pages_) as [files1|] eqn:Hsave; [|discriminate].
  cbn. intros [= <-]. split; [apply lookup_insert_eq|].
  intros page Hname path Hfile.
  destruct (decide (path_join output_dir "index.json" = path)) as [<-|Hne].
  - rewrite lookup_insert_eq in Hfile. discriminate.
  - rewrite lookup_insert_ne in Hfile by exact Hne.
    destruct (save_pages_origin _ _ _ _ _ _ Hsave Hfile) as [Hempty|[_ Hpath]].
    + by rewrite lookup_empty in Hempty.
    + unfold page_path in Hpath. rewrite Hname in Hpath. cbn in Hpath.
      injection Hpath as Hpath. contradiction.
Qed.

Lemma X20_index_replaces_root_page_witness :
  let home := {| Docs.url := "https://docs.monad.xyz"; Docs.title := "Monad Docs";
                 Docs.content := "Welcome."; Docs.section := "General";
                 Docs.subsection := None; Docs.breadcrumbs := [] |} in
  let intro := {| Docs.url := "https://docs.monad.xyz/intro"; Docs.title := "Introduction";
                  Docs.content := "Monad is ..."; Docs.section := "Docs";
                  Docs.subsection := None; Docs.breadcrumbs := ["Docs"] |} in
  ∃ files',
    DocsSave.save_all_pages (U := SimpleUrl.lib) "data/docs" ∅ [home; intro] = Ok files'
    ∧ Docs.page_filename (U := SimpleUrl.lib) home = Ok "index"
    ∧ files' !! "data/docs/intro.json" = Some (DocsSave.PageFile intro)
    ∧ files' !! "data/docs/index.json"
      = Some (DocsSave.IndexFile (DocsSave.build_index [home; intro]))
    ∧ ∀ path, files' !! path ≠ Some (DocsSave.PageFile home).
Proof.
  cbv zeta.
  set (home := {| Docs.url := "https://docs.monad.xyz"; Docs.title := "Monad Docs";
                  Docs.content := "Welcome."; Docs.section := "General";
                  Docs.subsection := None; Docs.breadcrumbs := [] |}).
  set (intro := {| Docs.url := "https://docs.monad.xyz/intro"; Docs.title := "Introduction";
                   Docs.content := "Monad is ..."; Docs.section := "Docs";
                   Docs.subsection := None; Docs.breadcrumbs := ["Docs"] |}).
  destruct (DocsSave.save_all_pages (U := SimpleUrl.lib) "data/docs" ∅ [home; intro])
    as [files'|] eqn:Hsave; [|vm_compute in Hsave; discriminate].
  assert (Hname : Docs.page_filename (U := SimpleUrl.lib) home = Ok "index")
    by (vm_compute; reflexivity).
  destruct (X20_index_replaces_root_page (U := SimpleUrl.lib) "data/docs" [home; intro] files'
              Hsave) as [Hindex Hlost].
  exists files'. split; [reflexivity|]. split; [exact Hname|]. split.
  - vm_compute in Hsave. injection Hsave as <-. vm_compute. reflexivity.
  - split; [exact Hindex|exact (Hlost home Hname)].
Defined.

(** X21: the file name that [save_page] derives from the URL of a page is
    never empty and holds no [/]: every page file lies in the output
    directory itself. *)
Theorem X21_page_filename_is_flat `{U : UrlLib} (page : Docs.DocPage) (name : string) :
  Docs.page_filename page = Ok name → name ≠ "" ∧ PyStr.contains "/" name = false.
Proof. apply page_filename_shape. Qed.

Lemma X21_page_filename_is_flat_witness :
  let page := {| Docs.url := "https://docs.monad.xyz/guide/install/"; Docs.title := "Install";
                 Docs.content := ""; Docs.section := "General";
                 Docs.subsection := None; Docs.breadcrumbs := [] |} in
  Docs.page_filename (U := SimpleUrl.lib) page = Ok "guide_install"
  ∧ "guide_install" ≠ "" ∧ PyStr.contains "/" "guide_install" = false.
Proof.
  cbv zeta.
  match goal with |- ?P ∧ _ => assert (H : P) by (vm_compute; reflexivity) end.
  split; [exact H|].
  exact (X21_page_filename_is_flat (U := SimpleUrl.lib) _ _ H).
Defined.

(** The sample site of three pages: its reachable pages. *)
Lemma site_pages_distinct : NoDup [Pages.seed; Pages.page_a; Pages.page_b].
Proof. apply NoDup_ListNoDup. repeat constructor; simpl; intuition discriminate. Defined.

Lemma site_pages_reachable (u : string) :
  u ∈ [Pages.seed; Pages.page_a; Pages.page_b]
  ↔ reachable (U := SimpleUrl.lib) Pages.site Pages.seed u.
Proof.
  assert (Hsa : links_to (U := SimpleUrl.lib) Pages.site Pages.seed Pages.page_a).
  { unfold links_to. links_are [Pages.page_a; Pages.page_b]. apply elem_of_cons. by left. }
  assert (Hsb : links_to (U := SimpleUrl.lib) Pages.site Pages.seed Pages.page_b).
  { unfold links_to. links_are [Pages.page_a; Pages.page_b].
    apply elem_of_cons; right. apply elem_of_cons. by left. }
  split.
  - intros Hu. apply list_elem_of_In in Hu. simpl in Hu.
    destruct Hu as [<-|[<-|[<-|[]]]].
    + constructor.
    + exact (reach_link _ _ _ _ (reach_seed _ _) Hsa).
    + exact (reach_link _ _ _ _ (reach_seed _ _) Hsb).
  - induction 1 as [|x v _ IH Hl]; [apply elem_of_cons; by left|].
    unfold links_to in Hl. apply list_elem_of_In in IH. simpl in IH.
    destruct IH as [<-|[<-|[<-|[]]]].
    + links_are_in [Pages.page_a; Pages.page_b] Hl. apply elem_of_cons; right. exact Hl.
    + links_are_in [Pages.page_b; Pages.seed; Pages.page_a] Hl.
      apply list_elem_of_In in Hl. apply list_elem_of_In. simpl in *. tauto.
    + links_are_in [Pages.page_a; Pages.seed] Hl.
      apply list_elem_of_In in Hl. apply list_elem_of_In. simpl in *. tauto.
Defined.

Lemma site_pages_served (u : string) :
  u ∈ [Pages.seed; Pages.page_a; Pages.page_b] → Pages.site u ≠ Failed.
Proof.
  intros Hu. apply list_elem_of_In in Hu. simpl in Hu.
  destruct Hu as [<-|[<-|[<-|[]]]]; vm_compute; discriminate.
Defined.

(** X22: run without [--single-page] on a site as in C1, with [N]
    reachable pages whose URLs [urlparse] accepts, [main] ends and leaves an
    index in [index.json] that counts [N] pages and lists the reachable
    URLs, each once. *)
Theorem X22_main_indexes_the_site `{U : UrlLib} (web : string -> http Bs4.node)
        (seed output_dir : string) (R : list string) :
  NoDup R →
  (∀ u, u ∈ R ↔ reachable web seed u) →
  (∀ u, u ∈ R → web u ≠ Failed) →
  (∀ u, u ∈ R → is_Some (url_path u)) →
  ∃ fuel files' idx,
    DocsSave.main (static web) fuel seed output_dir false ∅ = Some (Ok files')
    ∧ files' !! path_join output_dir "index.json" = Some (DocsSave.IndexFile idx)
    ∧ DocsSave.total_pages idx = List.length R
    ∧ List.map DocsSave.p_url (DocsSave.pages idx) ≡ₚ R.
Proof.
  intros Hnd Hreach Hserved Hpaths.
  destruct (crawl_of_finite_site web seed R Hreach Hserved Hnd)
    as (fuel & final & Hrun & Hperm & Hlen & _).
  destruct (save_pages_succeeds output_dir (Docs.pages final) ∅) as [files1 Hsave].
  { intros page Hpage. apply Hpaths. rewrite <- Hperm. by apply elem_of_map_2. }
  exists fuel, (<[ DocsSave.index_path output_dir
                   := DocsSave.IndexFile (DocsSave.build_index (Docs.pages final)) ]> files1),
         (DocsSave.build_index (Docs.pages final)).
  destruct (build_index_indexes (Docs.pages final)) as (Htotal & Hpages & _).
  split; [|split; [apply lookup_insert_eq|split]].
  - unfold DocsSave.main. rewrite Hrun. unfold DocsSave.save_all_pages. by rewrite Hsave.
  - by rewrite Htotal.
  - rewrite Hpages, List.map_map. exact Hperm.
Qed.

Lemma X22_main_indexes_the_site_witness :
  let R := [Pages.seed; Pages.page_a; Pages.page_b] in
  NoDup R
  ∧ (∀ u, u ∈ R ↔ reachable (U := SimpleUrl.lib) Pages.site Pages.seed u)
  ∧ (∀ u, u ∈ R → Pages.site u ≠ Failed)
  ∧ (∀ u, u ∈ R → is_Some (url_path (UrlLib := SimpleUrl.lib) u))
  ∧ ∃ fuel files' idx,
      DocsSave.main (U := SimpleUrl.lib) (static Pages.site) fuel Pages.seed "data/docs" false ∅
      = Some (Ok files')
      ∧ files' !! "data/docs/index.json" = Some (DocsSave.IndexFile idx)
      ∧ DocsSave.total_pages idx = 3
      ∧ List.map DocsSave.p_url (DocsSave.pages idx) ≡ₚ R.
Proof.
  cbv zeta.
  pose proof site_pages_distinct as Hnd.
  pose proof site_pages_reachable as Hreach.
  pose proof site_pages_served as Hserved.
  assert (Hpaths : ∀ u, u ∈ [Pages.seed; Pages.page_a; Pages.page_b] →
                        is_Some (url_path (UrlLib := SimpleUrl.lib) u)).
  { intros u Hu. apply list_elem_of_In in Hu. simpl in Hu.
    destruct Hu as [<-|[<-|[<-|[]]]]; eexists; vm_compute; reflexivity. }
  split; [exact Hnd|]. split; [exact Hreach|]. split; [exact Hserved|]. split; [exact Hpaths|].
  exact (X22_main_indexes_the_site (U := SimpleUrl.lib) Pages.site Pages.seed "data/docs"
           [Pages.seed; Pages.page_a; Pages.page_b] Hnd Hreach Hserved Hpaths).
Defined.

(** * Related papers *)

Section Related.

Variable api : Arxiv.params -> http ET.document.

Lemma related_papers_found (i : string) :
  i ∈ paper_ids (Arxiv.fetch_related_papers api)
  ↔ ∃ query, query ∈ Arxiv.related_queries ∧ i ∈ paper_ids (Arxiv.search_papers api query 5).
Proof.
  unfold Arxiv.fetch_related_papers. rewrite remove_duplicates_first_occurrences.
  rewrite first_occurrences_ids. unfold Arxiv.related_queries. cbn [List.fold_left app].
  unfold paper_ids. rewrite !List.map_app, !elem_of_app.
  pose proof (not_elem_of_empty (C := gset string) i) as Hempty. split.
  - intros [[[[H|H]|H]|H] _]; eexists; (split; [|exact H]);
      repeat (first [apply list_elem_of_here | apply list_elem_of_further]).
  - intros (query & Hq & Hi). split; [|exact Hempty].
    repeat (apply elem_of_cons in Hq; destruct Hq as [->|Hq]; [tauto|]).
    by apply elem_of_nil in Hq.
Qed.

Context {F : FileSys}.
Variable pdfs : string -> http string.

(** What saving one paper does in the related-papers mode. *)
Lemma save_paper_files (dir : string) (download : bool) (files files' : gmap string ArxivMain.file)
      (paper : Arxiv.ArxivPaper) :
  ArxivMain.save_paper pdfs dir download files paper = Ok files' →
  ∃ file, Arxiv.metadata_path dir paper = Some file
          ∧ (files' = <[ file := ArxivMain.MetadataFile paper ]> files
             ∨ ∃ pdf content,
                 ArxivMain.pdf_path dir paper = Some pdf
                 ∧ files' = <[ pdf := ArxivMain.PdfFile content ]>
                              (<[ file := ArxivMain.MetadataFile paper ]> files)).
Proof.
  unfold ArxivMain.save_paper. rewrite main_save_metadata.
  destruct (Arxiv.metadata_path dir paper) as [file|]; [|discriminate]. cbn.
  intros Hsave. exists file. split; [reflexivity|].
  destruct download; [|injection Hsave as <-; by left].
  rewrite main_download_pdf in Hsave.
  destruct (pdfs (Arxiv.pdf_url paper)) as [content|]; [|injection Hsave as <-; by left].
  destruct (ArxivMain.pdf_path dir paper) as [pdf|]; [|discriminate].
  injection Hsave as <-. right. by exists pdf, content.
Qed.

Lemma save_paper_raises (dir : string) (download : bool) (files : gmap string ArxivMain.file)
      (paper : Arxiv.ArxivPaper) (e : exn) :
  ArxivMain.save_paper pdfs dir download files paper = Raise e →
  e = OSError
  ∧ (Arxiv.metadata_path dir paper = None
     ∨ (download = true ∧ pdfs (Arxiv.pdf_url paper) ≠ Failed
        ∧ ArxivMain.pdf_path dir paper = None)).
Proof.
  unfold ArxivMain.save_paper. rewrite main_save_metadata.
  destruct (Arxiv.metadata_path dir paper) as [file|]; [|intros [= <-]; by split; [|left]].
  cbn. destruct download; [|discriminate].
  rewrite main_download_pdf.
  destruct (pdfs (Arxiv.pdf_url paper)) as [content|]; [|discriminate].
  destruct (ArxivMain.pdf_path dir paper) as [pdf|]; [discriminate|].
  intros [= <-]. split; [reflexivity|]. right. by repeat split.
Qed.

Lemma save_related_cons (dir : string) (download : bool) (files : gmap string ArxivMain.file)
      (paper : Arxiv.ArxivPaper) (rest : list Arxiv.ArxivPaper) :
  ArxivMain.save_related pdfs dir download files (paper :: rest)
  = match ArxivMain.save_paper pdfs dir download files paper with
    | Ok files1 => ArxivMain.save_related pdfs dir download files1 rest
    | Raise e => Raise e
    end.
Proof. reflexivity. Qed.

(** A file that belongs to none of the papers is left as it is. *)
Lemma save_related_other (dir : string) (download : bool) (papers : list Arxiv.ArxivPaper) :
  ∀ (files files' : gmap string ArxivMain.file) (file : string),
    ArxivMain.save_related pdfs dir download files papers = Ok files' →
    (∀ q, q ∈ papers → Arxiv.metadata_path dir q ≠ Some file
                       ∧ ArxivMain.pdf_path dir q ≠ Some file) →
    files' !! file = files !! file.
Proof.
  induction papers as [|p papers IH]; intros files files' file; [by intros [= <-]|].
  rewrite save_related_cons.
  destruct (ArxivMain.save_paper pdfs dir download files p) as [files1|] eqn:Hp; [|discriminate].
  intros Hrest Hother. rewrite (IH _ _ _ Hrest).
  - destruct (Hother p) as [Hm Hpdf]; [apply elem_of_cons; by left|].
    destruct (save_paper_files _ _ _ _ _ Hp) as (f & Hf & [->|(pdf & content & Hpdf' & ->)]).
    + apply lookup_insert_ne. congruence.
    + rewrite !lookup_insert_ne by congruence. reflexivity.
  - intros q Hq. apply Hother, elem_of_cons. by right.
Qed.

Lemma save_related_metadata (dir : string) (download : bool) (papers : list Arxiv.ArxivPaper) :
  separates F →
  ∀ (files files' : gmap string ArxivMain.file) (paper : Arxiv.ArxivPaper),
    (∀ q, q ∈ papers → plain (Arxiv.paper_id q)) →
    NoDup (paper_ids papers) →
    ArxivMain.save_related pdfs dir download files papers = Ok files' →
    paper ∈ papers →
    ∃ file, Arxiv.metadata_path dir paper = Some file
            ∧ files' !! file = Some (ArxivMain.MetadataFile paper).
Proof.
  intros Hsep.
  induction papers as [|p papers IH]; intros files files' paper Hplain Hnd Hsave Hin.
  - by apply elem_of_nil in Hin.
  - unfold paper_ids in Hnd. cbn in Hnd. apply NoDup_cons in Hnd. destruct Hnd as [Hp Hnd].
    rewrite save_related_cons in Hsave.
    destruct (ArxivMain.save_paper pdfs dir download files p) as [files1|] eqn:Hsp;
      [|discriminate].
    assert (Hpp : plain (Arxiv.paper_id p)) by (apply Hplain, elem_of_cons; by left).
    assert (Hrest : ∀ q, q ∈ papers → plain (Arxiv.paper_id q))
      by (intros q Hq; apply Hplain, elem_of_cons; by right).
    apply elem_of_cons in Hin. destruct Hin as [->|Hin]; [|by apply (IH files1)].
    destruct (save_paper_files _ _ _ _ _ Hsp) as (f & Hf & Hfiles1).
    exists f. split; [exact Hf|].
    rewrite (save_related_other _ _ _ _ _ f Hsave).
    + destruct Hfiles1 as [->|(pdf & content & Hpdf & ->)]; [apply lookup_insert_eq|].
      rewrite lookup_insert_ne; [apply lookup_insert_eq|].
      intros ->. by apply (metadata_file_is_not_pdf_file dir f p p).
    + intros q Hq. split.
      * intros Hqf. apply Hp.
        rewrite <- (metadata_file_inj dir f q p Hsep (Hrest q Hq) Hpp Hqf Hf).
        by apply elem_of_map_2.
      * by apply (metadata_file_is_not_pdf_file dir f p q Hsep Hpp (Hrest q Hq)).
Qed.

(** The loop raises nothing but the [OSError] of a file of one of the
    papers. *)
Lemma save_related_raises (dir : string) (download : bool) (papers : list Arxiv.ArxivPaper) :
  ∀ (files : gmap string ArxivMain.file) (e : exn),
    ArxivMain.save_related pdfs dir download files papers = Raise e →
    e = OSError
    ∧ ∃ paper, paper ∈ papers
               ∧ (Arxiv.metadata_path dir paper = None
                  ∨ (download = true ∧ pdfs (Arxiv.pdf_url paper) ≠ Failed
                     ∧ ArxivMain.pdf_path dir paper = None)).
Proof.
  induction papers as [|p papers IH]; intros files e; [discriminate|].
  rewrite save_related_cons.
  destruct (ArxivMain.save_paper pdfs dir download files p) as [files1|e1] eqn:Hsp.
  - intros Hrest. destruct (IH _ _ Hrest) as (He & paper & Hin & Hwhy).
    split; [exact He|]. exists paper. split; [apply elem_of_cons; by right|exact Hwhy].
  - intros [= <-]. destruct (save_paper_raises _ _ _ _ _ Hsp) as [He Hwhy].
    split; [exact He|]. exists p. split; [apply elem_of_cons; by left|exact Hwhy].
Qed.

End Related.

(** X23: the related papers carry exactly the identities that the four
    searches find, each identity once. *)
Theorem X23_related_papers_cover_searches (api : Arxiv.params -> http ET.document) :
  NoDup (paper_ids (Arxiv.fetch_related_papers api))
  ∧ ∀ i, i ∈ paper_ids (Arxiv.fetch_related_papers api)
         ↔ ∃ query, query ∈ Arxiv.related_queries
                    ∧ i ∈ paper_ids (Arxiv.search_papers api query 5).
Proof.
  split; [|apply related_papers_found].
  unfold Arxiv.fetch_related_papers. rewrite remove_duplicates_first_occurrences.
  apply first_occurrences_NoDup.
Qed.

(** X24: [main] run with [--fetch-related], with or without
    [--download-pdf], when the identities of the related papers hold no
    [/] and the file system keeps the plain names of a directory apart.
    Either [main] returns, and then the metadata file of every related
    paper holds that paper: no later paper and no PDF has taken its place.
    Or it ends with [OSError], and then the metadata file of a related
    paper could not be opened, or its PDF file after a download that went
    through. *)
Theorem X24_related_mode_keeps_metadata `{F : FileSys} (api : Arxiv.params -> http ET.document)
        (pdfs : string -> http string) (a : ArxivMain.args)
        (files : gmap string ArxivMain.file) :
  separates F →
  (∀ paper, paper ∈ Arxiv.fetch_related_papers api → plain (Arxiv.paper_id paper)) →
  ArxivMain.search_given a = None →
  ArxivMain.fetch_related a = true →
  match ArxivMain.main api pdfs a files with
  | ArxivMain.Finished files' =>
      ∀ paper, paper ∈ Arxiv.fetch_related_papers api →
               ∃ file, Arxiv.metadata_path (ArxivMain.output_dir a) paper = Some file
                       ∧ files' !! file = Some (ArxivMain.MetadataFile paper)
  | ArxivMain.Crashed c =>
      c = ArxivMain.Propagated OSError
      ∧ ∃ paper, paper ∈ Arxiv.fetch_related_papers api
                 ∧ (Arxiv.metadata_path (ArxivMain.output_dir a) paper = None
                    ∨ (ArxivMain.download_pdf_flag a = true
                       ∧ pdfs (Arxiv.pdf_url paper) ≠ Failed
                       ∧ ArxivMain.pdf_path (ArxivMain.output_dir a) paper = None))
  end.
Proof.
  intros Hsep Hplain Hsearch Hrelated. unfold ArxivMain.main. rewrite Hsearch, Hrelated.
  destruct (ArxivMain.save_related pdfs (ArxivMain.output_dir a) (ArxivMain.download_pdf_flag a)
              files (Arxiv.fetch_related_papers api)) as [files'|e] eqn:Hsave;
    cbn [ArxivMain.ending_of].
  - intros paper Hin.
    apply (save_related_metadata pdfs (ArxivMain.output_dir a) (ArxivMain.download_pdf_flag a)
             (Arxiv.fetch_related_papers api) Hsep files files' paper Hplain);
      [|exact Hsave|exact Hin].
    unfold Arxiv.fetch_related_papers. rewrite remove_duplicates_first_occurrences.
    apply first_occurrences_NoDup.
  - destruct (save_related_raises pdfs _ _ _ _ _ Hsave) as [-> Hwhy]. by split.
Qed.

Lemma X24_related_mode_keeps_metadata_witness :
  let api := Feeds.serves (Feeds.feed [Feeds.good_entry]) in
  let pdfs := fun _ : string => Response "%PDF-1.5" in
  let a := {| ArxivMain.paper_id := "2502.20692"; ArxivMain.download_pdf_flag := true;
              ArxivMain.search := None; ArxivMain.fetch_related := true;
              ArxivMain.output_dir := "data/papers" |} in
  separates SimpleFiles.fs
  ∧ (∀ paper, paper ∈ Arxiv.fetch_related_papers api → plain (Arxiv.paper_id paper))
  ∧ ArxivMain.search_given a = None
  ∧ ArxivMain.fetch_related a = true
  ∧ Arxiv.fetch_related_papers api = [Feeds.good_paper]
  ∧ ∃ files',
      ArxivMain.main (F := SimpleFiles.fs) api pdfs a ∅ = ArxivMain.Finished files'
      ∧ ∀ paper, paper ∈ Arxiv.fetch_related_papers api →
                 ∃ file, Arxiv.metadata_path (F := SimpleFiles.fs) "data/papers" paper
                         = Some file
                         ∧ files' !! file = Some (ArxivMain.MetadataFile paper).
Proof.
  cbv zeta.
  set (api := Feeds.serves (Feeds.feed [Feeds.good_entry])).
  set (a := {| ArxivMain.paper_id := "2502.20692"; ArxivMain.download_pdf_flag := true;
               ArxivMain.search := None; ArxivMain.fetch_related := true;
               ArxivMain.output_dir := "data/papers" |}).
  assert (Hrel : Arxiv.fetch_related_papers api = [Feeds.good_paper])
    by (vm_compute; reflexivity).
  assert (Hplain : ∀ paper, paper ∈ Arxiv.fetch_related_papers api
                            → plain (Arxiv.paper_id paper)).
  { intros paper Hin. rewrite Hrel in Hin. apply list_elem_of_singleton in Hin.
    subst paper. vm_compute. reflexivity. }
  assert (H1 : ArxivMain.search_given a = None) by reflexivity.
  assert (H2 : ArxivMain.fetch_related a = true) by reflexivity.
  split; [exact simple_files_separates|]. split; [exact Hplain|].
  split; [exact H1|]. split; [exact H2|]. split; [exact Hrel|].
  pose proof (X24_related_mode_keeps_metadata (F := SimpleFiles.fs) api
                (fun _ => Response "%PDF-1.5") a ∅ simple_files_separates Hplain H1 H2) as H.
  destruct (ArxivMain.main (F := SimpleFiles.fs) api (fun _ => Response "%PDF-1.5") a ∅)
    as [files'|c] eqn:Hmain.
  - exists files'. split; [reflexivity|exact H].
  - exfalso. vm_compute in Hmain. discriminate.
Defined.
